(** * Location service: models, repository and AppSync handler

  A shallow embedding of the Go packages [models], [repository] and
  [handler] of the location Lambda, together with the external
  collaborators they call (encoding/json, encoding/base64, fmt, strconv,
  the DynamoDB client).

  Conventions.
  - A Go [string] and a Go [[]byte] are both a Rocq [string] (a sequence
    of 8-bit characters).
  - A Go [float64] is a primitive binary64 [float].
  - A Go [error] is a value of the inductive [error]; a function that
    returns [(T, error)] returns a [result T]; one that returns only
    [error] returns an [option error] ([None] is [nil]).
  - A Go [map[string]T] that may be [nil] is an [option (gmap string T)]. *)

From Stdlib Require Import ZArith Floats Ascii String List Lia Bool.
From stdpp Require Import gmap strings list fin_maps sorting pretty.

Set Warnings "-register-all,-abstract-large-number".
Set Default Proof Using "Type".

Local Open Scope string_scope.

(* ===================================================================== *)
(** * Part I: definitions                                                 *)
(* ===================================================================== *)

(** ** Go errors and results *)

Module Go.

(** The error values that occur in the program.  The constructors keep
    the structure the code builds: which format string was used, which
    error was wrapped with [%w], which library error is at the bottom. *)
Inductive error :=
| errorString (s : string)
    (* errors.New(s), and fmt.Errorf(s) with no verb *)
| fmtErrorS (prefix : string) (arg : string)
    (* fmt.Errorf(prefix + "%s", arg) *)
| fmtErrorF (prefix : string) (arg : float)
    (* fmt.Errorf(prefix + "%f", arg) *)
| wrapError (prefix : string) (err : error)
    (* fmt.Errorf(prefix + "%w", err) *)
| SyntaxError (msg : string) (offset : Z)
    (* *json.SyntaxError *)
| UnmarshalTypeError (value : string) (gotype : string) (field : string)
    (* *json.UnmarshalTypeError *)
| UnsupportedValueError (arg : float)
    (* *json.UnsupportedValueError, for NaN and the infinities *)
| CorruptInputError (offset : nat)
    (* base64.CorruptInputError *)
| ConditionalCheckFailedException (message : string)
    (* *types.ConditionalCheckFailedException *)
| OperationError (service operation : string) (err : error)
    (* *smithy.OperationError, the wrapper the SDK puts around API errors *)
| apiError (code message : string)
    (* any other error of the store or of the attributevalue package *)
| runtimePanic (msg : string).
    (* a run-time panic, kept as an outcome of its own *)

Inductive result (A : Type) :=
| Ok (a : A)
| Err (e : error).
Global Arguments Ok {A} a.
Global Arguments Err {A} e.

Definition bind {A B} (r : result A) (k : A -> result B) : result B :=
  match r with
  | Ok a => k a
  | Err e => Err e
  end.

(** [errors.As(err, &ccf)] with [ccf] a
    [*types.ConditionalCheckFailedException]: the chain of [Unwrap] is
    followed until an error of that type is met. *)
Fixpoint errors_As_ccf (err : error) : bool :=
  match err with
  | ConditionalCheckFailedException _ => true
  | wrapError _ inner => errors_As_ccf inner
  | OperationError _ _ inner => errors_As_ccf inner
  | _ => false
  end.

Section Rendering.
(** The text [fmt] prints for a float under [%f] and [%g]. *)
Variable fmt_f : float -> string.
Variable fmt_g : float -> string.

(** [err.Error()] *)
Fixpoint Error (err : error) : string :=
  match err with
  | errorString s => s
  | fmtErrorS prefix arg => prefix ++ arg
  | fmtErrorF prefix arg => prefix ++ fmt_f arg
  | wrapError prefix inner => prefix ++ Error inner
  | SyntaxError msg _ => msg
  | UnmarshalTypeError value gotype field =>
      if String.eqb field ""
      then "json: cannot unmarshal " ++ value ++ " into Go value of type " ++ gotype
      else "json: cannot unmarshal " ++ value ++ " into Go struct field "
             ++ field ++ " of type " ++ gotype
  | UnsupportedValueError arg => "json: unsupported value: " ++ fmt_g arg
  | CorruptInputError offset =>
      "illegal base64 data at input byte " ++ pretty offset
  | ConditionalCheckFailedException message =>
      "ConditionalCheckFailedException: " ++ message
  | OperationError service operation inner =>
      "operation error " ++ service ++ ": " ++ operation ++ ", " ++ Error inner
  | apiError code message => code ++ ": " ++ message
  | runtimePanic msg => "panic: " ++ msg
  end.
End Rendering.

End Go.
Export Go.

Notation "'let*' x ':=' r 'in' k" := (Go.bind r (fun x => k))
(at level 10, x name, r at level 100, k at level 200, only parsing).

(** ** float64 *)

Module F64.

(** Go's comparison operators on float64; every comparison with NaN is
    false. *)
Definition lt (x y : float) : bool := PrimFloat.ltb x y.
Definition gt (x y : float) : bool := PrimFloat.ltb y x.
Definition le (x y : float) : bool := PrimFloat.leb x y.

(** [math.IsNaN(f) || math.IsInf(f, 0)] *)
Definition is_nan_or_inf (f : float) : bool :=
  PrimFloat.is_nan f || PrimFloat.is_infinity f.

End F64.

(** Monadic traversals over [result]. *)
Fixpoint mapM_result {A B} (f : A -> result B) (l : list A) : result (list B) :=
  match l with
  | [] => Ok []
  | x :: rest =>
      let* y := f x in
      let* ys := mapM_result f rest in
      Ok (y :: ys)
  end.

Fixpoint foldM_result {A S} (f : A -> S -> result S) (l : list A) (s : S) : result S :=
  match l with
  | [] => Ok s
  | x :: rest => let* s' := f x s in foldM_result f rest s'
  end.

(** ** encoding/json: documents and dynamic values *)

Module JSON.

(** A JSON document as the scanner delivers it.  A number keeps its
    literal text (it is converted only when it is stored into a Go value);
    a string is already unquoted; an object keeps its members in document
    order, duplicates included. *)
Inductive json :=
| JNull
| JBool (b : bool)
| JNumber (literal : string)
| JString (s : string)
| JArray (elems : list json)
| JObject (members : list (string * json)).

(** What [json.Unmarshal] reports of a byte slice before any value is
    stored: a syntax error, or the document. *)
Inductive scanned :=
| Malformed (msg : string) (offset : Z)
| Document (doc : json).

(** The values an [interface{}] holds after decoding: [nil], [bool],
    [float64], [string], [[]interface{}] and [map[string]interface{}]. *)
Inductive goValue :=
| GoNil
| GoBool (b : bool)
| GoFloat (f : float)
| GoString (s : string)
| GoSlice (l : list goValue)
| GoMap (m : gmap string goValue).

(** The parts of the Go standard library the program calls and that are
    not modelled here: the JSON scanner and printer, the conversions
    between float64 and text, and the [fmt] verbs for floats. *)
Class Libraries := {
  (* checkValid and the scanner of encoding/json *)
  json_scan : string -> scanned;
  (* the compact text encoding/json writes for a document *)
  json_render : json -> string;
  (* the text encoding/json writes for a finite float64 *)
  json_formatFloat : float -> string;
  (* strconv.ParseFloat(s, 64); [None] is a range error *)
  strconv_ParseFloat : string -> option float;
  (* strconv.FormatFloat(f, 'f', -1, 64) *)
  strconv_FormatFloat : float -> string;
  fmt_f : float -> string;
  fmt_g : float -> string
}.

(** [UnmarshalTypeError.Value] for a document of the wrong kind. *)
Definition kind_of (j : json) : string :=
  match j with
  | JNull => "null"
  | JBool _ => "bool"
  | JNumber _ => "number"
  | JString _ => "string"
  | JArray _ => "array"
  | JObject _ => "object"
  end.

Definition upper (c : ascii) : ascii :=
  let n := nat_of_ascii c in
  if (97 <=? n)%nat && (n <=? 122)%nat then ascii_of_nat (n - 32) else c.

(** The case folding under which an object key selects a struct field:
    ASCII letters are upper-cased, and the two non-ASCII runes that fold to
    an ASCII letter, U+017F (long s) and U+212A (Kelvin sign), become [S]
    and [K].  All field names of the program are ASCII letters, so no other
    rune can take part in a match. *)
Fixpoint foldName (s : string) : string :=
  match s with
  | EmptyString => EmptyString
  | String c rest =>
      match nat_of_ascii c, rest with
      | 197%nat, String c1 rest1 =>
          if (nat_of_ascii c1 =? 191)%nat then String "S" (foldName rest1)
          else String c (foldName rest)
      | 226%nat, String c1 (String c2 rest2) =>
          if (nat_of_ascii c1 =? 132)%nat && (nat_of_ascii c2 =? 170)%nat
          then String "K" (foldName rest2)
          else String c (foldName rest)
      | _, _ => String (upper c) (foldName rest)
      end
  end.

Section Codec.
Context {lib : Libraries}.

(** *** Decoding into Go values *)

(** A destination of kind string: [null] leaves it as it is. *)
Definition decode_string (gotype field : string) (j : json) (dst : string)
  : result string :=
  match j with
  | JNull => Ok dst
  | JString s => Ok s
  | _ => Err (UnmarshalTypeError (kind_of j) gotype field)
  end.

Definition convertNumber (field literal : string) : result float :=
  match strconv_ParseFloat literal with
  | Some f => Ok f
  | None => Err (UnmarshalTypeError ("number " ++ literal) "float64" field)
  end.

(** A destination of type float64. *)
Definition decode_float64 (field : string) (j : json) (dst : float)
  : result float :=
  match j with
  | JNull => Ok dst
  | JNumber literal => convertNumber field literal
  | _ => Err (UnmarshalTypeError (kind_of j) "float64" field)
  end.

(** A destination of type *float64: [null] sets the pointer to nil, a
    number allocates. *)
Definition decode_float64_ptr (field : string) (j : json) (dst : option float)
  : result (option float) :=
  match j with
  | JNull => Ok None
  | JNumber literal => let* f := convertNumber field literal in Ok (Some f)
  | _ => Err (UnmarshalTypeError (kind_of j) "float64" field)
  end.

(** A destination of type interface{}: the value is built afresh.
    [field] is the struct field the decoder is inside of, which a number
    out of range is reported under; neither a map key nor an array index
    adds to it. *)
Fixpoint decode_interface (field : string) (j : json) : result goValue :=
  match j with
  | JNull => Ok GoNil
  | JBool b => Ok (GoBool b)
  | JNumber literal => let* f := convertNumber field literal in Ok (GoFloat f)
  | JString s => Ok (GoString s)
  | JArray elems =>
      let* l := mapM_result (decode_interface field) elems in Ok (GoSlice l)
  | JObject members =>
      let* m :=
        (fix members_into (ms : list (string * json)) (m : gmap string goValue)
           : result (gmap string goValue) :=
           match ms with
           | [] => Ok m
           | (k, v) :: rest =>
               let* x := decode_interface field v in
               members_into rest (<[k := x]> m)
           end) members ∅ in
      Ok (GoMap m)
  end.

(** The members of an object stored into a map, one after the other: a
    later member with the same key replaces the earlier one. *)
Definition decode_members (field : string) (members : list (string * json))
    (m : gmap string goValue) : result (gmap string goValue) :=
  foldM_result
    (fun kv m => let* x := decode_interface field kv.2 in Ok (<[kv.1 := x]> m))
    members m.

(** A destination of type map[string]interface{}: [null] sets it to nil,
    an object allocates the map when it is nil and adds its members. *)
Definition decode_map (field : string) (j : json) (dst : option (gmap string goValue))
  : result (option (gmap string goValue)) :=
  match j with
  | JNull => Ok None
  | JObject members =>
      let* m := decode_members field members (default ∅ dst) in Ok (Some m)
  | _ => Err (UnmarshalTypeError (kind_of j) "map[string]interface {}" field)
  end.

(** A destination of struct type: [null] leaves it as it is; each member
    of an object is handed, with its key folded, to [setField], which
    stores it into the field it selects or skips it. *)
Definition decode_struct {T} (gotype field : string)
    (setField : string -> json -> T -> result T) (j : json) (dst : T)
  : result T :=
  match j with
  | JNull => Ok dst
  | JObject members =>
      foldM_result (fun kv acc => setField (foldName kv.1) kv.2 acc) members dst
  | _ => Err (UnmarshalTypeError (kind_of j) gotype field)
  end.

(** [json.Unmarshal(data, &dst)]: the syntax of the whole input is checked
    first, then the document is stored by [store]. *)
Definition Unmarshal {T} (store : json -> T -> result T) (data : string) (dst : T)
  : result T :=
  match json_scan data with
  | Malformed msg offset => Err (SyntaxError msg offset)
  | Document doc => store doc dst
  end.

(** *** Encoding Go values *)

Definition key_le {A} (a b : string * A) : Prop := String.leb a.1 b.1 = true.

Global Instance key_le_dec {A} (a b : string * A) : Decision (key_le a b).
Proof. unfold key_le. apply _. Defined.

(** The entries of a map in the order encoding/json writes them: sorted
    by key. *)
Definition sorted_entries {A} (m : gmap string A) : list (string * A) :=
  merge_sort key_le (map_to_list m).

Definition encode_float (f : float) : result json :=
  if F64.is_nan_or_inf f then Err (UnsupportedValueError f)
  else Ok (JNumber (json_formatFloat f)).

Definition sequence_member (kv : string * result json) : result (string * json) :=
  let* j := kv.2 in Ok (kv.1, j).

Fixpoint encode_interface (v : goValue) : result json :=
  match v with
  | GoNil => Ok JNull
  | GoBool b => Ok (JBool b)
  | GoFloat f => encode_float f
  | GoString s => Ok (JString s)
  | GoSlice l => let* elems := mapM_result encode_interface l in Ok (JArray elems)
  | GoMap m =>
      let* members :=
        mapM_result sequence_member (sorted_entries (encode_interface <$> m)) in
      Ok (JObject members)
  end.

Definition encode_map (m : gmap string goValue) : result json :=
  encode_interface (GoMap m).

(** A string field tagged [omitempty]. *)
Definition omitempty_string (name s : string) : list (string * json) :=
  if String.eqb s "" then [] else [(name, JString s)].

(** A *float64 field tagged [omitempty]. *)
Definition omitempty_float_ptr (name : string) (p : option float)
  : result (list (string * json)) :=
  match p with
  | None => Ok []
  | Some f => let* j := encode_float f in Ok [(name, j)]
  end.

(** A map field tagged [omitempty]: left out when [len(m) == 0]. *)
Definition omitempty_map (name : string) (m : option (gmap string goValue))
  : result (list (string * json)) :=
  match m with
  | None => Ok []
  | Some m =>
      if (size m =? 0)%nat then Ok []
      else let* j := encode_map m in Ok [(name, j)]
  end.

(** [json.Marshal(v)] for a value whose document is [doc]. *)
Definition Marshal (doc : result json) : result string :=
  let* d := doc in Ok (json_render d).

End Codec.
End JSON.
Export JSON.

(** ** Package models *)

Module models.

(** [type LocationType string] and its three constants. *)
Definition LocationType := string.
Definition LocationTypeAddress : LocationType := "address".
Definition LocationTypeCoordinates : LocationType := "coordinates".
Definition LocationTypeShop : LocationType := "shop".

(** [type LocationBase struct]: the fields common to all locations. *)
Module LocationBase.
Record t := {
  AccountID : string;                                 (* json:"accountId" *)
  LocationType : models.LocationType;                 (* json:"locationType" *)
  ExtendedAttributes : option (gmap string goValue)   (* json:"extendedAttributes,omitempty" *)
}.
Definition zero : t :=
  {| AccountID := ""; LocationType := ""; ExtendedAttributes := None |}.
End LocationBase.

(** [type Address struct] *)
Module Address.
Record t := {
  StreetAddress : string;    (* json:"streetAddress" *)
  StreetAddress2 : string;   (* json:"streetAddress2,omitempty" *)
  City : string;             (* json:"city" *)
  StateProvince : string;    (* json:"stateProvince,omitempty" *)
  PostalCode : string;       (* json:"postalCode" *)
  Country : string           (* json:"country" *)
}.
Definition zero : t :=
  {| StreetAddress := ""; StreetAddress2 := ""; City := "";
     StateProvince := ""; PostalCode := ""; Country := "" |}.

(** [func (a Address) Validate() error] *)
Definition Validate (a : t) : option error :=
  if String.eqb (StreetAddress a) "" then
    Some (errorString "streetAddress is required")
  else if String.eqb (City a) "" then
    Some (errorString "city is required")
  else if String.eqb (PostalCode a) "" then
    Some (errorString "postalCode is required")
  else if String.eqb (Country a) "" then
    Some (errorString "country is required")
  else if negb (String.length (Country a) =? 2)%nat then
    Some (errorString "country must be a 2-character ISO 3166-1 alpha-2 code")
  else None.
End Address.

(** [type Coordinates struct] *)
Module Coordinates.
Record t := {
  Latitude : float;           (* json:"latitude" *)
  Longitude : float;          (* json:"longitude" *)
  Altitude : option float;    (* *float64, json:"altitude,omitempty" *)
  Accuracy : option float     (* *float64, json:"accuracy,omitempty" *)
}.
Definition zero : t :=
  {| Latitude := 0%float; Longitude := 0%float; Altitude := None; Accuracy := None |}.

(** [func (c Coordinates) Validate() error] *)
Definition Validate (c : t) : option error :=
  if F64.lt (Latitude c) (-90)%float || F64.gt (Latitude c) 90%float then
    Some (fmtErrorF "latitude must be between -90 and 90, got " (Latitude c))
  else if F64.lt (Longitude c) (-180)%float || F64.gt (Longitude c) 180%float then
    Some (fmtErrorF "longitude must be between -180 and 180, got " (Longitude c))
  else
    match Accuracy c with
    | Some acc =>
        if F64.lt acc 0%float then
          Some (fmtErrorF "accuracy must be non-negative, got " acc)
        else None
    | None => None
    end.
End Coordinates.

(** [type Shop struct] *)
Module Shop.
Record t := {
  Name : string;         (* json:"name" *)
  ContactID : string;    (* json:"contactId" *)
  Address : Address.t    (* json:"address" *)
}.
Definition zero : t :=
  {| Name := ""; ContactID := ""; Address := Address.zero |}.

(** [func (s Shop) Validate() error] *)
Definition Validate (s : t) : option error :=
  if String.eqb (Name s) "" then
    Some (errorString "name is required")
  else if String.eqb (ContactID s) "" then
    Some (errorString "contactId is required")
  else
    match Address.Validate (Address s) with
    | Some err => Some err
    | None => None
    end.
End Shop.

(** [type AddressLocation struct { LocationBase; Address Address }] *)
Module AddressLocation.
Record t := {
  Base : LocationBase.t;
  Address : Address.t     (* json:"address" *)
}.
Definition zero : t := {| Base := LocationBase.zero; Address := Address.zero |}.

(** [func (l AddressLocation) Validate() error] *)
Definition Validate (l : t) : option error :=
  if String.eqb (LocationBase.AccountID (Base l)) "" then
    Some (errorString "accountId is required")
  else if negb (String.eqb (LocationBase.LocationType (Base l)) LocationTypeAddress) then
    Some (fmtErrorS "invalid locationType for AddressLocation: "
            (LocationBase.LocationType (Base l)))
  else Address.Validate (Address l).
End AddressLocation.

(** [type CoordinatesLocation struct { LocationBase; Coordinates Coordinates }] *)
Module CoordinatesLocation.
Record t := {
  Base : LocationBase.t;
  Coordinates : Coordinates.t     (* json:"coordinates" *)
}.
Definition zero : t :=
  {| Base := LocationBase.zero; Coordinates := Coordinates.zero |}.

(** [func (l CoordinatesLocation) Validate() error] *)
Definition Validate (l : t) : option error :=
  if String.eqb (LocationBase.AccountID (Base l)) "" then
    Some (errorString "accountId is required")
  else if negb (String.eqb (LocationBase.LocationType (Base l)) LocationTypeCoordinates) then
    Some (fmtErrorS "invalid locationType for CoordinatesLocation: "
            (LocationBase.LocationType (Base l)))
  else Coordinates.Validate (Coordinates l).
End CoordinatesLocation.

(** [type ShopLocation struct { LocationBase; Shop Shop }] *)
Module ShopLocation.
Record t := {
  Base : LocationBase.t;
  Shop : Shop.t     (* json:"shop" *)
}.
Definition zero : t := {| Base := LocationBase.zero; Shop := Shop.zero |}.

(** [func (l ShopLocation) Validate() error] *)
Definition Validate (l : t) : option error :=
  if String.eqb (LocationBase.AccountID (Base l)) "" then
    Some (errorString "accountId is required")
  else if negb (String.eqb (LocationBase.LocationType (Base l)) LocationTypeShop) then
    Some (fmtErrorS "invalid locationType for ShopLocation: "
            (LocationBase.LocationType (Base l)))
  else Shop.Validate (Shop l).
End ShopLocation.

(** [type Location interface]: the three struct types are its only
    implementations. *)
Inductive Location :=
| ofAddressLocation (l : AddressLocation.t)
| ofCoordinatesLocation (l : CoordinatesLocation.t)
| ofShopLocation (l : ShopLocation.t).

Definition base (location : Location) : LocationBase.t :=
  match location with
  | ofAddressLocation l => AddressLocation.Base l
  | ofCoordinatesLocation l => CoordinatesLocation.Base l
  | ofShopLocation l => ShopLocation.Base l
  end.

(** The methods [LocationBase] lends to the three types. *)
Definition GetAccountID (location : Location) : string :=
  LocationBase.AccountID (base location).
Definition GetLocationType (location : Location) : LocationType :=
  LocationBase.LocationType (base location).
Definition GetExtendedAttributes (location : Location) : option (gmap string goValue) :=
  LocationBase.ExtendedAttributes (base location).

Definition Validate (location : Location) : option error :=
  match location with
  | ofAddressLocation l => AddressLocation.Validate l
  | ofCoordinatesLocation l => CoordinatesLocation.Validate l
  | ofShopLocation l => ShopLocation.Validate l
  end.

(** *** JSON forms of the models *)

Section ModelsJSON.
Context {lib : Libraries}.

(** Storing into a string field and into a sub-structure of a record. *)
Definition store_string {T} (gotype field : string) (get : T -> string)
    (set : string -> T -> T) (v : json) (dst : T) : result T :=
  let* s := decode_string gotype field v (get dst) in Ok (set s dst).

Definition store_with {T A} (dec : json -> A -> result A) (get : T -> A)
    (set : A -> T -> T) (v : json) (dst : T) : result T :=
  let* a := dec v (get dst) in Ok (set a dst).

Definition base_with_AccountID (s : string) (b : LocationBase.t) : LocationBase.t :=
  {| LocationBase.AccountID := s;
     LocationBase.LocationType := LocationBase.LocationType b;
     LocationBase.ExtendedAttributes := LocationBase.ExtendedAttributes b |}.
Definition base_with_LocationType (s : string) (b : LocationBase.t) : LocationBase.t :=
  {| LocationBase.AccountID := LocationBase.AccountID b;
     LocationBase.LocationType := s;
     LocationBase.ExtendedAttributes := LocationBase.ExtendedAttributes b |}.
Definition base_with_ExtendedAttributes (m : option (gmap string goValue))
    (b : LocationBase.t) : LocationBase.t :=
  {| LocationBase.AccountID := LocationBase.AccountID b;
     LocationBase.LocationType := LocationBase.LocationType b;
     LocationBase.ExtendedAttributes := m |}.

(** The promoted fields of the embedded [LocationBase]; [None] when the
    folded key selects none of them. *)
Definition base_setField (struct name : string) (v : json) (b : LocationBase.t)
  : option (result LocationBase.t) :=
  if String.eqb name "ACCOUNTID" then
    Some (store_string "string" (struct ++ ".accountId")
            LocationBase.AccountID base_with_AccountID v b)
  else if String.eqb name "LOCATIONTYPE" then
    Some (store_string "models.LocationType" (struct ++ ".locationType")
            LocationBase.LocationType base_with_LocationType v b)
  else if String.eqb name "EXTENDEDATTRIBUTES" then
    Some (store_with (decode_map (struct ++ ".extendedAttributes"))
            LocationBase.ExtendedAttributes base_with_ExtendedAttributes v b)
  else None.

Definition Address_setField (path name : string) (v : json) (a : Address.t)
  : result Address.t :=
  let '(Address.Build_t sa sa2 city sp pc co) := a in
  if String.eqb name "STREETADDRESS" then
    let* s := decode_string "string" (path ++ ".streetAddress") v sa in
    Ok (Address.Build_t s sa2 city sp pc co)
  else if String.eqb name "STREETADDRESS2" then
    let* s := decode_string "string" (path ++ ".streetAddress2") v sa2 in
    Ok (Address.Build_t sa s city sp pc co)
  else if String.eqb name "CITY" then
    let* s := decode_string "string" (path ++ ".city") v city in
    Ok (Address.Build_t sa sa2 s sp pc co)
  else if String.eqb name "STATEPROVINCE" then
    let* s := decode_string "string" (path ++ ".stateProvince") v sp in
    Ok (Address.Build_t sa sa2 city s pc co)
  else if String.eqb name "POSTALCODE" then
    let* s := decode_string "string" (path ++ ".postalCode") v pc in
    Ok (Address.Build_t sa sa2 city sp s co)
  else if String.eqb name "COUNTRY" then
    let* s := decode_string "string" (path ++ ".country") v co in
    Ok (Address.Build_t sa sa2 city sp pc s)
  else Ok a.

Definition decode_Address (path : string) (j : json) (dst : Address.t)
  : result Address.t :=
  decode_struct "models.Address" path (Address_setField path) j dst.

Definition Coordinates_setField (path name : string) (v : json) (c : Coordinates.t)
  : result Coordinates.t :=
  let '(Coordinates.Build_t lat lon alt acc) := c in
  if String.eqb name "LATITUDE" then
    let* f := decode_float64 (path ++ ".latitude") v lat in
    Ok (Coordinates.Build_t f lon alt acc)
  else if String.eqb name "LONGITUDE" then
    let* f := decode_float64 (path ++ ".longitude") v lon in
    Ok (Coordinates.Build_t lat f alt acc)
  else if String.eqb name "ALTITUDE" then
    let* p := decode_float64_ptr (path ++ ".altitude") v alt in
    Ok (Coordinates.Build_t lat lon p acc)
  else if String.eqb name "ACCURACY" then
    let* p := decode_float64_ptr (path ++ ".accuracy") v acc in
    Ok (Coordinates.Build_t lat lon alt p)
  else Ok c.

Definition decode_Coordinates (path : string) (j : json) (dst : Coordinates.t)
  : result Coordinates.t :=
  decode_struct "models.Coordinates" path (Coordinates_setField path) j dst.

Definition Shop_setField (path name : string) (v : json) (s : Shop.t)
  : result Shop.t :=
  let '(Shop.Build_t nm cid addr) := s in
  if String.eqb name "NAME" then
    let* x := decode_string "string" (path ++ ".name") v nm in
    Ok (Shop.Build_t x cid addr)
  else if String.eqb name "CONTACTID" then
    let* x := decode_string "string" (path ++ ".contactId") v cid in
    Ok (Shop.Build_t nm x addr)
  else if String.eqb name "ADDRESS" then
    let* a := decode_Address (path ++ ".address") v addr in
    Ok (Shop.Build_t nm cid a)
  else Ok s.

Definition decode_Shop (path : string) (j : json) (dst : Shop.t) : result Shop.t :=
  decode_struct "models.Shop" path (Shop_setField path) j dst.

Definition AddressLocation_setField (name : string) (v : json) (l : AddressLocation.t)
  : result AddressLocation.t :=
  match base_setField "AddressLocation" name v (AddressLocation.Base l) with
  | Some r => let* b := r in Ok (AddressLocation.Build_t b (AddressLocation.Address l))
  | None =>
      if String.eqb name "ADDRESS" then
        let* a := decode_Address "AddressLocation.address" v (AddressLocation.Address l) in
        Ok (AddressLocation.Build_t (AddressLocation.Base l) a)
      else Ok l
  end.

Definition decode_AddressLocation : json -> AddressLocation.t -> result AddressLocation.t :=
  decode_struct "models.AddressLocation" "" AddressLocation_setField.

Definition CoordinatesLocation_setField (name : string) (v : json)
    (l : CoordinatesLocation.t) : result CoordinatesLocation.t :=
  match base_setField "CoordinatesLocation" name v (CoordinatesLocation.Base l) with
  | Some r =>
      let* b := r in Ok (CoordinatesLocation.Build_t b (CoordinatesLocation.Coordinates l))
  | None =>
      if String.eqb name "COORDINATES" then
        let* c := decode_Coordinates "CoordinatesLocation.coordinates" v
                    (CoordinatesLocation.Coordinates l) in
        Ok (CoordinatesLocation.Build_t (CoordinatesLocation.Base l) c)
      else Ok l
  end.

Definition decode_CoordinatesLocation
  : json -> CoordinatesLocation.t -> result CoordinatesLocation.t :=
  decode_struct "models.CoordinatesLocation" "" CoordinatesLocation_setField.

Definition ShopLocation_setField (name : string) (v : json) (l : ShopLocation.t)
  : result ShopLocation.t :=
  match base_setField "ShopLocation" name v (ShopLocation.Base l) with
  | Some r => let* b := r in Ok (ShopLocation.Build_t b (ShopLocation.Shop l))
  | None =>
      if String.eqb name "SHOP" then
        let* s := decode_Shop "ShopLocation.shop" v (ShopLocation.Shop l) in
        Ok (ShopLocation.Build_t (ShopLocation.Base l) s)
      else Ok l
  end.

Definition decode_ShopLocation : json -> ShopLocation.t -> result ShopLocation.t :=
  decode_struct "models.ShopLocation" "" ShopLocation_setField.

(** The anonymous [struct { LocationType LocationType `json:"locationType"` }]
    that [UnmarshalLocation] decodes first. *)
Definition discriminator_setField (name : string) (v : json) (t : LocationType)
  : result LocationType :=
  if String.eqb name "LOCATIONTYPE"
  then decode_string "models.LocationType" ".locationType" v t
  else Ok t.

(** The name of that type as reflect prints it, the tag of the field
    included: the tag is printed as a quoted Go string, in which the two
    double quotes of the tag are escaped by a backslash. *)
Definition discriminator_type : string :=
  "struct { LocationType models.LocationType "
  ++ String "034"
       ("json:" ++ String "092" (String "034"
          ("locationType" ++ String "092" (String "034" (String "034" " }"))))).

Definition decode_discriminator : json -> LocationType -> result LocationType :=
  decode_struct discriminator_type "" discriminator_setField.

(** [func UnmarshalLocation(data []byte) (Location, error)] *)
Definition UnmarshalLocation (data : string) : result Location :=
  match Unmarshal decode_discriminator data "" with
  | Err err => Err (wrapError "failed to unmarshal location type: " err)
  | Ok locationType =>
      if String.eqb locationType LocationTypeAddress then
        match Unmarshal decode_AddressLocation data AddressLocation.zero with
        | Err err => Err (wrapError "failed to unmarshal address location: " err)
        | Ok loc => Ok (ofAddressLocation loc)
        end
      else if String.eqb locationType LocationTypeCoordinates then
        match Unmarshal decode_CoordinatesLocation data CoordinatesLocation.zero with
        | Err err => Err (wrapError "failed to unmarshal coordinates location: " err)
        | Ok loc => Ok (ofCoordinatesLocation loc)
        end
      else if String.eqb locationType LocationTypeShop then
        match Unmarshal decode_ShopLocation data ShopLocation.zero with
        | Err err => Err (wrapError "failed to unmarshal shop location: " err)
        | Ok loc => Ok (ofShopLocation loc)
        end
      else Err (fmtErrorS "unknown location type: " locationType)
  end.

(** The documents [json.Marshal] writes: the fields in declaration order,
    those of the embedded [LocationBase] first. *)
Definition encode_base (b : LocationBase.t) : result (list (string * json)) :=
  let* ext := omitempty_map "extendedAttributes" (LocationBase.ExtendedAttributes b) in
  Ok ([("accountId", JString (LocationBase.AccountID b));
       ("locationType", JString (LocationBase.LocationType b))] ++ ext)%list.

Definition encode_Address (a : Address.t) : json :=
  JObject ([("streetAddress", JString (Address.StreetAddress a))]
           ++ omitempty_string "streetAddress2" (Address.StreetAddress2 a)
           ++ [("city", JString (Address.City a))]
           ++ omitempty_string "stateProvince" (Address.StateProvince a)
           ++ [("postalCode", JString (Address.PostalCode a));
               ("country", JString (Address.Country a))])%list.

Definition encode_Coordinates (c : Coordinates.t) : result json :=
  let* lat := encode_float (Coordinates.Latitude c) in
  let* lon := encode_float (Coordinates.Longitude c) in
  let* alt := omitempty_float_ptr "altitude" (Coordinates.Altitude c) in
  let* acc := omitempty_float_ptr "accuracy" (Coordinates.Accuracy c) in
  Ok (JObject ([("latitude", lat); ("longitude", lon)] ++ alt ++ acc)%list).

Definition encode_Shop (s : Shop.t) : json :=
  JObject [("name", JString (Shop.Name s));
           ("contactId", JString (Shop.ContactID s));
           ("address", encode_Address (Shop.Address s))].

Definition encode_Location (location : Location) : result json :=
  let* b := encode_base (base location) in
  match location with
  | ofAddressLocation l =>
      Ok (JObject (b ++ [("address", encode_Address (AddressLocation.Address l))])%list)
  | ofCoordinatesLocation l =>
      let* c := encode_Coordinates (CoordinatesLocation.Coordinates l) in
      Ok (JObject (b ++ [("coordinates", c)])%list)
  | ofShopLocation l =>
      Ok (JObject (b ++ [("shop", encode_Shop (ShopLocation.Shop l))])%list)
  end.

(** [json.Marshal(location)] *)
Definition MarshalLocation (location : Location) : result string :=
  Marshal (encode_Location location).

End ModelsJSON.
End models.

(** ** encoding/base64, the standard encoding with padding *)

Module base64.

(** A group of six bits, the most significant first. *)
Inductive sextet := Sextet (b5 b4 b3 b2 b1 b0 : bool).

Definition bit (b : bool) (weight : nat) : nat := if b then weight else 0%nat.

Definition sextet_index (s : sextet) : nat :=
  let '(Sextet b5 b4 b3 b2 b1 b0) := s in
  (bit b5 32 + bit b4 16 + bit b3 8 + bit b2 4 + bit b1 2 + bit b0 1)%nat.

Definition sextet_of_index (n : nat) : sextet :=
  Sextet (Nat.testbit n 5) (Nat.testbit n 4) (Nat.testbit n 3)
         (Nat.testbit n 2) (Nat.testbit n 1) (Nat.testbit n 0).

(** [const encodeStd] *)
Definition encodeStd : string :=
  "ABCDEFGHIJKLMNOPQRSTUVWXYZabcdefghijklmnopqrstuvwxyz0123456789+/".

Definition padChar : ascii := "="%char.

(** [enc.encode[i]] *)
Definition encode_char (s : sextet) : ascii :=
  match String.get (sextet_index s) encodeStd with
  | Some c => c
  | None => padChar
  end.

(** [enc.decodeMap[c]]: [None] stands for the entry 0xff. *)
Definition decodeMap (c : ascii) : option sextet :=
  let n := nat_of_ascii c in
  if (65 <=? n)%nat && (n <=? 90)%nat then Some (sextet_of_index (n - 65))
  else if (97 <=? n)%nat && (n <=? 122)%nat then Some (sextet_of_index (n - 71))
  else if (48 <=? n)%nat && (n <=? 57)%nat then Some (sextet_of_index (n + 4))
  else if (n =? 43)%nat then Some (sextet_of_index 62)
  else if (n =? 47)%nat then Some (sextet_of_index 63)
  else None.

(** The four sextets of three bytes, and the bytes of four sextets. *)
Definition split3 (a b c : ascii) : sextet * sextet * sextet * sextet :=
  let '(Ascii a0 a1 a2 a3 a4 a5 a6 a7) := a in
  let '(Ascii b0 b1 b2 b3 b4 b5 b6 b7) := b in
  let '(Ascii c0 c1 c2 c3 c4 c5 c6 c7) := c in
  (Sextet a7 a6 a5 a4 a3 a2, Sextet a1 a0 b7 b6 b5 b4,
   Sextet b3 b2 b1 b0 c7 c6, Sextet c5 c4 c3 c2 c1 c0).

Definition byte0 (s0 s1 : sextet) : ascii :=
  let '(Sextet a7 a6 a5 a4 a3 a2) := s0 in
  let '(Sextet a1 a0 _ _ _ _) := s1 in
  Ascii a0 a1 a2 a3 a4 a5 a6 a7.

Definition byte1 (s1 s2 : sextet) : ascii :=
  let '(Sextet _ _ b7 b6 b5 b4) := s1 in
  let '(Sextet b3 b2 b1 b0 _ _) := s2 in
  Ascii b0 b1 b2 b3 b4 b5 b6 b7.

Definition byte2 (s2 s3 : sextet) : ascii :=
  let '(Sextet _ _ _ _ c7 c6) := s2 in
  let '(Sextet c5 c4 c3 c2 c1 c0) := s3 in
  Ascii c0 c1 c2 c3 c4 c5 c6 c7.

(** [func (enc *Encoding) EncodeToString(src []byte) string] *)
Fixpoint EncodeToString (src : string) : string :=
  match src with
  | EmptyString => EmptyString
  | String a EmptyString =>
      let '(s0, s1, _, _) := split3 a zero zero in
      String (encode_char s0) (String (encode_char s1)
        (String padChar (String padChar EmptyString)))
  | String a (String b EmptyString) =>
      let '(s0, s1, s2, _) := split3 a b zero in
      String (encode_char s0) (String (encode_char s1)
        (String (encode_char s2) (String padChar EmptyString)))
  | String a (String b (String c rest)) =>
      let '(s0, s1, s2, s3) := split3 a b c in
      String (encode_char s0) (String (encode_char s1)
        (String (encode_char s2) (String (encode_char s3) (EncodeToString rest))))
  end.

Definition is_newline (c : ascii) : bool :=
  Ascii.eqb c "010"%char || Ascii.eqb c "013"%char.

Fixpoint skip_newlines (src : string) (si : nat) : string * nat :=
  match src with
  | EmptyString => (EmptyString, si)
  | String c rest =>
      if is_newline c then skip_newlines rest (S si) else (src, si)
  end.

(** The bytes a quantum of [dlen] sextets yields: [dlen - 1] of them. *)
Definition quantum_bytes (dbuf : list sextet) : string :=
  match dbuf with
  | [s0; s1] => String (byte0 s0 s1) EmptyString
  | [s0; s1; s2] => String (byte0 s0 s1) (String (byte1 s1 s2) EmptyString)
  | [s0; s1; s2; s3] =>
      String (byte0 s0 s1) (String (byte1 s1 s2) (String (byte2 s2 s3) EmptyString))
  | _ => EmptyString
  end.

(** After the padding character of a quantum: only newlines may follow. *)
Definition after_padding (dbuf : list sextet) (src : string) (si : nat)
  : result string :=
  let '(rest, si') := skip_newlines src si in
  match rest with
  | EmptyString => Ok (quantum_bytes dbuf)
  | String _ _ => Err (CorruptInputError si')
  end.

(** [decodeQuantum], run over the whole input: [si] is the index of the
    next input byte and [dbuf] the sextets read for the current quantum. *)
Fixpoint decode (src : string) (si : nat) (dbuf : list sextet) : result string :=
  match src with
  | EmptyString =>
      match dbuf with
      | [] => Ok EmptyString
      | _ => Err (CorruptInputError (si - length dbuf))
      end
  | String c rest =>
      match decodeMap c with
      | Some v =>
          let dbuf' := (dbuf ++ [v])%list in
          if (length dbuf' =? 4)%nat then
            let* tail := decode rest (S si) [] in
            Ok (quantum_bytes dbuf' ++ tail)
          else decode rest (S si) dbuf'
      | None =>
          if is_newline c then decode rest (S si) dbuf
          else if negb (Ascii.eqb c padChar) then Err (CorruptInputError si)
          else
            match dbuf with
            | [] | [_] => Err (CorruptInputError si)
            | [_; _] =>
                let '(rest1, si1) := skip_newlines rest (S si) in
                match rest1 with
                | EmptyString => Err (CorruptInputError si1)
                | String c1 rest2 =>
                    if negb (Ascii.eqb c1 padChar)
                    then Err (CorruptInputError (si1 - 1))
                    else after_padding dbuf rest2 (S si1)
                end
            | _ => after_padding dbuf rest (S si)
            end
      end
  end.

(** [func (enc *Encoding) DecodeString(s string) ([]byte, error)] *)
Definition DecodeString (s : string) : result string := decode s 0 [].

End base64.

(** ** The DynamoDB client *)

Module dynamodb.

(** [types.AttributeValue]: the members the program reads or writes. *)
Inductive AttributeValue :=
| AttributeValueMemberS (Value : string)
| AttributeValueMemberN (Value : string)
| AttributeValueMemberB (Value : string)
| AttributeValueMemberBOOL (Value : bool)
| AttributeValueMemberNULL
| AttributeValueMemberL (Value : list AttributeValue)
| AttributeValueMemberM (Value : gmap string AttributeValue).

(** An item, a key or a set of expression values:
    [map[string]types.AttributeValue]. *)
Abbreviation item := (gmap string AttributeValue).

Module PutItemInput.
Record t := {
  TableName : string;
  Item : item;
  ConditionExpression : option string;
  ExpressionAttributeValues : option item
}.
End PutItemInput.

Module GetItemInput.
Record t := {
  TableName : string;
  Key : item
}.
End GetItemInput.

Module GetItemOutput.
Record t := { Item : option item }.
End GetItemOutput.

Module DeleteItemInput.
Record t := {
  TableName : string;
  Key : item;
  ConditionExpression : option string;
  ExpressionAttributeValues : option item
}.
End DeleteItemInput.

Module QueryInput.
Record t := {
  TableName : string;
  IndexName : option string;
  KeyConditionExpression : option string;
  ExpressionAttributeValues : option item;
  Limit : option Z;
  ExclusiveStartKey : option item;
  ScanIndexForward : option bool
}.
End QueryInput.

Module QueryOutput.
Record t := {
  Items : list item;
  LastEvaluatedKey : option item
}.
End QueryOutput.

(** Modelled from the spec: the declaration of [type DynamoDBClient
    interface] is not among the sources.  Its four methods are those the
    repository calls and the test double implements; the store behind the
    client is a state [S] that each call may read and change. *)
Class DynamoDBClient (S : Type) := {
  PutItem : PutItemInput.t -> S -> result unit * S;
  GetItem : GetItemInput.t -> S -> result GetItemOutput.t * S;
  DeleteItem : DeleteItemInput.t -> S -> result unit * S;
  Query : QueryInput.t -> S -> result QueryOutput.t * S
}.

End dynamodb.
Export dynamodb.

(** ** Package repository *)

Module repository.
Import models.

(** [type ListResult struct] *)
Module ListResult.
Record t := {
  Locations : list Location;
  NextCursor : option string
}.
End ListResult.

(** [type ListOptions struct] *)
Module ListOptions.
Record t := {
  Limit : option Z;        (* *int32 *)
  Cursor : option string   (* *string *)
}.
End ListOptions.

(** [type locationRecord struct] *)
Module locationRecord.
Record t := {
  PK : string;                                        (* dynamodbav:"PK" *)
  SK : string;                                        (* dynamodbav:"SK" *)
  AccountID : string;                                 (* dynamodbav:"accountId" *)
  LocationType : models.LocationType;                 (* dynamodbav:"locationType" *)
  ExtendedAttributes : option (gmap string goValue);  (* dynamodbav:"extendedAttributes,omitempty" *)
  Address : option Address.t;                         (* dynamodbav:"address,omitempty" *)
  Coordinates : option Coordinates.t                  (* dynamodbav:"coordinates,omitempty" *)
}.
End locationRecord.

(** [type paginationCursor struct] *)
Module paginationCursor.
Record t := {
  PK : string;          (* json:"pk" *)
  SK : string;          (* json:"sk" *)
  AccountID : string    (* json:"accountId" *)
}.
Definition zero : t := {| PK := ""; SK := ""; AccountID := "" |}.
End paginationCursor.

(** [func toLocationRecord(location models.Location, locationID string)],
    which returns a pointer to a [locationRecord] and an error. *)
Definition toLocationRecord (location : Location) (locationID : string)
  : result locationRecord.t :=
  let record :=
    {| locationRecord.PK := locationID;
       locationRecord.SK := GetAccountID location;
       locationRecord.AccountID := GetAccountID location;
       locationRecord.LocationType := GetLocationType location;
       locationRecord.ExtendedAttributes := GetExtendedAttributes location;
       locationRecord.Address := None;
       locationRecord.Coordinates := None |} in
  match location with
  | ofAddressLocation loc =>
      Ok {| locationRecord.PK := locationRecord.PK record;
            locationRecord.SK := locationRecord.SK record;
            locationRecord.AccountID := locationRecord.AccountID record;
            locationRecord.LocationType := locationRecord.LocationType record;
            locationRecord.ExtendedAttributes := locationRecord.ExtendedAttributes record;
            locationRecord.Address := Some (AddressLocation.Address loc);
            locationRecord.Coordinates := locationRecord.Coordinates record |}
  | ofCoordinatesLocation loc =>
      Ok {| locationRecord.PK := locationRecord.PK record;
            locationRecord.SK := locationRecord.SK record;
            locationRecord.AccountID := locationRecord.AccountID record;
            locationRecord.LocationType := locationRecord.LocationType record;
            locationRecord.ExtendedAttributes := locationRecord.ExtendedAttributes record;
            locationRecord.Address := locationRecord.Address record;
            locationRecord.Coordinates := Some (CoordinatesLocation.Coordinates loc) |}
  | _ => Err (errorString "unknown location type")
  end.

(** [func (r *locationRecord) toLocation() (models.Location, error)] *)
Definition toLocation (r : locationRecord.t) : result Location :=
  let base :=
    {| LocationBase.AccountID := locationRecord.AccountID r;
       LocationBase.LocationType := locationRecord.LocationType r;
       LocationBase.ExtendedAttributes := locationRecord.ExtendedAttributes r |} in
  if String.eqb (locationRecord.LocationType r) LocationTypeAddress then
    match locationRecord.Address r with
    | None => Err (errorString "address is nil for address location type")
    | Some a =>
        Ok (ofAddressLocation
              {| AddressLocation.Base := base; AddressLocation.Address := a |})
    end
  else if String.eqb (locationRecord.LocationType r) LocationTypeCoordinates then
    match locationRecord.Coordinates r with
    | None => Err (errorString "coordinates is nil for coordinates location type")
    | Some c =>
        Ok (ofCoordinatesLocation
              {| CoordinatesLocation.Base := base;
                 CoordinatesLocation.Coordinates := c |})
    end
  else Err (fmtErrorS "unknown location type: " (locationRecord.LocationType r)).

(** [func (r *DynamoDBRepository) cursorToLastEvaluatedKey] *)
Definition cursorToLastEvaluatedKey (cursor : option paginationCursor.t)
  : option item :=
  match cursor with
  | None => None
  | Some c =>
      Some (<["PK" := AttributeValueMemberS (paginationCursor.PK c)]>
           (<["SK" := AttributeValueMemberS (paginationCursor.SK c)]>
           (<["accountId" := AttributeValueMemberS (paginationCursor.AccountID c)]> ∅)))
  end.

(** [lek[name]] followed by the type assertion to [*AttributeValueMemberS];
    the field keeps its zero value when either fails. *)
Definition string_attribute (lek : item) (name : string) : string :=
  match lek !! name with
  | Some (AttributeValueMemberS v) => v
  | _ => ""
  end.

(** [func (r *DynamoDBRepository) lastEvaluatedKeyToCursor] *)
Definition lastEvaluatedKeyToCursor (lek : option item)
  : option paginationCursor.t :=
  match lek with
  | None => None
  | Some m =>
      Some {| paginationCursor.PK := string_attribute m "PK";
              paginationCursor.SK := string_attribute m "SK";
              paginationCursor.AccountID := string_attribute m "accountId" |}
  end.

(** [attributevalue.UnmarshalMap(item, &record)] for a [locationRecord]: a
    function of the AWS SDK that the program calls, taken as it comes. *)
Class Unmarshaler := {
  attributevalue_UnmarshalMap : item -> result locationRecord.t
}.

Section Repository.
Context {lib : Libraries} {unmarshaler : Unmarshaler}.

(** *** attributevalue.MarshalMap for a locationRecord *)

Fixpoint av_of_goValue (v : goValue) : AttributeValue :=
  match v with
  | GoNil => AttributeValueMemberNULL
  | GoBool b => AttributeValueMemberBOOL b
  | GoFloat f => AttributeValueMemberN (strconv_FormatFloat f)
  | GoString s => AttributeValueMemberS s
  | GoSlice l => AttributeValueMemberL (map av_of_goValue l)
  | GoMap m => AttributeValueMemberM (av_of_goValue <$> m)
  end.

Definition put_string (name s : string) (m : item) : item :=
  <[name := AttributeValueMemberS s]> m.

Definition put_omitempty_string (name s : string) (m : item) : item :=
  if String.eqb s "" then m else put_string name s m.

Definition put_float (name : string) (f : float) (m : item) : item :=
  <[name := AttributeValueMemberN (strconv_FormatFloat f)]> m.

Definition put_omitempty_float_ptr (name : string) (p : option float) (m : item)
  : item :=
  match p with
  | None => m
  | Some f => put_float name f m
  end.

Definition av_of_Address (a : Address.t) : AttributeValue :=
  AttributeValueMemberM
    (put_string "streetAddress" (Address.StreetAddress a)
    (put_omitempty_string "streetAddress2" (Address.StreetAddress2 a)
    (put_string "city" (Address.City a)
    (put_omitempty_string "stateProvince" (Address.StateProvince a)
    (put_string "postalCode" (Address.PostalCode a)
    (put_string "country" (Address.Country a) ∅)))))).

Definition av_of_Coordinates (c : Coordinates.t) : AttributeValue :=
  AttributeValueMemberM
    (put_float "latitude" (Coordinates.Latitude c)
    (put_float "longitude" (Coordinates.Longitude c)
    (put_omitempty_float_ptr "altitude" (Coordinates.Altitude c)
    (put_omitempty_float_ptr "accuracy" (Coordinates.Accuracy c) ∅)))).

Definition put_omitempty {A} (name : string) (f : A -> AttributeValue)
    (p : option A) (m : item) : item :=
  match p with
  | None => m
  | Some a => <[name := f a]> m
  end.

(** A map field tagged [omitempty]: left out only when the map is nil; a
    map that is allocated and empty is written as an empty M attribute. *)
Definition put_omitempty_map (name : string) (p : option (gmap string goValue))
    (m : item) : item :=
  match p with
  | None => m
  | Some attrs => <[name := AttributeValueMemberM (av_of_goValue <$> attrs)]> m
  end.

(** [attributevalue.MarshalMap(record)]: one attribute per field, under
    the name of its [dynamodbav] tag; no value of these types is refused. *)
Definition MarshalMap (record : locationRecord.t) : result item :=
  Ok (put_string "PK" (locationRecord.PK record)
     (put_string "SK" (locationRecord.SK record)
     (put_string "accountId" (locationRecord.AccountID record)
     (put_string "locationType" (locationRecord.LocationType record)
     (put_omitempty_map "extendedAttributes" (locationRecord.ExtendedAttributes record)
     (put_omitempty "address" av_of_Address (locationRecord.Address record)
     (put_omitempty "coordinates" av_of_Coordinates (locationRecord.Coordinates record)
        ∅))))))).

(** *** The pagination cursor *)

Definition encode_cursor (c : paginationCursor.t) : json :=
  JObject [("pk", JString (paginationCursor.PK c));
           ("sk", JString (paginationCursor.SK c));
           ("accountId", JString (paginationCursor.AccountID c))].

Definition cursor_setField (name : string) (v : json) (c : paginationCursor.t)
  : result paginationCursor.t :=
  let '(paginationCursor.Build_t pk sk acc) := c in
  if String.eqb name "PK" then
    let* s := decode_string "string" "paginationCursor.pk" v pk in
    Ok (paginationCursor.Build_t s sk acc)
  else if String.eqb name "SK" then
    let* s := decode_string "string" "paginationCursor.sk" v sk in
    Ok (paginationCursor.Build_t pk s acc)
  else if String.eqb name "ACCOUNTID" then
    let* s := decode_string "string" "paginationCursor.accountId" v acc in
    Ok (paginationCursor.Build_t pk sk s)
  else Ok c.

Definition decode_cursor : json -> paginationCursor.t -> result paginationCursor.t :=
  decode_struct "repository.paginationCursor" "" cursor_setField.

(** [func (r *DynamoDBRepository) encodeCursor(cursor *paginationCursor)
    ( *string, error)] *)
Definition encodeCursor (cursor : option paginationCursor.t)
  : result (option string) :=
  match cursor with
  | None => Ok None
  | Some c =>
      match Marshal (Ok (encode_cursor c)) with
      | Err err => Err (wrapError "failed to marshal cursor: " err)
      | Ok data => Ok (Some (base64.EncodeToString data))
      end
  end.

(** [func (r *DynamoDBRepository) decodeCursor(cursorStr *string)
    ( *paginationCursor, error)] *)
Definition decodeCursor (cursorStr : option string)
  : result (option paginationCursor.t) :=
  match cursorStr with
  | None => Ok None
  | Some s =>
      if String.eqb s "" then Ok None
      else
        match base64.DecodeString s with
        | Err err => Err (wrapError "failed to decode cursor: " err)
        | Ok data =>
            match Unmarshal decode_cursor data paginationCursor.zero with
            | Err err => Err (wrapError "failed to unmarshal cursor: " err)
            | Ok cursor => Ok (Some cursor)
            end
        end
  end.

(** *** The repository and its five operations *)

(** [type DynamoDBRepository struct] *)
Record DynamoDBRepository (S : Type) := {
  client : DynamoDBClient S;
  tableName : string;
  gsiName : string;
  defaultLimit : Z     (* int32 *)
}.
Global Arguments client {S} _.
Global Arguments tableName {S} _.
Global Arguments gsiName {S} _.
Global Arguments defaultLimit {S} _.

(** [func NewDynamoDBRepository(client DynamoDBClient, tableName, gsiName string)] *)
Definition NewDynamoDBRepository {S} (client : DynamoDBClient S)
    (tableName gsiName : string) : DynamoDBRepository S :=
  {| client := client; tableName := tableName; gsiName := gsiName;
     defaultLimit := 20 |}.

Section Operations.
Context {S : Type}.
Variable r : DynamoDBRepository S.

(** The key of a record: [PK] is the location identifier, [SK] the
    account identifier. *)
Definition record_key (accountID locationID : string) : item :=
  <["PK" := AttributeValueMemberS locationID]>
  (<["SK" := AttributeValueMemberS accountID]> ∅).

(** The [dynamodb.PutItemInput] of [Create]. *)
Definition create_input (av : item) : PutItemInput.t :=
  {| PutItemInput.TableName := tableName r;
     PutItemInput.Item := av;
     PutItemInput.ConditionExpression :=
       Some "attribute_not_exists(PK) AND attribute_not_exists(SK)";
     PutItemInput.ExpressionAttributeValues := None |}.

(** The [dynamodb.GetItemInput] of [Get]. *)
Definition get_input (accountID locationID : string) : GetItemInput.t :=
  {| GetItemInput.TableName := tableName r;
     GetItemInput.Key := record_key accountID locationID |}.

(** The [dynamodb.PutItemInput] of [Update]. *)
Definition update_input (av : item) (accountID : string) : PutItemInput.t :=
  {| PutItemInput.TableName := tableName r;
     PutItemInput.Item := av;
     PutItemInput.ConditionExpression :=
       Some "attribute_exists(PK) AND attribute_exists(SK) AND accountId = :accountId";
     PutItemInput.ExpressionAttributeValues :=
       Some (<[":accountId" := AttributeValueMemberS accountID]> ∅) |}.

(** The [dynamodb.DeleteItemInput] of [Delete]. *)
Definition delete_input (accountID locationID : string) : DeleteItemInput.t :=
  {| DeleteItemInput.TableName := tableName r;
     DeleteItemInput.Key := record_key accountID locationID;
     DeleteItemInput.ConditionExpression :=
       Some "attribute_exists(PK) AND attribute_exists(SK) AND accountId = :accountId";
     DeleteItemInput.ExpressionAttributeValues :=
       Some (<[":accountId" := AttributeValueMemberS accountID]> ∅) |}.

(** [func (r *DynamoDBRepository) Create(ctx, location) (string, error)].
    [uuid] is the value of [uuid.New().String()] in this call. *)
Definition Create (uuid : string) (location : Location) (st : S)
  : result string * S :=
  match Validate location with
  | Some err => (Err (wrapError "validation failed: " err), st)
  | None =>
      let locationID := uuid in
      match toLocationRecord location locationID with
      | Err err => (Err (wrapError "failed to convert location to record: " err), st)
      | Ok record =>
          match MarshalMap record with
          | Err err => (Err (wrapError "failed to marshal location: " err), st)
          | Ok av =>
              let input := create_input av in
              match PutItem (DynamoDBClient := client r) input st with
              | (Err err, st') =>
                  if errors_As_ccf err
                  then (Err (errorString "location already exists"), st')
                  else (Err (wrapError "failed to create location: " err), st')
              | (Ok _, st') => (Ok locationID, st')
              end
          end
      end
  end.

(** [func (r *DynamoDBRepository) Get(ctx, accountID, locationID)
    (models.Location, error)] *)
Definition Get (accountID locationID : string) (st : S)
  : result Location * S :=
  let input := get_input accountID locationID in
  match GetItem (DynamoDBClient := client r) input st with
  | (Err err, st') => (Err (wrapError "failed to get location: " err), st')
  | (Ok result, st') =>
      match GetItemOutput.Item result with
      | None => (Err (errorString "location not found"), st')
      | Some it =>
          match attributevalue_UnmarshalMap it with
          | Err err => (Err (wrapError "failed to unmarshal location: " err), st')
          | Ok record => (toLocation record, st')
          end
      end
  end.

(** [func (r *DynamoDBRepository) Update(ctx, location, locationID) error] *)
Definition Update (location : Location) (locationID : string) (st : S)
  : option error * S :=
  match Validate location with
  | Some err => (Some (wrapError "validation failed: " err), st)
  | None =>
      match toLocationRecord location locationID with
      | Err err =>
          (Some (wrapError "failed to convert location to record: " err), st)
      | Ok record =>
          match MarshalMap record with
          | Err err => (Some (wrapError "failed to marshal location: " err), st)
          | Ok av =>
              let input := update_input av (GetAccountID location) in
              match PutItem (DynamoDBClient := client r) input st with
              | (Err err, st') =>
                  if errors_As_ccf err
                  then (Some (errorString "location not found or access denied"), st')
                  else (Some (wrapError "failed to update location: " err), st')
              | (Ok _, st') => (None, st')
              end
          end
      end
  end.

(** [func (r *DynamoDBRepository) Delete(ctx, accountID, locationID) error] *)
Definition Delete (accountID locationID : string) (st : S) : option error * S :=
  let input := delete_input accountID locationID in
  match DeleteItem (DynamoDBClient := client r) input st with
  | (Err err, st') =>
      if errors_As_ccf err
      then (Some (errorString "location not found or access denied"), st')
      else (Some (wrapError "failed to delete location: " err), st')
  | (Ok _, st') => (None, st')
  end.

(** The page size [List] sends: the default unless the caller gave one. *)
Definition list_limit (options : option ListOptions.t) : Z :=
  match options with
  | Some o =>
      match ListOptions.Limit o with
      | Some l => l
      | None => defaultLimit r
      end
  | None => defaultLimit r
  end.

(** The resume key [List] sends. *)
Definition list_startKey (options : option ListOptions.t) : result (option item) :=
  match options with
  | Some o =>
      match ListOptions.Cursor o with
      | Some c =>
          match decodeCursor (Some c) with
          | Err err => Err (wrapError "failed to decode cursor: " err)
          | Ok cursor => Ok (cursorToLastEvaluatedKey cursor)
          end
      | None => Ok None
      end
  | None => Ok None
  end.

Definition list_input (accountID : string) (limit : Z) (startKey : option item)
  : QueryInput.t :=
  {| QueryInput.TableName := tableName r;
     QueryInput.IndexName := Some (gsiName r);
     QueryInput.KeyConditionExpression := Some "accountId = :accountId";
     QueryInput.ExpressionAttributeValues :=
       Some (<[":accountId" := AttributeValueMemberS accountID]> ∅);
     QueryInput.Limit := Some limit;
     QueryInput.ExclusiveStartKey := startKey;
     QueryInput.ScanIndexForward := Some true |}.

(** The body of the loop over [result.Items]. *)
Definition list_item (it : item) : result Location :=
  match attributevalue_UnmarshalMap it with
  | Err err => Err (wrapError "failed to unmarshal location: " err)
  | Ok record =>
      match toLocation record with
      | Err err => Err (wrapError "failed to convert record to location: " err)
      | Ok location => Ok location
      end
  end.

(** [func (r *DynamoDBRepository) List(ctx, accountID, options)
    ( *ListResult, error)] *)
Definition List (accountID : string) (options : option ListOptions.t) (st : S)
  : result ListResult.t * S :=
  let limit := list_limit options in
  match list_startKey options with
  | Err err => (Err err, st)
  | Ok startKey =>
      match Query (DynamoDBClient := client r) (list_input accountID limit startKey) st with
      | (Err err, st') => (Err (wrapError "failed to list locations: " err), st')
      | (Ok result, st') =>
          match mapM_result list_item (QueryOutput.Items result) with
          | Err err => (Err err, st')
          | Ok locations =>
              match QueryOutput.LastEvaluatedKey result with
              | Some lek =>
                  let cursor := lastEvaluatedKeyToCursor (Some lek) in
                  match encodeCursor cursor with
                  | Err err => (Err (wrapError "failed to encode cursor: " err), st')
                  | Ok nextCursor =>
                      (Ok {| ListResult.Locations := locations;
                             ListResult.NextCursor := nextCursor |}, st')
                  end
              | None =>
                  (Ok {| ListResult.Locations := locations;
                         ListResult.NextCursor := None |}, st')
              end
          end
      end
  end.

End Operations.
End Repository.
End repository.

(** ** The backing store *)

(** Modelled from the spec: the backing key-value store of section 6
    (get-item-by-key, conditional put-item, delete-item-with-condition and
    query-by-secondary-index with a pagination token), over one table with
    the primary key (PK, SK) and one index keyed by [accountId].  The
    service itself is no part of the repository. *)
Module memstore.

Abbreviation table := (gmap (string * string) item).

Definition primary_key (it : item) : option (string * string) :=
  match it !! "PK", it !! "SK" with
  | Some (AttributeValueMemberS pk), Some (AttributeValueMemberS sk) => Some (pk, sk)
  | _, _ => None
  end.

(** [attribute_exists(name)] against the item stored under the key of the
    request, if any. *)
Definition attribute_exists (name : string) (existing : option item) : bool :=
  match existing with
  | Some it =>
      match it !! name with
      | Some _ => true
      | None => false
      end
  | None => false
  end.

(** [name = :placeholder], for operands of type S (the program sends no
    others). *)
Definition attribute_equals (name placeholder : string) (existing values : option item)
  : bool :=
  match existing, values with
  | Some it, Some vs =>
      match it !! name, vs !! placeholder with
      | Some (AttributeValueMemberS a), Some (AttributeValueMemberS b) => String.eqb a b
      | _, _ => false
      end
  | _, _ => false
  end.

Definition validationException (message : string) : error :=
  apiError "ValidationException" message.

(** The condition expressions the store understands: the two the program
    sends. *)
Definition eval_condition (expr : option string) (values existing : option item)
  : result bool :=
  match expr with
  | None => Ok true
  | Some e =>
      if String.eqb e "attribute_not_exists(PK) AND attribute_not_exists(SK)" then
        Ok (negb (attribute_exists "PK" existing)
            && negb (attribute_exists "SK" existing))
      else if String.eqb e
           "attribute_exists(PK) AND attribute_exists(SK) AND accountId = :accountId" then
        Ok (attribute_exists "PK" existing
            && attribute_exists "SK" existing
            && attribute_equals "accountId" ":accountId" existing values)
      else Err (validationException "Invalid ConditionExpression")
  end.

Definition conditionalCheckFailed (operation : string) : error :=
  OperationError "DynamoDB" operation
    (ConditionalCheckFailedException "The conditional request failed").

Definition mem_PutItem (input : PutItemInput.t) (tbl : table) : result unit * table :=
  match primary_key (PutItemInput.Item input) with
  | None =>
      (Err (OperationError "DynamoDB" "PutItem"
              (validationException "One of the required keys was not given a value")),
       tbl)
  | Some k =>
      match eval_condition (PutItemInput.ConditionExpression input)
              (PutItemInput.ExpressionAttributeValues input) (tbl !! k) with
      | Err err => (Err (OperationError "DynamoDB" "PutItem" err), tbl)
      | Ok false => (Err (conditionalCheckFailed "PutItem"), tbl)
      | Ok true => (Ok tt, <[k := PutItemInput.Item input]> tbl)
      end
  end.

Definition mem_GetItem (input : GetItemInput.t) (tbl : table)
  : result GetItemOutput.t * table :=
  match primary_key (GetItemInput.Key input) with
  | None =>
      (Err (OperationError "DynamoDB" "GetItem"
              (validationException "The provided key element does not match the schema")),
       tbl)
  | Some k => (Ok {| GetItemOutput.Item := tbl !! k |}, tbl)
  end.

Definition mem_DeleteItem (input : DeleteItemInput.t) (tbl : table)
  : result unit * table :=
  match primary_key (DeleteItemInput.Key input) with
  | None =>
      (Err (OperationError "DynamoDB" "DeleteItem"
              (validationException "The provided key element does not match the schema")),
       tbl)
  | Some k =>
      match eval_condition (DeleteItemInput.ConditionExpression input)
              (DeleteItemInput.ExpressionAttributeValues input) (tbl !! k) with
      | Err err => (Err (OperationError "DynamoDB" "DeleteItem" err), tbl)
      | Ok false => (Err (conditionalCheckFailed "DeleteItem"), tbl)
      | Ok true => (Ok tt, delete k tbl)
      end
  end.

(** The items of the index partition of an account. *)
Definition in_partition (accountID : string) (it : item) : bool :=
  match it !! "accountId" with
  | Some (AttributeValueMemberS a) => String.eqb a accountID
  | _ => false
  end.

Definition entry_le (a b : string * string * item) : Prop :=
  String.leb a.1.1 b.1.1 = true.

Global Instance entry_le_dec (a b : string * string * item) : Decision (entry_le a b).
Proof. unfold entry_le. apply _. Defined.

(** The partition in ascending order of the location identifier. *)
Definition partition (accountID : string) (tbl : table) : list item :=
  filter (fun it => in_partition accountID it = true)
    (map snd (merge_sort entry_le (map_to_list tbl))).

(** The items after the one the resume key names. *)
Fixpoint after_key (k : option (string * string)) (l : list item) : list item :=
  match l with
  | [] => []
  | it :: rest =>
      if bool_decide (primary_key it = k) then rest else after_key k rest
  end.

(** The key of an item as a query on the index reports it. *)
Definition index_key (it : item) : item :=
  filter (fun kv => kv.1 = "PK" \/ kv.1 = "SK" \/ kv.1 = "accountId") it.

Definition mem_Query (input : QueryInput.t) (tbl : table)
  : result QueryOutput.t * table :=
  let invalid message :=
    (Err (OperationError "DynamoDB" "Query" (validationException message)), tbl) in
  match QueryInput.KeyConditionExpression input,
        QueryInput.ExpressionAttributeValues input with
  | Some e, Some vs =>
      if negb (String.eqb e "accountId = :accountId") then
        invalid "Invalid KeyConditionExpression"
      else
        match vs !! ":accountId" with
        | Some (AttributeValueMemberS accountID) =>
            let all := partition accountID tbl in
            let rest :=
              match QueryInput.ExclusiveStartKey input with
              | None => all
              | Some k => after_key (primary_key k) all
              end in
            match QueryInput.Limit input with
            | None =>
                (Ok {| QueryOutput.Items := rest;
                       QueryOutput.LastEvaluatedKey := None |}, tbl)
            | Some n =>
                if (n <=? 0)%Z then invalid "Limit must be greater than or equal to 1"
                else
                  let page := take (Z.to_nat n) rest in
                  (Ok {| QueryOutput.Items := page;
                         QueryOutput.LastEvaluatedKey :=
                           if (length rest <? Z.to_nat n)%nat then None
                           else index_key <$> last page |}, tbl)
            end
        | _ => invalid "Invalid ExpressionAttributeValues"
        end
  | _, _ => invalid "KeyConditionExpression is required"
  end.

(** Every item of a table is stored under its own key. *)
Definition well_formed (tbl : table) : Prop :=
  map_Forall (fun k it => primary_key it = Some k) tbl.

(** No record under the key, or one whose [accountId] attribute is not the
    caller's account identifier. *)
Definition absent_or_foreign (tbl : table) (accountID locationID : string) : Prop :=
  match tbl !! (locationID, accountID) with
  | None => True
  | Some it => it !! "accountId" <> Some (AttributeValueMemberS accountID)
  end.

(** No item of the table is in the index partition of the account. *)
Definition no_records (tbl : table) (accountID : string) : Prop :=
  map_Forall (fun _ it => in_partition accountID it = false) tbl.

Definition mem_client : DynamoDBClient table :=
  {| PutItem := mem_PutItem;
     GetItem := mem_GetItem;
     DeleteItem := mem_DeleteItem;
     Query := mem_Query |}.

End memstore.

(** ** Package handler *)

Module handler.
Import models.

(** [type AppSyncEvent struct]: the two fields the handler reads. *)
Module AppSyncEvent.
Record t := {
  Field : string;       (* json:"field" *)
  Arguments : string    (* json.RawMessage, json:"arguments" *)
}.
End AppSyncEvent.

(** [type GetLocationArguments struct] *)
Module GetLocationArguments.
Record t := {
  AccountID : string;    (* json:"accountId" *)
  LocationID : string    (* json:"locationId" *)
}.
Definition zero : t := {| AccountID := ""; LocationID := "" |}.
End GetLocationArguments.

(** The value [Handle] returns as [interface{}]. *)
Inductive response :=
| ofString (s : string)
| ofBool (b : bool)
| ofMap (m : gmap string goValue)
| ofOther (doc : json).

(** [type Repository interface] of package repository. *)
Class Repository (S : Type) := {
  Create : Location -> S -> result string * S;
  Get : string -> string -> S -> result Location * S;
  Update : Location -> string -> S -> option error * S;
  Delete : string -> string -> S -> option error * S;
  List : string -> option repository.ListOptions.t -> S
         -> result repository.ListResult.t * S
}.

Section Handler.
Context {lib : Libraries} {S : Type} {repo : Repository S}.

Definition GetLocationArguments_setField (name : string) (v : json)
    (a : GetLocationArguments.t) : result GetLocationArguments.t :=
  let '(GetLocationArguments.Build_t acc loc) := a in
  if String.eqb name "ACCOUNTID" then
    let* s := decode_string "string" "GetLocationArguments.accountId" v acc in
    Ok (GetLocationArguments.Build_t s loc)
  else if String.eqb name "LOCATIONID" then
    let* s := decode_string "string" "GetLocationArguments.locationId" v loc in
    Ok (GetLocationArguments.Build_t acc s)
  else Ok a.

Definition decode_GetLocationArguments
  : json -> GetLocationArguments.t -> result GetLocationArguments.t :=
  decode_struct "handler.GetLocationArguments" "" GetLocationArguments_setField.

(** The [switch location.GetLocationType()] that adds [__typename]. *)
Definition add_typename (locationType : LocationType) (m : gmap string goValue)
  : gmap string goValue :=
  if String.eqb locationType LocationTypeAddress then
    <["__typename" := GoString "AddressLocation"]> m
  else if String.eqb locationType LocationTypeCoordinates then
    <["__typename" := GoString "CoordinatesLocation"]> m
  else if String.eqb locationType LocationTypeShop then
    <["__typename" := GoString "ShopLocation"]> m
  else m.

(** [func (h *AppSyncHandler) handleGetLocation(ctx, arguments)
    (map[string]interface{}, error)] *)
Definition handleGetLocation (arguments : string) (st : S)
  : result (gmap string goValue) * S :=
  match Unmarshal decode_GetLocationArguments arguments GetLocationArguments.zero with
  | Err err => (Err (wrapError "failed to unmarshal arguments: " err), st)
  | Ok args =>
      match Get (GetLocationArguments.AccountID args)
                (GetLocationArguments.LocationID args) st with
      | (Err err, st') => (Err (wrapError "failed to get location: " err), st')
      | (Ok location, st') =>
          match MarshalLocation location with
          | Err err => (Err (wrapError "failed to marshal location: " err), st')
          | Ok locationBytes =>
              match Unmarshal (decode_map "") locationBytes None with
              | Err err =>
                  (Err (wrapError "failed to unmarshal location to map: " err), st')
              | Ok None =>
                  (Err (runtimePanic "assignment to entry in nil map"), st')
              | Ok (Some result) =>
                  let result := <["locationId" :=
                                   GoString (GetLocationArguments.LocationID args)]> result in
                  let result := add_typename (GetLocationType location) result in
                  (Ok result, st')
              end
          end
      end
  end.

(** The four other handlers, which the properties below do not need. *)
Variable handleCreateLocation : string -> S -> result response * S.
Variable handleUpdateLocation : string -> S -> result response * S.
Variable handleDeleteLocation : string -> S -> result response * S.
Variable handleListLocations : string -> S -> result response * S.

Definition one_of (s : string) (names : list string) : bool :=
  existsb (String.eqb s) names.

(** [func (h *AppSyncHandler) Handle(ctx, event) (interface{}, error)] *)
Definition Handle (event : AppSyncEvent.t) (st : S) : result response * S :=
  let field := AppSyncEvent.Field event in
  let arguments := AppSyncEvent.Arguments event in
  if one_of field ["createLocation"; "createAddressLocation";
                   "createCoordinatesLocation"; "createShopLocation"] then
    handleCreateLocation arguments st
  else if String.eqb field "getLocation" then
    match handleGetLocation arguments st with
    | (Ok m, st') => (Ok (ofMap m), st')
    | (Err err, st') => (Err err, st')
    end
  else if one_of field ["updateLocation"; "updateAddressLocation";
                        "updateCoordinatesLocation"; "updateShopLocation"] then
    handleUpdateLocation arguments st
  else if String.eqb field "deleteLocation" then
    handleDeleteLocation arguments st
  else if String.eqb field "listLocations" then
    handleListLocations arguments st
  else (Err (fmtErrorS "unknown field: " field), st).

End Handler.
End handler.

(** ** Vocabulary of the properties *)

(** [err.Error()], with the float verbs of the library at hand. *)
Definition message {lib : Libraries} (err : error) : string :=
  Error fmt_f fmt_g err.

(** A Coordinates value within the documented bounds: latitude in
    [-90, 90], longitude in [-180, 180], accuracy absent or not negative. *)
Definition coordinates_in_bounds (c : models.Coordinates.t) : Prop :=
  F64.le (-90)%float (models.Coordinates.Latitude c) = true /\
  F64.le (models.Coordinates.Latitude c) 90%float = true /\
  F64.le (-180)%float (models.Coordinates.Longitude c) = true /\
  F64.le (models.Coordinates.Longitude c) 180%float = true /\
  match models.Coordinates.Accuracy c with
  | Some acc => F64.le 0%float acc = true
  | None => True
  end.

Definition with_Latitude (f : float) (c : models.Coordinates.t) : models.Coordinates.t :=
  {| models.Coordinates.Latitude := f;
     models.Coordinates.Longitude := models.Coordinates.Longitude c;
     models.Coordinates.Altitude := models.Coordinates.Altitude c;
     models.Coordinates.Accuracy := models.Coordinates.Accuracy c |}.

Definition with_Longitude (f : float) (c : models.Coordinates.t) : models.Coordinates.t :=
  {| models.Coordinates.Latitude := models.Coordinates.Latitude c;
     models.Coordinates.Longitude := f;
     models.Coordinates.Altitude := models.Coordinates.Altitude c;
     models.Coordinates.Accuracy := models.Coordinates.Accuracy c |}.

Definition with_Accuracy (p : option float) (c : models.Coordinates.t)
  : models.Coordinates.t :=
  {| models.Coordinates.Latitude := models.Coordinates.Latitude c;
     models.Coordinates.Longitude := models.Coordinates.Longitude c;
     models.Coordinates.Altitude := models.Coordinates.Altitude c;
     models.Coordinates.Accuracy := p |}.

(** ** A reference implementation of the libraries *)

(** An executable stand-in for the library functions of [Libraries] and
    [Unmarshaler], used to run the program on concrete inputs.  It reads
    and writes JSON text (RFC 8259) and converts between float64 and
    decimal text with correct rounding.  A byte of a string that starts
    no UTF-8 sequence is written as the escape of U+FFFD and read as
    U+FFFD, as encoding/json does. *)
Module reference.

Definition dq : ascii := "034"%char.
Definition backslash : ascii := "092"%char.

(** JSON text is easier to read with a single quote for the double one. *)
Fixpoint q (s : string) : string :=
  match s with
  | EmptyString => EmptyString
  | String c rest => String (if Ascii.eqb c "'"%char then dq else c) (q rest)
  end.

(** *** Decimal numbers *)

Definition digit_char (d : Z) : ascii := ascii_of_nat (48 + Z.to_nat d)%nat.

Fixpoint digits_fuel (fuel : nat) (n : Z) (acc : string) : string :=
  match fuel with
  | O => acc
  | Datatypes.S fuel' =>
      let acc' := String (digit_char (n mod 10)%Z) acc in
      if (n <? 10)%Z then acc' else digits_fuel fuel' (n / 10)%Z acc'
  end.

(** The decimal digits of a natural number. *)
Definition digits (n : Z) : string :=
  digits_fuel (Datatypes.S (Z.to_nat (Z.log2 n))) n EmptyString.

Definition is_digit (c : ascii) : bool :=
  let n := nat_of_ascii c in (48 <=? n)%nat && (n <=? 57)%nat.

(** The longest prefix of digits, as a number with its length, and the rest. *)
Fixpoint span_digits (s : string) (value : Z) (count : nat) : Z * nat * string :=
  match s with
  | String c rest =>
      if is_digit c
      then span_digits rest (10 * value + Z.of_nat (nat_of_ascii c - 48))%Z (Datatypes.S count)
      else (value, count, s)
  | EmptyString => (value, count, s)
  end.

(** A decimal literal: sign, digits as a number, power of ten. *)
Definition parse_decimal (s : string) : option (bool * Z * Z) :=
  let '(neg, s) :=
    match s with
    | String "-" rest => (true, rest)
    | String "+" rest => (false, rest)
    | _ => (false, s)
    end in
  let '(int, nint, s) := span_digits s 0%Z 0%nat in
  let '(m, nfrac, s) :=
    match s with
    | String "." rest =>
        let '(m, n, rest') := span_digits rest int 0%nat in (m, n, rest')
    | _ => (int, O, s)
    end in
  if (nint + nfrac =? 0)%nat then None
  else
    match s with
    | EmptyString => Some (neg, m, (- Z.of_nat nfrac)%Z)
    | String c rest =>
        if Ascii.eqb c "e" || Ascii.eqb c "E" then
          let '(eneg, rest) :=
            match rest with
            | String "-" r => (true, r)
            | String "+" r => (false, r)
            | _ => (false, rest)
            end in
          match span_digits rest 0%Z 0%nat with
          | (_, O, _) => None
          | (e, _, EmptyString) =>
              Some (neg, m, ((if eneg then - e else e) - Z.of_nat nfrac)%Z)
          | _ => None
          end
        else None
    end.

(** [m * 10^e] rounded to the nearest binary64, ties to even. *)
Definition round_decimal (neg : bool) (m e : Z) : spec_float :=
  match m with
  | Z.pos p =>
      if (400 <? e)%Z then S754_infinity neg
      else if (e <? -800)%Z then S754_zero neg
      else if (0 <=? e)%Z then
        binary_normalize prec emax ((if neg then -1 else 1) * (m * 10 ^ e))%Z 0%Z neg
      else
        SFdiv prec emax (S754_finite neg p 0%Z)
          (S754_finite false (Z.to_pos (10 ^ (- e))%Z) 0%Z)
  | _ => S754_zero neg
  end.

(** strconv.ParseFloat(s, 64) *)
Definition ParseFloat (s : string) : option float :=
  match parse_decimal s with
  | None => None
  | Some (neg, m, e) =>
      match round_decimal neg m e with
      | S754_infinity _ | S754_nan => None
      | r => Some (SF2Prim r)
      end
  end.

(** The value of a positive finite float as a fraction. *)
Definition fraction_of (f : float) : Z * Z :=
  match Prim2SF f with
  | S754_finite _ m e =>
      if (0 <=? e)%Z then ((Z.pos m * 2 ^ e)%Z, 1%Z) else (Z.pos m, (2 ^ (- e))%Z)
  | _ => (0%Z, 1%Z)
  end.

(** [num / den * 10^k], as a fraction. *)
Definition scale10 (num den k : Z) : Z * Z :=
  if (0 <=? k)%Z then ((num * 10 ^ k)%Z, den) else (num, (den * 10 ^ (- k))%Z).

Definition round_half_even (num den : Z) : Z :=
  let q := (num / den)%Z in
  let r := (num mod den)%Z in
  match (2 * r ?= den)%Z with
  | Lt => q
  | Gt => (q + 1)%Z
  | Eq => if Z.even q then q else (q + 1)%Z
  end.

Fixpoint adjust_up (fuel : nat) (num den p : Z) : Z :=
  match fuel with
  | O => p
  | Datatypes.S fuel' =>
      let '(n, d) := scale10 num den (- p)%Z in
      if (d <=? n)%Z then adjust_up fuel' num den (p + 1)%Z else p
  end.

Fixpoint adjust_down (fuel : nat) (num den p : Z) : Z :=
  match fuel with
  | O => p
  | Datatypes.S fuel' =>
      let '(n, d) := scale10 num den (1 - p)%Z in
      if (n <? d)%Z then adjust_down fuel' num den (p - 1)%Z else p
  end.

(** The decimal point position [p] of [num / den]: [10^(p-1) <= v < 10^p]. *)
Definition decimal_point (num den : Z) : Z :=
  let p0 := ((Z.log2 num - Z.log2 den) * 30103 / 100000)%Z in
  adjust_down 8 num den (adjust_up 8 num den p0).

Definition strip_zeros (d : Z) : Z :=
  (fix go (fuel : nat) (d : Z) : Z :=
     match fuel with
     | O => d
     | Datatypes.S fuel' => if (d mod 10 =? 0)%Z then go fuel' (d / 10)%Z else d
     end) 20%nat d.

(** The shortest digits that read back as [f] (positive and finite):
    the digits as a number without trailing zeros, and the position of the
    decimal point counted from the first digit. *)
Definition shortest (f : float) : Z * Z :=
  let '(num, den) := fraction_of f in
  let p := decimal_point num den in
  (fix try (fuel : nat) (n : Z) : Z * Z :=
     let '(sn, sd) := scale10 num den (n - p)%Z in
     let d := round_half_even sn sd in
     let p' := if (d =? 10 ^ n)%Z then (p + 1)%Z else p in
     let d := if (d =? 10 ^ n)%Z then (10 ^ (n - 1))%Z else d in
     let back := SF2Prim (round_decimal false d (p' - n)%Z) in
     match fuel with
     | O => (strip_zeros d, p')
     | Datatypes.S fuel' =>
         if PrimFloat.eqb back f then (strip_zeros d, p') else try fuel' (n + 1)%Z
     end) 16%nat 1%Z.

Fixpoint zeros (n : nat) : string :=
  match n with
  | O => EmptyString
  | Datatypes.S n' => String "0" (zeros n')
  end.

(** The digits [ds] with the decimal point after the first [p] of them,
    in the style of the verb f. *)
Definition layout_f (ds : string) (p : Z) : string :=
  let n := Z.of_nat (String.length ds) in
  if (p <=? 0)%Z then "0." ++ zeros (Z.to_nat (- p)%Z) ++ ds
  else if (n <=? p)%Z then ds ++ zeros (Z.to_nat (p - n)%Z)
  else substring 0 (Z.to_nat p) ds ++ "."
         ++ substring (Z.to_nat p) (Z.to_nat (n - p)%Z) ds.

(** The same digits in the style of the verb e, the exponent with at
    least [width] digits. *)
Definition layout_e (ds : string) (p : Z) (width : nat) : string :=
  let mant :=
    match ds with
    | String c EmptyString => String c EmptyString
    | String c rest => String c ("." ++ rest)
    | EmptyString => "0"
    end in
  let e := (p - 1)%Z in
  let es := digits (Z.abs e) in
  mant ++ "e" ++ (if (e <? 0)%Z then "-" else "+")
       ++ zeros (width - String.length es) ++ es.

Definition special (f : float) : option string :=
  if PrimFloat.is_nan f then Some "NaN"
  else if PrimFloat.is_infinity f then
    Some (if PrimFloat.get_sign f then "-Inf" else "+Inf")
  else None.

Definition signed (f : float) (s : string) : string :=
  if PrimFloat.get_sign f then "-" ++ s else s.

(** The text of a float, shortest digits, exponent style when the decimal
    exponent is below [lo] or at least [hi]. *)
Definition format_shortest (lo hi : Z) (width : nat) (f : float) : string :=
  match special f with
  | Some s => s
  | None =>
      if PrimFloat.is_zero f then signed f "0"
      else
        let '(d, p) := shortest (PrimFloat.abs f) in
        let ds := digits d in
        if ((p - 1 <? lo) || (hi <=? p - 1))%Z
        then signed f (layout_e ds p width)
        else signed f (layout_f ds p)
  end.

(** The float encoder of encoding/json. *)
Definition json_formatFloat : float -> string := format_shortest (-6)%Z 21%Z 1.

(** strconv.FormatFloat(f, 'f', -1, 64) *)
Definition FormatFloat : float -> string :=
  format_shortest (-100000)%Z 100000%Z 2.

(** The verb g of fmt. *)
Definition fmt_g : float -> string := format_shortest (-4)%Z 21%Z 2.

(** The verb f of fmt: six digits after the decimal point. *)
Definition fmt_f (f : float) : string :=
  match special f with
  | Some s => s
  | None =>
      let '(num, den) := fraction_of (PrimFloat.abs f) in
      let n := round_half_even (num * 1000000)%Z den in
      let frac := digits (n mod 1000000)%Z in
      signed f (digits (n / 1000000)%Z ++ "."
                ++ zeros (6 - String.length frac) ++ frac)
  end.

(** *** JSON text *)

Definition hex_digit (n : nat) : ascii :=
  if (n <? 10)%nat then ascii_of_nat (48 + n) else ascii_of_nat (87 + n).

(** The escape sequence of a character inside a JSON string, or the
    character itself. *)
Definition escape_char (c : ascii) : string :=
  let n := nat_of_ascii c in
  if (n =? 34)%nat then String backslash (String dq EmptyString)
  else if (n =? 92)%nat then String backslash (String backslash EmptyString)
  else if (n =? 10)%nat then String backslash "n"
  else if (n =? 13)%nat then String backslash "r"
  else if (n =? 9)%nat then String backslash "t"
  else if (n =? 8)%nat then String backslash "b"
  else if (n =? 12)%nat then String backslash "f"
  else if (n <? 32)%nat || (n =? 60)%nat || (n =? 62)%nat || (n =? 38)%nat then
    String backslash ("u00" ++ String (hex_digit (n / 16)) (String (hex_digit (n mod 16)) EmptyString))
  else String c EmptyString.

Definition between (lo hi : nat) (c : ascii) : bool :=
  let n := nat_of_ascii c in (lo <=? n)%nat && (n <=? hi)%nat.

(** utf8.DecodeRuneInString on a text whose first byte [c] is not ASCII:
    the size of the sequence that starts at [c], or 0 when [c] and the bytes
    after it are no UTF-8 sequence (the decoder then returns RuneError
    with size 1). *)
Definition rune_size (c : ascii) (following : string) : nat :=
  let n := nat_of_ascii c in
  let second (lo hi : nat) (size : nat) :=
    match following with
    | String c1 rest1 =>
        if negb (between lo hi c1) then 0%nat
        else if (size =? 2)%nat then 2%nat
        else
          match rest1 with
          | String c2 rest2 =>
              if negb (between 128 191 c2) then 0%nat
              else if (size =? 3)%nat then 3%nat
              else
                match rest2 with
                | String c3 _ => if between 128 191 c3 then 4%nat else 0%nat
                | EmptyString => 0%nat
                end
          | EmptyString => 0%nat
          end
    | EmptyString => 0%nat
    end in
  if (n <? 194)%nat then 0%nat
  else if (n <? 224)%nat then second 128%nat 191%nat 2%nat
  else if (n =? 224)%nat then second 160%nat 191%nat 3%nat
  else if (n =? 237)%nat then second 128%nat 159%nat 3%nat
  else if (n <? 240)%nat then second 128%nat 191%nat 3%nat
  else if (n =? 240)%nat then second 144%nat 191%nat 4%nat
  else if (n <? 244)%nat then second 128%nat 191%nat 4%nat
  else if (n =? 244)%nat then second 128%nat 143%nat 4%nat
  else 0%nat.

(** The escape of U+FFFD, written for a byte that starts no UTF-8
    sequence. *)
Definition replacement_escape : string := String backslash "ufffd".

(** The inside of a string literal: ASCII through [escape_char], a UTF-8
    sequence unchanged, the line and paragraph separators U+2028 and U+2029
    (bytes E2 80 A8 and E2 80 A9) as escapes, and any other byte as the
    escape of U+FFFD. *)
Fixpoint escape (s : string) : string :=
  match s with
  | EmptyString => EmptyString
  | String c rest =>
      if (nat_of_ascii c <? 128)%nat then escape_char c ++ escape rest
      else
        match rune_size c rest, rest with
        | 2%nat, String c1 rest1 => String c (String c1 (escape rest1))
        | 3%nat, String c1 (String c2 rest2) =>
            if (nat_of_ascii c =? 226)%nat && (nat_of_ascii c1 =? 128)%nat
               && between 168 169 c2
            then String backslash ("u202" ++ String (hex_digit (nat_of_ascii c2 - 160))
                                               (escape rest2))
            else String c (String c1 (String c2 (escape rest2)))
        | 4%nat, String c1 (String c2 (String c3 rest3)) =>
            String c (String c1 (String c2 (String c3 (escape rest3))))
        | _, _ => replacement_escape ++ escape rest
        end
  end.

Definition render_string (s : string) : string :=
  String dq (escape s ++ String dq EmptyString).

Fixpoint join (sep : string) (l : list string) : string :=
  match l with
  | [] => EmptyString
  | [x] => x
  | x :: rest => x ++ sep ++ join sep rest
  end.

(** The compact text of a document. *)
Fixpoint render (j : json) : string :=
  match j with
  | JNull => "null"
  | JBool true => "true"
  | JBool false => "false"
  | JNumber literal => literal
  | JString s => render_string s
  | JArray elems => "[" ++ join "," (map render elems) ++ "]"
  | JObject members =>
      "{" ++ join "," (map (fun kv => render_string kv.1 ++ ":" ++ render kv.2) members)
          ++ "}"
  end.

(** A piece of an unquoted string: a byte, a UTF-16 code unit written
    as [\uXXXX], or a byte that starts no UTF-8 sequence. *)
Inductive piece :=
| Byte (c : ascii)
| Unit16 (n : nat)
| Invalid.

Definition hex_value (c : ascii) : option nat :=
  let n := nat_of_ascii c in
  if (48 <=? n)%nat && (n <=? 57)%nat then Some (n - 48)%nat
  else if (97 <=? n)%nat && (n <=? 102)%nat then Some (n - 87)%nat
  else if (65 <=? n)%nat && (n <=? 70)%nat then Some (n - 55)%nat
  else None.

Definition hex4 (a b c d : ascii) : option nat :=
  match hex_value a, hex_value b, hex_value c, hex_value d with
  | Some x, Some y, Some z, Some w => Some (((x * 16 + y) * 16 + z) * 16 + w)%nat
  | _, _, _, _ => None
  end.

(** The inside of a string literal up to its closing quote, and the text
    after it. *)
Fixpoint scan_string (s : string) : option (list piece * string) :=
  match s with
  | EmptyString => None
  | String c rest =>
      let n := nat_of_ascii c in
      if (n =? 34)%nat then Some ([], rest)
      else if (n <? 32)%nat then None
      else if (n =? 92)%nat then
        match rest with
        | String e rest1 =>
            let simple (c' : ascii) :=
              match scan_string rest1 with
              | Some (ps, r) => Some (Byte c' :: ps, r)
              | None => None
              end in
            match nat_of_ascii e with
            | 34%nat => simple dq
            | 92%nat => simple backslash
            | 47%nat => simple "/"%char
            | 98%nat => simple "008"%char
            | 102%nat => simple "012"%char
            | 110%nat => simple "010"%char
            | 114%nat => simple "013"%char
            | 116%nat => simple "009"%char
            | 117%nat =>
                match rest1 with
                | String h1 (String h2 (String h3 (String h4 rest2))) =>
                    match hex4 h1 h2 h3 h4, scan_string rest2 with
                    | Some u, Some (ps, r) => Some (Unit16 u :: ps, r)
                    | _, _ => None
                    end
                | _ => None
                end
            | _ => None
            end
        | EmptyString => None
        end
      else if (n <? 128)%nat then
        match scan_string rest with
        | Some (ps, r) => Some (Byte c :: ps, r)
        | None => None
        end
      else
        match rune_size c rest, rest with
        | 2%nat, String c1 rest1 =>
            match scan_string rest1 with
            | Some (ps, r) => Some (Byte c :: Byte c1 :: ps, r)
            | None => None
            end
        | 3%nat, String c1 (String c2 rest2) =>
            match scan_string rest2 with
            | Some (ps, r) => Some (Byte c :: Byte c1 :: Byte c2 :: ps, r)
            | None => None
            end
        | 4%nat, String c1 (String c2 (String c3 rest3)) =>
            match scan_string rest3 with
            | Some (ps, r) => Some (Byte c :: Byte c1 :: Byte c2 :: Byte c3 :: ps, r)
            | None => None
            end
        | _, _ =>
            match scan_string rest with
            | Some (ps, r) => Some (Invalid :: ps, r)
            | None => None
            end
        end
  end.

(** The UTF-8 bytes of a code point. *)
Definition utf8 (cp : nat) : string :=
  let b (n : nat) := ascii_of_nat n in
  if (cp <? 128)%nat then String (b cp) EmptyString
  else if (cp <? 2048)%nat then
    String (b (192 + cp / 64)) (String (b (128 + cp mod 64)) EmptyString)
  else if (cp <? 65536)%nat then
    String (b (224 + cp / 4096))
      (String (b (128 + cp / 64 mod 64)) (String (b (128 + cp mod 64)) EmptyString))
  else
    String (b (240 + cp / 262144))
      (String (b (128 + cp / 4096 mod 64))
         (String (b (128 + cp / 64 mod 64)) (String (b (128 + cp mod 64)) EmptyString))).

(** The bytes of the pieces: a surrogate pair is one code point, a lone
    surrogate and a byte that starts no UTF-8 sequence are U+FFFD. *)
Fixpoint assemble (ps : list piece) : string :=
  match ps with
  | [] => EmptyString
  | Byte c :: rest => String c (assemble rest)
  | Invalid :: rest => utf8 65533 ++ assemble rest
  | Unit16 hi :: rest =>
      if (55296 <=? hi)%nat && (hi <? 56320)%nat then
        match rest with
        | Unit16 lo :: rest' =>
            if (56320 <=? lo)%nat && (lo <? 57344)%nat
            then utf8 (65536 + (hi - 55296) * 1024 + (lo - 56320)) ++ assemble rest'
            else utf8 65533 ++ assemble rest
        | _ => utf8 65533 ++ assemble rest
        end
      else if (56320 <=? hi)%nat && (hi <? 57344)%nat then utf8 65533 ++ assemble rest
      else utf8 hi ++ assemble rest
  end.

Definition is_space (c : ascii) : bool :=
  let n := nat_of_ascii c in
  (n =? 32)%nat || (n =? 9)%nat || (n =? 10)%nat || (n =? 13)%nat.

Fixpoint skip_space (s : string) : string :=
  match s with
  | String c rest => if is_space c then skip_space rest else s
  | EmptyString => s
  end.

Fixpoint take_digits (s : string) : string * string :=
  match s with
  | String c rest =>
      if is_digit c then let '(ds, r) := take_digits rest in (String c ds, r)
      else (EmptyString, s)
  | EmptyString => (EmptyString, s)
  end.

(** A number literal at the head of the text, and the text after it. *)
Definition scan_number (s : string) : option (string * string) :=
  let '(sign, s) :=
    match s with
    | String "-" rest => ("-", rest)
    | _ => (EmptyString, s)
    end in
  let '(int, s) := take_digits s in
  let int_ok :=
    match int with
    | EmptyString => false
    | String "0" (String _ _) => false
    | _ => true
    end in
  if negb int_ok then None
  else
    let frac :=
      match s with
      | String "." rest =>
          match take_digits rest with
          | (EmptyString, _) => None
          | (ds, r) => Some ("." ++ ds, r)
          end
      | _ => Some (EmptyString, s)
      end in
    match frac with
    | None => None
    | Some (fr, s) =>
        match s with
        | String c rest =>
            if Ascii.eqb c "e" || Ascii.eqb c "E" then
              let '(es, rest) :=
                match rest with
                | String "-" r => ("-", r)
                | String "+" r => ("+", r)
                | _ => (EmptyString, rest)
                end in
              match take_digits rest with
              | (EmptyString, _) => None
              | (ds, r) => Some (sign ++ int ++ fr ++ String c (es ++ ds), r)
              end
            else Some (sign ++ int ++ fr, s)
        | EmptyString => Some (sign ++ int ++ fr, s)
        end
    end.

Definition strip_prefix (p s : string) : option string :=
  if String.prefix p s
  then Some (substring (String.length p) (String.length s - String.length p) s)
  else None.

(** A value at the head of the text, and the text after it. *)
Fixpoint scan_value (fuel : nat) (s : string) : option (json * string) :=
  match fuel with
  | O => None
  | Datatypes.S fuel' =>
      let s := skip_space s in
      match s with
      | EmptyString => None
      | String c rest =>
          let n := nat_of_ascii c in
          if (n =? 34)%nat then
            match scan_string rest with
            | Some (ps, r) => Some (JString (assemble ps), r)
            | None => None
            end
          else if (n =? 123)%nat then
            match skip_space rest with
            | String "}" r => Some (JObject [], r)
            | _ =>
                (fix members (k : nat) (s : string) (acc : list (string * json))
                   : option (json * string) :=
                   match k with
                   | O => None
                   | Datatypes.S k' =>
                       match skip_space s with
                       | String c0 r0 =>
                           if negb (Ascii.eqb c0 dq) then None
                           else
                             match scan_string r0 with
                             | None => None
                             | Some (ps, r1) =>
                                 match skip_space r1 with
                                 | String ":" r2 =>
                                     match scan_value fuel' r2 with
                                     | None => None
                                     | Some (v, r3) =>
                                         let acc' := (acc ++ [(assemble ps, v)])%list in
                                         match skip_space r3 with
                                         | String "," r4 => members k' r4 acc'
                                         | String "}" r4 => Some (JObject acc', r4)
                                         | _ => None
                                         end
                                     end
                                 | _ => None
                                 end
                             end
                       | EmptyString => None
                       end
                   end) fuel' rest []
            end
          else if (n =? 91)%nat then
            match skip_space rest with
            | String "]" r => Some (JArray [], r)
            | _ =>
                (fix elems (k : nat) (s : string) (acc : list json)
                   : option (json * string) :=
                   match k with
                   | O => None
                   | Datatypes.S k' =>
                       match scan_value fuel' s with
                       | None => None
                       | Some (v, r1) =>
                           let acc' := (acc ++ [v])%list in
                           match skip_space r1 with
                           | String "," r2 => elems k' r2 acc'
                           | String "]" r2 => Some (JArray acc', r2)
                           | _ => None
                           end
                       end
                   end) fuel' rest []
            end
          else
            match strip_prefix "null" s, strip_prefix "true" s, strip_prefix "false" s with
            | Some r, _, _ => Some (JNull, r)
            | _, Some r, _ => Some (JBool true, r)
            | _, _, Some r => Some (JBool false, r)
            | _, _, _ =>
                match scan_number s with
                | Some (literal, r) => Some (JNumber literal, r)
                | None => None
                end
            end
      end
  end.

(** The whole text as one document. *)
Definition scan (data : string) : scanned :=
  match scan_value (Datatypes.S (String.length data)) data with
  | Some (doc, rest) =>
      match skip_space rest with
      | EmptyString => Document doc
      | _ => Malformed "invalid character after top-level value"
               (Z.of_nat (String.length data - String.length rest))
      end
  | None => Malformed "invalid JSON text" 0
  end.

Definition libraries : Libraries :=
  {| json_scan := scan;
     json_render := render;
     JSON.json_formatFloat := json_formatFloat;
     strconv_ParseFloat := ParseFloat;
     strconv_FormatFloat := FormatFloat;
     JSON.fmt_f := fmt_f;
     JSON.fmt_g := fmt_g |}.

(** *** attributevalue.UnmarshalMap *)

Definition unmarshalTypeError (what : string) : error :=
  apiError "UnmarshalTypeError" ("unmarshal failed, cannot unmarshal " ++ what).

Definition sequence_entry {A} (kv : string * result A) (m : result (gmap string A))
  : result (gmap string A) :=
  let* acc := m in
  let* x := kv.2 in
  Ok (<[kv.1 := x]> acc).

Fixpoint goValue_of_av (v : AttributeValue) : result goValue :=
  match v with
  | AttributeValueMemberS s => Ok (GoString s)
  | AttributeValueMemberN n =>
      match ParseFloat n with
      | Some f => Ok (GoFloat f)
      | None => Err (unmarshalTypeError "number")
      end
  | AttributeValueMemberB b => Ok (GoString b)
  | AttributeValueMemberBOOL b => Ok (GoBool b)
  | AttributeValueMemberNULL => Ok GoNil
  | AttributeValueMemberL l =>
      let* vs := mapM_result goValue_of_av l in Ok (GoSlice vs)
  | AttributeValueMemberM m =>
      let* vs := foldr sequence_entry (Ok ∅) (map_to_list (goValue_of_av <$> m)) in
      Ok (GoMap vs)
  end.

Definition av_string (m : item) (name : string) : result string :=
  match m !! name with
  | None | Some AttributeValueMemberNULL => Ok EmptyString
  | Some (AttributeValueMemberS s) => Ok s
  | Some _ => Err (unmarshalTypeError ("attribute " ++ name ++ " into string"))
  end.

Definition av_float (m : item) (name : string) : result (option float) :=
  match m !! name with
  | None | Some AttributeValueMemberNULL => Ok None
  | Some (AttributeValueMemberN n) =>
      match ParseFloat n with
      | Some f => Ok (Some f)
      | None => Err (unmarshalTypeError ("attribute " ++ name ++ " into float64"))
      end
  | Some _ => Err (unmarshalTypeError ("attribute " ++ name ++ " into float64"))
  end.

Definition av_struct {A} (m : item) (name : string) (dec : item -> result A)
  : result (option A) :=
  match m !! name with
  | None | Some AttributeValueMemberNULL => Ok None
  | Some (AttributeValueMemberM fields) => let* a := dec fields in Ok (Some a)
  | Some _ => Err (unmarshalTypeError ("attribute " ++ name ++ " into struct"))
  end.

Definition Address_of_av (m : item) : result models.Address.t :=
  let* sa := av_string m "streetAddress" in
  let* sa2 := av_string m "streetAddress2" in
  let* city := av_string m "city" in
  let* sp := av_string m "stateProvince" in
  let* pc := av_string m "postalCode" in
  let* co := av_string m "country" in
  Ok (models.Address.Build_t sa sa2 city sp pc co).

Definition Coordinates_of_av (m : item) : result models.Coordinates.t :=
  let* lat := av_float m "latitude" in
  let* lon := av_float m "longitude" in
  let* alt := av_float m "altitude" in
  let* acc := av_float m "accuracy" in
  Ok (models.Coordinates.Build_t (default 0%float lat) (default 0%float lon) alt acc).

Definition attributes_of_av (m : item) : result (gmap string goValue) :=
  let* v := goValue_of_av (AttributeValueMemberM m) in
  match v with
  | GoMap vs => Ok vs
  | _ => Ok ∅
  end.

Definition UnmarshalMap (it : item) : result repository.locationRecord.t :=
  let* pk := av_string it "PK" in
  let* sk := av_string it "SK" in
  let* acc := av_string it "accountId" in
  let* lt := av_string it "locationType" in
  let* ext := av_struct it "extendedAttributes" attributes_of_av in
  let* addr := av_struct it "address" Address_of_av in
  let* coords := av_struct it "coordinates" Coordinates_of_av in
  Ok (repository.locationRecord.Build_t pk sk acc lt ext addr coords).

Definition unmarshaler : repository.Unmarshaler :=
  {| repository.attributevalue_UnmarshalMap := UnmarshalMap |}.

End reference.

(** The library reads back as [doc] the text it writes for [doc], and
    that text is not empty.  (encoding/json does so for every document it
    writes whose strings are valid UTF-8.) *)
Definition json_round_trips {lib : Libraries} (doc : json) : Prop :=
  json_render doc <> EmptyString /\ json_scan (json_render doc) = Document doc.

(** The three tags of the closed set of variants. *)
Definition known_tag (t : models.LocationType) : Prop :=
  t = models.LocationTypeAddress \/
  t = models.LocationTypeCoordinates \/
  t = models.LocationTypeShop.

(** The tag that belongs to the concrete type of a location. *)
Definition variant_tag (location : models.Location) : models.LocationType :=
  match location with
  | models.ofAddressLocation _ => models.LocationTypeAddress
  | models.ofCoordinatesLocation _ => models.LocationTypeCoordinates
  | models.ofShopLocation _ => models.LocationTypeShop
  end.

(** An error of encoding/json for a value of the wrong JSON type. *)
Definition is_type_error (err : error) : Prop :=
  exists value gotype field, err = UnmarshalTypeError value gotype field.

(** The decoding of a document into the zero value of the variant a known
    tag names. *)
Definition decode_variant {lib : Libraries} (t : models.LocationType) (doc : json)
  : result models.Location :=
  if String.eqb t models.LocationTypeAddress then
    let* l := models.decode_AddressLocation doc models.AddressLocation.zero in
    Ok (models.ofAddressLocation l)
  else if String.eqb t models.LocationTypeCoordinates then
    let* l := models.decode_CoordinatesLocation doc models.CoordinatesLocation.zero in
    Ok (models.ofCoordinatesLocation l)
  else
    let* l := models.decode_ShopLocation doc models.ShopLocation.zero in
    Ok (models.ofShopLocation l).

(** C5 as it is stated: a malformed payload gives an error that wraps the
    parse error, a discriminator outside the three tags gives the "unknown
    location type" error, and every other payload is decoded into the
    variant its discriminator names. *)
Definition UnmarshalLocation_as_stated (lib : Libraries) : Prop :=
  forall data : string,
    match json_scan data with
    | Malformed msg offset =>
        exists prefix,
          models.UnmarshalLocation data = Err (wrapError prefix (SyntaxError msg offset))
    | Document doc =>
        forall t, models.decode_discriminator doc EmptyString = Ok t ->
          (~ known_tag t ->
             models.UnmarshalLocation data = Err (fmtErrorS "unknown location type: " t)) /\
          (known_tag t ->
             exists location,
               models.UnmarshalLocation data = Ok location /\ variant_tag location = t)
    end.

(** Payloads of the coordinates variant for an account: one with no
    coordinates block, one whose block is empty, one at the point (0, 0);
    and the location at the point (0, 0). *)
Definition coordinates_payload (accountID : string) (block : list (string * json))
  : json :=
  JObject ([("locationType", JString "coordinates");
            ("accountId", JString accountID)] ++ block)%list.

Definition payload_without_block (accountID : string) : json :=
  coordinates_payload accountID [].

Definition payload_with_empty_block (accountID : string) : json :=
  coordinates_payload accountID [("coordinates", JObject [])].

Definition payload_at_origin (accountID : string) : json :=
  coordinates_payload accountID
    [("coordinates", JObject [("latitude", JNumber "0"); ("longitude", JNumber "0")])].

Definition location_at_origin (accountID : string) : models.Location :=
  models.ofCoordinatesLocation
    {| models.CoordinatesLocation.Base :=
         {| models.LocationBase.AccountID := accountID;
            models.LocationBase.LocationType := models.LocationTypeCoordinates;
            models.LocationBase.ExtendedAttributes := None |};
       models.CoordinatesLocation.Coordinates := models.Coordinates.zero |}.

(** A valid shop location (that of the model tests). *)
Definition coffee_shop : models.Location :=
  models.ofShopLocation
    {| models.ShopLocation.Base :=
         {| models.LocationBase.AccountID := "acc-54321";
            models.LocationBase.LocationType := models.LocationTypeShop;
            models.LocationBase.ExtendedAttributes := None |};
       models.ShopLocation.Shop :=
         {| models.Shop.Name := "Coffee Shop";
            models.Shop.ContactID := "contact-123e4567-e89b-12d3-a456-426614174000";
            models.Shop.Address :=
              {| models.Address.StreetAddress := "123 Main St";
                 models.Address.StreetAddress2 := "Suite 100";
                 models.Address.City := "Springfield";
                 models.Address.StateProvince := "IL";
                 models.Address.PostalCode := "12345";
                 models.Address.Country := "US" |} |} |}.

(** A valid address location (that of the repository tests). *)
Definition main_street : models.Location :=
  models.ofAddressLocation
    {| models.AddressLocation.Base :=
         {| models.LocationBase.AccountID := "acc-12345";
            models.LocationBase.LocationType := models.LocationTypeAddress;
            models.LocationBase.ExtendedAttributes := None |};
       models.AddressLocation.Address :=
         {| models.Address.StreetAddress := "123 Main St";
            models.Address.StreetAddress2 := "";
            models.Address.City := "Springfield";
            models.Address.StateProvince := "";
            models.Address.PostalCode := "12345";
            models.Address.Country := "US" |} |}.

(** The repository of the tests, over the store. *)
Definition test_repository {lib : Libraries}
  : repository.DynamoDBRepository memstore.table :=
  repository.NewDynamoDBRepository memstore.mem_client "test-table" "test-gsi".

(** The base fields [toLocation] copies from a record. *)
Definition record_base (record : repository.locationRecord.t) : models.LocationBase.t :=
  {| models.LocationBase.AccountID := repository.locationRecord.AccountID record;
     models.LocationBase.LocationType := repository.locationRecord.LocationType record;
     models.LocationBase.ExtendedAttributes :=
       repository.locationRecord.ExtendedAttributes record |}.

(** The shape block a record holds for its stored locationType: the
    address block of an address record, the coordinates block of a
    coordinates record; a record of any other type has none. *)
Definition shape_block (record : repository.locationRecord.t)
  : option (models.Address.t + models.Coordinates.t) :=
  let t := repository.locationRecord.LocationType record in
  if String.eqb t models.LocationTypeAddress then
    inl <$> repository.locationRecord.Address record
  else if String.eqb t models.LocationTypeCoordinates then
    inr <$> repository.locationRecord.Coordinates record
  else None.

(** The location a record and its shape block stand for. *)
Definition reconstruct (record : repository.locationRecord.t)
    (block : models.Address.t + models.Coordinates.t) : models.Location :=
  match block with
  | inl a =>
      models.ofAddressLocation
        {| models.AddressLocation.Base := record_base record;
           models.AddressLocation.Address := a |}
  | inr c =>
      models.ofCoordinatesLocation
        {| models.CoordinatesLocation.Base := record_base record;
           models.CoordinatesLocation.Coordinates := c |}
  end.

(** The error for a record without the shape block of its type. *)
Definition missing_block_error (record : repository.locationRecord.t) : error :=
  let t := repository.locationRecord.LocationType record in
  if String.eqb t models.LocationTypeAddress then
    errorString "address is nil for address location type"
  else if String.eqb t models.LocationTypeCoordinates then
    errorString "coordinates is nil for coordinates location type"
  else fmtErrorS "unknown location type: " t.

(** A client that records the queries it is sent before it hands them to
    another client, as the test double does. *)
Definition recording {S} (inner : DynamoDBClient S)
  : DynamoDBClient (list QueryInput.t * S) :=
  {| PutItem input st :=
       let '(res, s) := PutItem (DynamoDBClient := inner) input st.2 in (res, (st.1, s));
     GetItem input st :=
       let '(res, s) := GetItem (DynamoDBClient := inner) input st.2 in (res, (st.1, s));
     DeleteItem input st :=
       let '(res, s) := DeleteItem (DynamoDBClient := inner) input st.2 in (res, (st.1, s));
     Query input st :=
       let '(res, s) := Query (DynamoDBClient := inner) input st.2 in
       (res, ((st.1 ++ [input])%list, s)) |}.

(** The caller supplies no limit. *)
Definition no_limit (options : option repository.ListOptions.t) : Prop :=
  match options with
  | Some o => repository.ListOptions.Limit o = None
  | None => True
  end.

(** A float64 the library writes and reads back: it is finite, and
    strconv.ParseFloat returns it for the text encoding/json writes.
    (strconv does so for every finite float64.) *)
Definition float_round_trips {lib : Libraries} (f : float) : Prop :=
  F64.is_nan_or_inf f = false /\
  strconv_ParseFloat (json_formatFloat f) = Some f.

Definition float_ptr_round_trips {lib : Libraries} (p : option float) : Prop :=
  match p with
  | Some f => float_round_trips f
  | None => True
  end.

(** A dynamic value all of whose numbers are written and read back. *)
Inductive value_round_trips {lib : Libraries} : goValue -> Prop :=
| nil_round_trips : value_round_trips GoNil
| bool_round_trips b : value_round_trips (GoBool b)
| number_round_trips f : float_round_trips f -> value_round_trips (GoFloat f)
| string_round_trips s : value_round_trips (GoString s)
| slice_round_trips l : Forall value_round_trips l -> value_round_trips (GoSlice l)
| map_round_trips m :
    map_Forall (fun _ v => value_round_trips v) m -> value_round_trips (GoMap m).

(** All the numbers of a location are written and read back. *)
Definition numbers_round_trip {lib : Libraries} (location : models.Location) : Prop :=
  match models.GetExtendedAttributes location with
  | Some m => map_Forall (fun _ v => value_round_trips v) m
  | None => True
  end /\
  match location with
  | models.ofCoordinatesLocation l =>
      let c := models.CoordinatesLocation.Coordinates l in
      float_round_trips (models.Coordinates.Latitude c) /\
      float_round_trips (models.Coordinates.Longitude c) /\
      float_ptr_round_trips (models.Coordinates.Altitude c) /\
      float_ptr_round_trips (models.Coordinates.Accuracy c)
  | _ => True
  end.

(** The extendedAttributes map is nil or holds an entry: [omitempty]
    leaves an empty map out, and the decoder then leaves the field nil. *)
Definition attributes_nil_or_inhabited (location : models.Location) : Prop :=
  match models.GetExtendedAttributes location with
  | Some m => size m <> 0%nat
  | None => True
  end.

(** C8 as it is stated: decoding the JSON produced by encoding a valid
    Location yields an equal Location. *)
Definition round_trip_as_stated (lib : Libraries) : Prop :=
  forall (location : models.Location) (data : string),
    models.Validate location = None ->
    models.MarshalLocation location = Ok data ->
    models.UnmarshalLocation data = Ok location.

(** Storing the keys [ks] with their values in [m], one after the other. *)
Definition store_keys (m : gmap string JSON.goValue) (ks : list string)
    (m0 : gmap string JSON.goValue) : gmap string JSON.goValue :=
  foldl (fun acc k => match m !! k with
                      | Some x => <[k := x]> acc
                      | None => acc
                      end) m0 ks.

(** The map [json.Unmarshal] builds from the JSON of a location: one
    entry per member of the document, the members of the embedded base at
    the top level, the shape block as a nested map, and no entry for a
    field that [omitempty] leaves out. *)
Definition put_nonempty (k s : string) (m : gmap string JSON.goValue)
  : gmap string JSON.goValue :=
  if String.eqb s "" then m else <[k := JSON.GoString s]> m.

Definition put_number (k : string) (p : option float) (m : gmap string JSON.goValue)
  : gmap string JSON.goValue :=
  match p with
  | Some f => <[k := JSON.GoFloat f]> m
  | None => m
  end.

Definition put_attributes (attrs : option (gmap string JSON.goValue))
    (m : gmap string JSON.goValue) : gmap string JSON.goValue :=
  match attrs with
  | Some e => if (size e =? 0)%nat then m
              else <["extendedAttributes" := JSON.GoMap e]> m
  | None => m
  end.

Definition Address_fields (a : models.Address.t) : gmap string JSON.goValue :=
  <["country" := JSON.GoString (models.Address.Country a)]>
    (<["postalCode" := JSON.GoString (models.Address.PostalCode a)]>
       (put_nonempty "stateProvince" (models.Address.StateProvince a)
          (<["city" := JSON.GoString (models.Address.City a)]>
             (put_nonempty "streetAddress2" (models.Address.StreetAddress2 a)
                (<["streetAddress" :=
                     JSON.GoString (models.Address.StreetAddress a)]> ∅))))).

Definition Coordinates_fields (c : models.Coordinates.t) : gmap string JSON.goValue :=
  put_number "accuracy" (models.Coordinates.Accuracy c)
    (put_number "altitude" (models.Coordinates.Altitude c)
       (<["longitude" := JSON.GoFloat (models.Coordinates.Longitude c)]>
          (<["latitude" := JSON.GoFloat (models.Coordinates.Latitude c)]> ∅))).

Definition Shop_fields (s : models.Shop.t) : gmap string JSON.goValue :=
  <["address" := JSON.GoMap (Address_fields (models.Shop.Address s))]>
    (<["contactId" := JSON.GoString (models.Shop.ContactID s)]>
       (<["name" := JSON.GoString (models.Shop.Name s)]> ∅)).

Definition base_fields (b : models.LocationBase.t) : gmap string JSON.goValue :=
  put_attributes (models.LocationBase.ExtendedAttributes b)
    (<["locationType" := JSON.GoString (models.LocationBase.LocationType b)]>
       (<["accountId" := JSON.GoString (models.LocationBase.AccountID b)]> ∅)).

Definition Location_fields (location : models.Location) : gmap string JSON.goValue :=
  let m := base_fields (models.base location) in
  match location with
  | models.ofAddressLocation l =>
      <["address" := JSON.GoMap (Address_fields (models.AddressLocation.Address l))]> m
  | models.ofCoordinatesLocation l =>
      <["coordinates" :=
          JSON.GoMap (Coordinates_fields (models.CoordinatesLocation.Coordinates l))]> m
  | models.ofShopLocation l =>
      <["shop" := JSON.GoMap (Shop_fields (models.ShopLocation.Shop l))]> m
  end.

(** The GraphQL type name that goes with a tag. *)
Definition typename (t : models.LocationType) : string :=
  if String.eqb t models.LocationTypeAddress then "AddressLocation"
  else if String.eqb t models.LocationTypeCoordinates then "CoordinatesLocation"
  else "ShopLocation".

(** A repository that holds one location and returns it to every [Get],
    as the test double of the handler tests does. *)
Definition holding (location : models.Location) : handler.Repository unit :=
  {| handler.Create _ st := (Ok "loc-1", st);
     handler.Get _ _ st := (Ok location, st);
     handler.Update _ _ st := (None, st);
     handler.Delete _ _ st := (None, st);
     handler.List _ _ st :=
       (Ok {| repository.ListResult.Locations := [location];
              repository.ListResult.NextCursor := None |}, st) |}.

(** A handler that is not reached. *)
Definition not_reached (arguments : string) (st : unit)
  : result handler.response * unit :=
  (Err (errorString "not reached"), st).

(** An address location with an allocated, empty extendedAttributes map. *)
Definition main_street_empty_attributes : models.Location :=
  models.ofAddressLocation
    {| models.AddressLocation.Base :=
         {| models.LocationBase.AccountID := "acc-12345";
            models.LocationBase.LocationType := models.LocationTypeAddress;
            models.LocationBase.ExtendedAttributes := Some ∅ |};
       models.AddressLocation.Address :=
         {| models.Address.StreetAddress := "123 Main St";
            models.Address.StreetAddress2 := "";
            models.Address.City := "Springfield";
            models.Address.StateProvince := "";
            models.Address.PostalCode := "12345";
            models.Address.Country := "US" |} |}.

(** Sample values: a point, a coordinates location at that point with two
    extended attributes, the cursor after the location loc-1 of account
    acc-12345, and a getLocation event for that location. *)
Definition a_point : models.Coordinates.t :=
  {| models.Coordinates.Latitude := 40.75;
     models.Coordinates.Longitude := (-74.125);
     models.Coordinates.Altitude := None;
     models.Coordinates.Accuracy := Some 10%float |}.

Definition survey_attributes : gmap string JSON.goValue :=
  <["floor" := JSON.GoFloat 3%float]> (<["name" := JSON.GoString "roof"]> ∅).

Definition a_survey_point : models.Location :=
  models.ofCoordinatesLocation
    {| models.CoordinatesLocation.Base :=
         {| models.LocationBase.AccountID := "acc-12345";
            models.LocationBase.LocationType := models.LocationTypeCoordinates;
            models.LocationBase.ExtendedAttributes := Some survey_attributes |};
       models.CoordinatesLocation.Coordinates := a_point |}.

Definition a_cursor : repository.paginationCursor.t :=
  {| repository.paginationCursor.PK := "loc-1";
     repository.paginationCursor.SK := "acc-12345";
     repository.paginationCursor.AccountID := "acc-12345" |}.

(** C7 as it is stated: [decodeCursor] applied to the string [encodeCursor]
    produces for a cursor returns an equal cursor. *)
Definition cursor_round_trip_as_stated (lib : Libraries) : Prop :=
  forall (c : repository.paginationCursor.t) (s : string),
    repository.encodeCursor (Some c) = Ok (Some s) ->
    repository.decodeCursor (Some s) = Ok (Some c).

(** A cursor whose PK is the three bytes 'a', 0xFF, 'b', which are not
    valid UTF-8; the text [encodeCursor] produces for it; and the cursor
    [decodeCursor] returns for that text, whose PK holds the three bytes
    of U+FFFD in the place of the byte 0xFF. *)
Definition a_cursor_of_bytes : repository.paginationCursor.t :=
  {| repository.paginationCursor.PK :=
       String "a" (String "255" (String "b" EmptyString));
     repository.paginationCursor.SK := "acc-12345";
     repository.paginationCursor.AccountID := "acc-12345" |}.

Definition a_cursor_of_bytes_text : string :=
  "eyJwayI6ImFcdWZmZmRiIiwic2siOiJhY2MtMTIzNDUiLCJhY2NvdW50SWQiOiJhY2MtMTIzNDUifQ==".

Definition a_cursor_read_back : repository.paginationCursor.t :=
  {| repository.paginationCursor.PK :=
       String "a" (String "239" (String "191" (String "189" (String "b" EmptyString))));
     repository.paginationCursor.SK := "acc-12345";
     repository.paginationCursor.AccountID := "acc-12345" |}.

Definition a_getLocation_event : handler.AppSyncEvent.t :=
  {| handler.AppSyncEvent.Field := "getLocation";
     handler.AppSyncEvent.Arguments :=
       reference.q "{'accountId':'acc-12345','locationId':'loc-1'}" |}.

Definition a_getLocation_arguments : handler.GetLocationArguments.t :=
  {| handler.GetLocationArguments.AccountID := "acc-12345";
     handler.GetLocationArguments.LocationID := "loc-1" |}.

(** The JSON of [main_street]. *)
Definition main_street_json : string :=
  reference.q ("{'accountId':'acc-12345','locationType':'address'," ++
               "'address':{'streetAddress':'123 Main St','city':'Springfield'," ++
               "'postalCode':'12345','country':'US'}}").

(** A payload with the discriminator of an address and an accountId that
    is a number. *)
Definition numeric_account_payload : string :=
  reference.q "{'locationType':'address','accountId':5}".

Definition numeric_account_document : JSON.json :=
  JSON.JObject [("locationType", JSON.JString "address");
                ("accountId", JSON.JNumber "5")].

(** A coordinates payload without a coordinates block. *)
Definition blockless_payload : string :=
  reference.q "{'locationType':'coordinates','accountId':'acc-12345'}".

(** The validation of the shape block of a location. *)
Definition shape_Validate (location : models.Location) : option error :=
  match location with
  | models.ofAddressLocation l =>
      models.Address.Validate (models.AddressLocation.Address l)
  | models.ofCoordinatesLocation l =>
      models.Coordinates.Validate (models.CoordinatesLocation.Coordinates l)
  | models.ofShopLocation l =>
      models.Shop.Validate (models.ShopLocation.Shop l)
  end.

(** A coordinates location with a given base and block. *)
Definition coordinates_location (b : models.LocationBase.t) (c : models.Coordinates.t)
  : models.Location :=
  models.ofCoordinatesLocation
    {| models.CoordinatesLocation.Base := b;
       models.CoordinatesLocation.Coordinates := c |}.

(** The key [cursorToLastEvaluatedKey] rebuilds from the cursor of a last
    evaluated key: its PK, SK and accountId, each as a string, the empty
    string standing for an attribute that is absent or not a string. *)
Definition resume_key (lek : item) : item :=
  <["PK" := AttributeValueMemberS (repository.string_attribute lek "PK")]>
  (<["SK" := AttributeValueMemberS (repository.string_attribute lek "SK")]>
  (<["accountId" :=
       AttributeValueMemberS (repository.string_attribute lek "accountId")]> ∅)).

(** A client that answers every query with one given page and accepts
    every write, as the programmed test double of the repository tests
    does. *)
Definition scripted (out : QueryOutput.t) : DynamoDBClient unit :=
  {| PutItem _ st := (Ok tt, st);
     GetItem _ st := (Ok {| GetItemOutput.Item := None |}, st);
     DeleteItem _ st := (Ok tt, st);
     Query _ st := (Ok out, st) |}.

(** The options of a call of [List] that resumes at a cursor. *)
Definition resume_at (limit : option Z) (cursor : string)
  : option repository.ListOptions.t :=
  Some {| repository.ListOptions.Limit := limit;
          repository.ListOptions.Cursor := Some cursor |}.

(** An empty page that ends at the record loc-1 of acc-12345. *)
Definition a_last_key : item :=
  <["PK" := AttributeValueMemberS "loc-1"]>
  (<["SK" := AttributeValueMemberS "acc-12345"]>
  (<["accountId" := AttributeValueMemberS "acc-12345"]> ∅)).

Definition a_page : QueryOutput.t :=
  {| QueryOutput.Items := [];
     QueryOutput.LastEvaluatedKey := Some a_last_key |}.

(** Every item of a table is stored under its own key, and its accountId
    attribute is the account identifier of that key. *)
Definition owned_by_key (tbl : memstore.table) : Prop :=
  map_Forall (fun k it =>
                memstore.primary_key it = Some k /\
                it !! "accountId" = Some (AttributeValueMemberS k.2)) tbl.

(** The repository over the store, for a table and an index of any
    name. *)
Definition store_repository {lib : Libraries} (table_name gsi : string)
  : repository.DynamoDBRepository memstore.table :=
  repository.NewDynamoDBRepository memstore.mem_client table_name gsi.

(** The item [Create] and [Update] write for a location under a location
    identifier, and a store that holds [main_street] under loc-1. *)
Definition stored {lib : Libraries} (location : models.Location) (locationID : string)
  : item :=
  match repository.toLocationRecord location locationID with
  | Ok record =>
      match repository.MarshalMap record with
      | Ok av => av
      | Err _ => ∅
      end
  | Err _ => ∅
  end.

Definition a_store : memstore.table :=
  <[("loc-1", "acc-12345") := stored (lib := reference.libraries) main_street "loc-1"]> ∅.

(** [main_street] after a move. *)
Definition elm_street : models.Location :=
  models.ofAddressLocation
    {| models.AddressLocation.Base :=
         {| models.LocationBase.AccountID := "acc-12345";
            models.LocationBase.LocationType := models.LocationTypeAddress;
            models.LocationBase.ExtendedAttributes := None |};
       models.AddressLocation.Address :=
         {| models.Address.StreetAddress := "7 Elm St";
            models.Address.StreetAddress2 := "";
            models.Address.City := "Springfield";
            models.Address.StateProvince := "IL";
            models.Address.PostalCode := "12345";
            models.Address.Country := "US" |} |}.

(** ** Package handler: the handler of deleteLocation, and the repository
    behind the handler *)

Module appsync.
Import models handler.

(** [type DeleteLocationArguments struct] *)
Module DeleteLocationArguments.
Record t := {
  AccountID : string;    (* json:"accountId" *)
  LocationID : string    (* json:"locationId" *)
}.
Definition zero : t := {| AccountID := ""; LocationID := "" |}.
End DeleteLocationArguments.

Section Handlers.
Context {lib : Libraries} {S : Type} {repo : Repository S}.

Definition DeleteLocationArguments_setField (name : string) (v : JSON.json)
    (a : DeleteLocationArguments.t) : result DeleteLocationArguments.t :=
  let '(DeleteLocationArguments.Build_t acc loc) := a in
  if String.eqb name "ACCOUNTID" then
    let* s := JSON.decode_string "string" "DeleteLocationArguments.accountId" v acc in
    Ok (DeleteLocationArguments.Build_t s loc)
  else if String.eqb name "LOCATIONID" then
    let* s := JSON.decode_string "string" "DeleteLocationArguments.locationId" v loc in
    Ok (DeleteLocationArguments.Build_t acc s)
  else Ok a.

Definition decode_DeleteLocationArguments
  : JSON.json -> DeleteLocationArguments.t -> result DeleteLocationArguments.t :=
  JSON.decode_struct "handler.DeleteLocationArguments" "" DeleteLocationArguments_setField.

(** [func (h *AppSyncHandler) handleDeleteLocation(ctx, arguments)
    (bool, error)] *)
Definition handleDeleteLocation (arguments : string) (st : S) : result bool * S :=
  match JSON.Unmarshal decode_DeleteLocationArguments arguments
          DeleteLocationArguments.zero with
  | Err err => (Err (wrapError "failed to unmarshal arguments: " err), st)
  | Ok args =>
      match Delete (DeleteLocationArguments.AccountID args)
                   (DeleteLocationArguments.LocationID args) st with
      | (Some err, st') => (Err (wrapError "failed to delete location: " err), st')
      | (None, st') => (Ok true, st')
      end
  end.

(** [return h.handleDeleteLocation(ctx, event.Arguments)] in [Handle]: the
    boolean as the [interface{}] of the response. *)
Definition deleteLocation (arguments : string) (st : S) : result response * S :=
  match handleDeleteLocation arguments st with
  | (Ok b, st') => (Ok (ofBool b), st')
  | (Err err, st') => (Err err, st')
  end.

End Handlers.

(** A [*DynamoDBRepository] as the [repository.Repository] of the handler
    ([NewAppSyncHandler(repo)]); [uuid] is the identifier the next
    [Create] draws. *)
Definition as_Repository {lib : Libraries} {unmarshaler : repository.Unmarshaler}
    {S : Type} (r : repository.DynamoDBRepository S) (uuid : string)
  : Repository S :=
  {| Create := repository.Create r uuid;
     Get := repository.Get r;
     Update := repository.Update r;
     Delete := repository.Delete r;
     List := repository.List r |}.

End appsync.

(** The field names [Handle] knows. *)
Definition create_fields : list string :=
  ["createLocation"; "createAddressLocation"; "createCoordinatesLocation";
   "createShopLocation"].

Definition update_fields : list string :=
  ["updateLocation"; "updateAddressLocation"; "updateCoordinatesLocation";
   "updateShopLocation"].

Definition known_fields : list string :=
  (create_fields ++ ["getLocation"] ++ update_fields
   ++ ["deleteLocation"; "listLocations"])%list.

(** A deleteLocation event for the location loc-1 of acc-12345. *)
Definition a_deleteLocation_event : handler.AppSyncEvent.t :=
  {| handler.AppSyncEvent.Field := "deleteLocation";
     handler.AppSyncEvent.Arguments :=
       reference.q "{'accountId':'acc-12345','locationId':'loc-1'}" |}.

Definition a_deleteLocation_arguments : appsync.DeleteLocationArguments.t :=
  {| appsync.DeleteLocationArguments.AccountID := "acc-12345";
     appsync.DeleteLocationArguments.LocationID := "loc-1" |}.

(** A location with its extendedAttributes replaced. *)
Definition with_attributes (attrs : option (gmap string JSON.goValue))
    (location : models.Location) : models.Location :=
  let b := models.base location in
  let b' := {| models.LocationBase.AccountID := models.LocationBase.AccountID b;
               models.LocationBase.LocationType := models.LocationBase.LocationType b;
               models.LocationBase.ExtendedAttributes := attrs |} in
  match location with
  | models.ofAddressLocation l =>
      models.ofAddressLocation
        {| models.AddressLocation.Base := b';
           models.AddressLocation.Address := models.AddressLocation.Address l |}
  | models.ofCoordinatesLocation l =>
      models.ofCoordinatesLocation
        {| models.CoordinatesLocation.Base := b';
           models.CoordinatesLocation.Coordinates :=
             models.CoordinatesLocation.Coordinates l |}
  | models.ofShopLocation l =>
      models.ofShopLocation
        {| models.ShopLocation.Base := b';
           models.ShopLocation.Shop := models.ShopLocation.Shop l |}
  end.

(** The location with an empty extendedAttributes map replaced by nil,
    which is what [omitempty] and the decoder make of it. *)
Definition nil_if_empty (location : models.Location) : models.Location :=
  match models.GetExtendedAttributes location with
  | Some m => if (size m =? 0)%nat then with_attributes None location else location
  | None => location
  end.

(** The options of a call of [List] with a limit and no cursor. *)
Definition with_limit (limit : Z) : option repository.ListOptions.t :=
  Some {| repository.ListOptions.Limit := Some limit;
          repository.ListOptions.Cursor := None |}.

(** The record [toLocationRecord] makes of a location, for the variants it
    accepts. *)
Definition record_of (location : models.Location) (locationID : string)
  : repository.locationRecord.t :=
  match repository.toLocationRecord location locationID with
  | Ok record => record
  | Err _ =>
      {| repository.locationRecord.PK := locationID;
         repository.locationRecord.SK := models.GetAccountID location;
         repository.locationRecord.AccountID := models.GetAccountID location;
         repository.locationRecord.LocationType := models.GetLocationType location;
         repository.locationRecord.ExtendedAttributes :=
           models.GetExtendedAttributes location;
         repository.locationRecord.Address := None;
         repository.locationRecord.Coordinates := None |}
  end.

(** A page that holds the item of [main_street] and ends the listing. *)
Definition a_full_page : QueryOutput.t :=
  {| QueryOutput.Items := [stored (lib := reference.libraries) main_street "loc-1"];
     QueryOutput.LastEvaluatedKey := None |}.

(** A handler that is not reached, over any state. *)
Definition unused {S : Type} (arguments : string) (st : S)
  : result handler.response * S :=
  (Err (errorString "not reached"), st).

(** ** Package main *)

Module main.

(** The environment of the process: [os.Getenv] returns the empty string
    for a variable that is not set. *)
Definition environment := gmap string string.

Definition Getenv (env : environment) (key : string) : string :=
  default "" (env !! key).

(** [func getEnvVar(key, defaultValue string) string] *)
Definition getEnvVar (env : environment) (key defaultValue : string) : string :=
  let value := Getenv env key in
  if negb (String.eqb value "") then value else defaultValue.

Section Lambda.
Context {lib : Libraries}.

(** What the package takes from the SDK and from package handler: the
    loading of the AWS configuration, the client made from it, the
    repository made from the client and the table name, and [Handle] of
    the handler made from the repository. *)
Context {Config Client Repo St : Type}.
Variable LoadDefaultConfig : result Config.
Variable NewFromConfig : Config -> Client.
Variable NewDynamoDBRepository : Client -> string -> Repo.
Variable Handle : Repo -> handler.AppSyncEvent.t -> St -> result handler.response * St.

(** [func initializeHandler(ctx) ( *handler.AppSyncHandler, error)]; the
    handler is given by the repository it holds. *)
Definition initializeHandler (env : environment) : result Repo :=
  let tableName := Getenv env "DYNAMODB_TABLE_NAME" in
  if String.eqb tableName "" then
    Err (errorString "DYNAMODB_TABLE_NAME environment variable is required")
  else
    match LoadDefaultConfig with
    | Err err => Err (wrapError "failed to load AWS config: " err)
    | Ok cfg =>
        let dynamoClient := NewFromConfig cfg in
        let repo := NewDynamoDBRepository dynamoClient tableName in
        Ok repo
    end.

(** [func lambdaHandler(ctx, event) (interface{}, error)].  The lines
    [log.Printf] writes are appended to [log], without the time stamp the
    logger puts in front. *)
Definition lambdaHandler (env : environment) (event : handler.AppSyncEvent.t)
    (st : St) (log : list string) : result handler.response * St * list string :=
  match initializeHandler env with
  | Err err =>
      (Err (wrapError "initialization error: " err), st,
       (log ++ [("ERROR: Failed to initialize handler: " ++ message err)%string])%list)
  | Ok h =>
      let log :=
        (log ++ [("INFO: Processing AppSync event - Field: "
                    ++ handler.AppSyncEvent.Field event)%string])%list in
      match Handle h event st with
      | (Err err, st') =>
          (Err err, st',
           (log ++ [("ERROR: Failed to handle event: " ++ message err)%string])%list)
      | (Ok result, st') =>
          (Ok result, st', (log ++ ["INFO: Successfully processed event"])%list)
      end
  end.

End Lambda.
End main.

(** An environment that names the table, and one that does not. *)
Definition an_environment : main.environment :=
  <["DYNAMODB_TABLE_NAME" := "test-table"]> ∅.

Definition a_bare_environment : main.environment :=
  <["AWS_REGION" := "us-east-1"]> ∅.

(** The SDK reads the accountId attribute of an item, when it is a string,
    into the AccountID field of the record.  (attributevalue does so for
    the field tagged [dynamodbav:"accountId"].) *)
Definition reads_accountId {unmarshaler : repository.Unmarshaler} : Prop :=
  forall (it : item) (record : repository.locationRecord.t) (a : string),
    repository.attributevalue_UnmarshalMap it = Ok record ->
    it !! "accountId" = Some (AttributeValueMemberS a) ->
    repository.locationRecord.AccountID record = a.

(** A store with the record of [main_street] for acc-12345 and a record of
    [elm_street] entered for another account. *)
Definition elm_street_of (accountID : string) : models.Location :=
  match elm_street with
  | models.ofAddressLocation l =>
      models.ofAddressLocation
        {| models.AddressLocation.Base :=
             {| models.LocationBase.AccountID := accountID;
                models.LocationBase.LocationType := models.LocationTypeAddress;
                models.LocationBase.ExtendedAttributes := None |};
           models.AddressLocation.Address := models.AddressLocation.Address l |}
  | other => other
  end.

Definition a_shared_store : memstore.table :=
  <[("loc-2", "acc-67890") :=
      stored (lib := reference.libraries) (elm_street_of "acc-67890") "loc-2"]> a_store.

(** ** Package handler as the file appsync.go has it *)

(** The file lambda/internal/handler/appsync.go holds an earlier state of
    the handler: five field names, getLocation answered with the location
    itself, deleteLocation answered with a [DeleteResponse]. *)
Module appsync_go.
Import models handler.

(** [type DeleteResponse struct] *)
Module DeleteResponse.
Record t := {
  Success : bool;     (* json:"success" *)
  Message : string    (* json:"message" *)
}.
End DeleteResponse.

(** The value [Handle] returns as [interface{}]. *)
Inductive response :=
| ofLocationResponse (locationID : string) (location : Location)
| ofLocation (location : Location)
| ofDeleteResponse (r : DeleteResponse.t)
| ofListLocationsResponse (locations : list Location) (nextCursor : option string).

Section Handler.
Context {lib : Libraries} {S : Type} {repo : Repository S}.

(** [func (h *AppSyncHandler) handleGetLocation(ctx, arguments)
    (models.Location, error)] *)
Definition handleGetLocation (arguments : string) (st : S) : result Location * S :=
  match JSON.Unmarshal decode_GetLocationArguments arguments
          GetLocationArguments.zero with
  | Err err => (Err (wrapError "failed to unmarshal arguments: " err), st)
  | Ok args =>
      match Get (GetLocationArguments.AccountID args)
                (GetLocationArguments.LocationID args) st with
      | (Err err, st') => (Err (wrapError "failed to get location: " err), st')
      | (Ok location, st') => (Ok location, st')
      end
  end.

(** [func (h *AppSyncHandler) handleDeleteLocation(ctx, arguments)
    ( *DeleteResponse, error)] *)
Definition handleDeleteLocation (arguments : string) (st : S)
  : result DeleteResponse.t * S :=
  match JSON.Unmarshal appsync.decode_DeleteLocationArguments arguments
          appsync.DeleteLocationArguments.zero with
  | Err err => (Err (wrapError "failed to unmarshal arguments: " err), st)
  | Ok args =>
      match Delete (appsync.DeleteLocationArguments.AccountID args)
                   (appsync.DeleteLocationArguments.LocationID args) st with
      | (Some err, st') =>
          (Ok {| DeleteResponse.Success := false;
                 DeleteResponse.Message :=
                   "Failed to delete location: " ++ message err |}, st')
      | (None, st') =>
          (Ok {| DeleteResponse.Success := true;
                 DeleteResponse.Message := "Location deleted successfully" |}, st')
      end
  end.

(** The three other handlers, which the properties below do not need. *)
Variable handleCreateLocation : string -> S -> result response * S.
Variable handleUpdateLocation : string -> S -> result response * S.
Variable handleListLocations : string -> S -> result response * S.

(** [func (h *AppSyncHandler) Handle(ctx, event) (interface{}, error)] *)
Definition Handle (event : AppSyncEvent.t) (st : S) : result response * S :=
  let field := AppSyncEvent.Field event in
  let arguments := AppSyncEvent.Arguments event in
  if String.eqb field "createLocation" then
    handleCreateLocation arguments st
  else if String.eqb field "getLocation" then
    match handleGetLocation arguments st with
    | (Ok location, st') => (Ok (ofLocation location), st')
    | (Err err, st') => (Err err, st')
    end
  else if String.eqb field "updateLocation" then
    handleUpdateLocation arguments st
  else if String.eqb field "deleteLocation" then
    match handleDeleteLocation arguments st with
    | (Ok r, st') => (Ok (ofDeleteResponse r), st')
    | (Err err, st') => (Err err, st')
    end
  else if String.eqb field "listLocations" then
    handleListLocations arguments st
  else (Err (fmtErrorS "unknown field: " field), st).

End Handler.
End appsync_go.

(** A handler of appsync.go that is not reached. *)
Definition unused_go {S : Type} (arguments : string) (st : S)
  : result appsync_go.response * S :=
  (Err (errorString "not reached"), st).

(** A repository whose [Delete] always fails with a given error. *)
Definition refusing (err : error) : handler.Repository unit :=
  {| handler.Create _ st := (Err err, st);
     handler.Get _ _ st := (Err err, st);
     handler.Update _ _ st := (Some err, st);
     handler.Delete _ _ st := (Some err, st);
     handler.List _ _ st := (Err err, st) |}.

(* ===================================================================== *)
(** * Part II: properties                                                 *)
(* ===================================================================== *)

Import models repository.

(** ** Comparison of float64 values *)

Section FloatOrder.

Lemma SFcompare_swap (a b : spec_float) :
  SFcompare b a = option_map CompOpp (SFcompare a b).
Proof.
  destruct a as [sa|sa| |sa ma ea], b as [sb|sb| |sb mb eb]; simpl;
    try reflexivity;
    try (destruct sa; reflexivity);
    try (destruct sb; reflexivity);
    try (destruct sa, sb; reflexivity).
  destruct sa, sb; simpl; try reflexivity;
    rewrite (Z.compare_antisym eb ea);
    destruct (eb ?= ea)%Z; simpl; try reflexivity;
    rewrite (Pos.compare_cont_antisym ma mb Eq); reflexivity.
Qed.

Lemma le_not_gt (x y : float) : F64.le x y = true -> F64.gt x y = false.
Proof.
  unfold F64.le, F64.gt. rewrite leb_spec, ltb_spec.
  unfold SFleb, SFltb. rewrite (SFcompare_swap (Prim2SF x) (Prim2SF y)).
  destruct (SFcompare (Prim2SF x) (Prim2SF y)) as [[]|]; simpl; congruence.
Qed.

Lemma le_not_lt (x y : float) : F64.le x y = true -> F64.lt y x = false.
Proof. apply le_not_gt. Qed.

End FloatOrder.

(** ** Validation of coordinates *)

Lemma prefix_app (p s : string) : String.prefix p (p ++ s) = true.
Proof.
  induction p as [|c p IH]; simpl.
  - now destruct s.
  - rewrite IH. now destruct (Ascii.ascii_dec c c).
Qed.

Lemma Coordinates_Validate_in_bounds (c : Coordinates.t) :
  coordinates_in_bounds c -> Coordinates.Validate c = None.
Proof.
  intros (Hlat1 & Hlat2 & Hlon1 & Hlon2 & Hacc).
  unfold Coordinates.Validate.
  rewrite (le_not_lt _ _ Hlat1), (le_not_gt _ _ Hlat2).
  rewrite (le_not_lt _ _ Hlon1), (le_not_gt _ _ Hlon2). simpl.
  destruct (Coordinates.Accuracy c) as [acc|]; [|reflexivity].
  now rewrite (le_not_lt _ _ Hacc).
Qed.

(** C9. Coordinates validation passes for every Coordinates value with
    latitude in [-90, 90], longitude in [-180, 180] and accuracy absent or
    non-negative, the endpoints included; setting the latitude of such a
    value to 91, its longitude to -181 or its accuracy to -1 makes
    [Validate] fail, each time with the message that names the violated
    bound. *)
Theorem C9_coordinates_validate `{lib : Libraries} (c : Coordinates.t) :
  coordinates_in_bounds c ->
  Coordinates.Validate c = None /\
  (Coordinates.Validate (with_Latitude (-90)%float c) = None /\
   Coordinates.Validate (with_Latitude 90%float c) = None /\
   Coordinates.Validate (with_Longitude (-180)%float c) = None /\
   Coordinates.Validate (with_Longitude 180%float c) = None /\
   Coordinates.Validate (with_Accuracy (Some 0%float) c) = None /\
   Coordinates.Validate (with_Accuracy None c) = None) /\
  (exists err,
     Coordinates.Validate (with_Latitude 91%float c) = Some err /\
     err = fmtErrorF "latitude must be between -90 and 90, got " 91%float /\
     String.prefix "latitude must be between -90 and 90" (message err) = true) /\
  (exists err,
     Coordinates.Validate (with_Longitude (-181)%float c) = Some err /\
     err = fmtErrorF "longitude must be between -180 and 180, got " (-181)%float /\
     String.prefix "longitude must be between -180 and 180" (message err) = true) /\
  (exists err,
     Coordinates.Validate (with_Accuracy (Some (-1)%float) c) = Some err /\
     err = fmtErrorF "accuracy must be non-negative, got " (-1)%float /\
     String.prefix "accuracy must be non-negative" (message err) = true).
Proof.
  intros Hc. split; [now apply Coordinates_Validate_in_bounds|].
  pose proof Hc as (Hlat1 & Hlat2 & Hlon1 & Hlon2 & Hacc).
  split.
  { repeat split; apply Coordinates_Validate_in_bounds;
      unfold coordinates_in_bounds; simpl; repeat split; auto. }
  split; [|split].
  - eexists; split; [|split; [reflexivity|]].
    + unfold Coordinates.Validate; simpl. reflexivity.
    + reflexivity.
  - eexists; split; [|split; [reflexivity|]].
    + unfold Coordinates.Validate; simpl.
      rewrite (le_not_lt _ _ Hlat1), (le_not_gt _ _ Hlat2). reflexivity.
    + reflexivity.
  - eexists; split; [|split; [reflexivity|]].
    + unfold Coordinates.Validate; simpl.
      rewrite (le_not_lt _ _ Hlat1), (le_not_gt _ _ Hlat2).
      rewrite (le_not_lt _ _ Hlon1), (le_not_gt _ _ Hlon2). reflexivity.
    + reflexivity.
Qed.

(** ** base64: decoding inverts encoding *)

Section Base64Facts.
Import base64.

Lemma decodeMap_encode_char (s : sextet) : decodeMap (encode_char s) = Some s.
Proof. destruct s as [[] [] [] [] [] []]; reflexivity. Qed.

Lemma bytes_of_split3 (a b c : ascii) :
  let '(s0, s1, s2, s3) := split3 a b c in
  byte0 s0 s1 = a /\ byte1 s1 s2 = b /\ byte2 s2 s3 = c.
Proof. destruct a, b, c; simpl; auto. Qed.

Lemma decode_sextet (c : ascii) (v : sextet) (rest : string) (si : nat)
    (dbuf : list sextet) :
  decodeMap c = Some v ->
  decode (String c rest) si dbuf =
    if (length (dbuf ++ [v]) =? 4)%nat
    then (let* tail := decode rest (S si) [] in Ok (quantum_bytes (dbuf ++ [v]) ++ tail))
    else decode rest (S si) (dbuf ++ [v]).
Proof. intros H. simpl. now rewrite H. Qed.

Lemma decode_padding (rest : string) (si : nat) (dbuf : list sextet) :
  decode (String padChar rest) si dbuf =
    match dbuf with
    | [] | [_] => Err (CorruptInputError si)
    | [_; _] =>
        let '(rest1, si1) := skip_newlines rest (S si) in
        match rest1 with
        | EmptyString => Err (CorruptInputError si1)
        | String c1 rest2 =>
            if negb (Ascii.eqb c1 padChar)
            then Err (CorruptInputError (si1 - 1))
            else after_padding dbuf rest2 (S si1)
        end
    | _ => after_padding dbuf rest (S si)
    end.
Proof. reflexivity. Qed.

(** Induction on a string three characters at a time. *)
Lemma string_ind3 (P : string -> Prop) :
  P EmptyString ->
  (forall a, P (String a EmptyString)) ->
  (forall a b, P (String a (String b EmptyString))) ->
  (forall a b c rest, P rest -> P (String a (String b (String c rest)))) ->
  forall s, P s.
Proof.
  intros H0 H1 H2 H3.
  assert (H : forall s, P s /\ (forall a, P (String a s))
                        /\ (forall a b, P (String a (String b s)))).
  { induction s as [|c s (IH0 & IH1 & IH2)]; repeat split; auto. }
  intros s. apply H.
Qed.

Lemma decode_EncodeToString (src : string) (si : nat) :
  decode (EncodeToString src) si [] = Ok src.
Proof.
  revert si. induction src as [|a|a b|a b c rest IH] using string_ind3; intros si.
  - reflexivity.
  - cbn [EncodeToString].
    pose proof (bytes_of_split3 a zero zero) as Hb.
    destruct (split3 a zero zero) as [[[s0 s1] s2] s3]. destruct Hb as (Ha & _ & _).
    rewrite (decode_sextet _ s0) by apply decodeMap_encode_char. cbn [app length Nat.eqb].
    rewrite (decode_sextet _ s1) by apply decodeMap_encode_char. cbn [app length Nat.eqb].
    rewrite decode_padding. cbn. now rewrite Ha.
  - cbn [EncodeToString].
    pose proof (bytes_of_split3 a b zero) as Hb.
    destruct (split3 a b zero) as [[[s0 s1] s2] s3]. destruct Hb as (Ha & Hb & _).
    rewrite (decode_sextet _ s0) by apply decodeMap_encode_char. cbn [app length Nat.eqb].
    rewrite (decode_sextet _ s1) by apply decodeMap_encode_char. cbn [app length Nat.eqb].
    rewrite (decode_sextet _ s2) by apply decodeMap_encode_char. cbn [app length Nat.eqb].
    rewrite decode_padding. cbn. now rewrite Ha, Hb.
  - cbn [EncodeToString].
    pose proof (bytes_of_split3 a b c) as Hb.
    destruct (split3 a b c) as [[[s0 s1] s2] s3]. destruct Hb as (Ha & Hb & Hc).
    rewrite (decode_sextet _ s0) by apply decodeMap_encode_char. cbn [app length Nat.eqb].
    rewrite (decode_sextet _ s1) by apply decodeMap_encode_char. cbn [app length Nat.eqb].
    rewrite (decode_sextet _ s2) by apply decodeMap_encode_char. cbn [app length Nat.eqb].
    rewrite (decode_sextet _ s3) by apply decodeMap_encode_char. cbn [app length Nat.eqb].
    rewrite IH. cbn. now rewrite Ha, Hb, Hc.
Qed.

Lemma DecodeString_EncodeToString (src : string) :
  DecodeString (EncodeToString src) = Ok src.
Proof. apply decode_EncodeToString. Qed.

Lemma EncodeToString_empty (src : string) :
  EncodeToString src = EmptyString -> src = EmptyString.
Proof.
  destruct src as [|a [|b [|c rest]]]; cbn [EncodeToString]; try reflexivity.
  - destruct (split3 a zero zero) as [[[s0 s1] s2] s3]. discriminate.
  - destruct (split3 a b zero) as [[[s0 s1] s2] s3]. discriminate.
  - destruct (split3 a b c) as [[[s0 s1] s2] s3]. discriminate.
Qed.

End Base64Facts.

(** ** The pagination cursor *)

Section CursorFacts.
Context {lib : Libraries}.

Lemma decode_encode_cursor (c : paginationCursor.t) :
  decode_cursor (encode_cursor c) paginationCursor.zero = Ok c.
Proof. destruct c. reflexivity. Qed.

Lemma encodeCursor_Some (c : paginationCursor.t) :
  encodeCursor (Some c)
  = Ok (Some (base64.EncodeToString (json_render (encode_cursor c)))).
Proof. reflexivity. Qed.

(** C7, amended. For every pagination cursor holding the three key
    components for which the JSON library writes a text that is not empty
    and reads that text back as the document it wrote, [encodeCursor]
    produces a string, and [decodeCursor] applied to that string returns an
    equal cursor; [encodeCursor] of a nil cursor is nil, and [decodeCursor]
    of a nil or empty string is nil without error. *)
Theorem C7_cursor_round_trip (c : paginationCursor.t) :
  json_round_trips (encode_cursor c) ->
  (exists s, encodeCursor (Some c) = Ok (Some s) /\
             decodeCursor (Some s) = Ok (Some c)) /\
  encodeCursor None = Ok None /\
  decodeCursor None = Ok None /\
  decodeCursor (Some EmptyString) = Ok None.
Proof.
  intros [Hne Hscan]. split; [|repeat split].
  exists (base64.EncodeToString (json_render (encode_cursor c))).
  split; [apply encodeCursor_Some|].
  unfold decodeCursor.
  destruct (String.eqb _ _) eqn:E.
  - apply String.eqb_eq, EncodeToString_empty in E. contradiction.
  - rewrite DecodeString_EncodeToString. unfold Unmarshal. rewrite Hscan.
    now rewrite decode_encode_cursor.
Qed.

End CursorFacts.

(** ** Decoding: errors, and the tag of the decoded variant *)

Section DecodeFacts.
Context {lib : Libraries}.

Lemma Unmarshal_Malformed {T} (store : json -> T -> result T) data dst msg offset :
  json_scan data = Malformed msg offset ->
  Unmarshal store data dst = Err (SyntaxError msg offset).
Proof. unfold Unmarshal. now intros ->. Qed.

Lemma Unmarshal_Document {T} (store : json -> T -> result T) data dst doc :
  json_scan data = Document doc -> Unmarshal store data dst = store doc dst.
Proof. unfold Unmarshal. now intros ->. Qed.

Lemma bind_Ok {A B} (r : result A) (k : A -> result B) (b : B) :
  bind r k = Ok b -> exists a, r = Ok a /\ k a = Ok b.
Proof. destruct r; simpl; [eauto|discriminate]. Qed.

Lemma bind_Err {A B} (r : result A) (k : A -> result B) (e : error) :
  bind r k = Err e -> r = Err e \/ exists a, r = Ok a /\ k a = Err e.
Proof. destruct r; simpl; [eauto|]. intros [= ->]. now left. Qed.

Lemma foldM_result_Err {A St} (P : error -> Prop) (f : A -> St -> result St) :
  (forall x s e, f x s = Err e -> P e) ->
  forall l s e, foldM_result f l s = Err e -> P e.
Proof.
  intros Hf. induction l as [|x l IH]; intros s e; simpl; [discriminate|].
  intros H. apply bind_Err in H as [H|(s' & _ & H)]; eauto.
Qed.

Lemma mapM_result_Err {A B} (P : error -> Prop) (f : A -> result B) (l : list A) :
  Forall (fun x => forall e, f x = Err e -> P e) l ->
  forall e, mapM_result f l = Err e -> P e.
Proof.
  induction 1 as [|x l Hx _ IH]; intros e; simpl; [discriminate|].
  intros H. apply bind_Err in H as [H|(y & _ & H)]; [eauto|].
  apply bind_Err in H as [H|(ys & _ & H)]; [eauto|discriminate].
Qed.

(** Induction on documents, through arrays and objects. *)
Lemma json_ind' (P : json -> Prop) :
  P JNull -> (forall b, P (JBool b)) -> (forall l, P (JNumber l)) ->
  (forall s, P (JString s)) ->
  (forall elems, Forall P elems -> P (JArray elems)) ->
  (forall members, Forall (fun kv => P kv.2) members -> P (JObject members)) ->
  forall j, P j.
Proof.
  intros Hnull Hbool Hnum Hstr Harr Hobj.
  fix IH 1. intros [| | | |elems|members].
  - exact Hnull.
  - apply Hbool.
  - apply Hnum.
  - apply Hstr.
  - apply Harr. induction elems as [|j elems IHl]; constructor; [apply IH|exact IHl].
  - apply Hobj. induction members as [|[k j] members IHl]; constructor;
      [apply IH|exact IHl].
Qed.

Lemma convertNumber_Err field literal e :
  convertNumber field literal = Err e -> is_type_error e.
Proof.
  unfold convertNumber. destruct (strconv_ParseFloat literal); [discriminate|].
  intros [= <-]. red; eauto.
Qed.

Lemma decode_string_Err gotype field j dst e :
  decode_string gotype field j dst = Err e -> is_type_error e.
Proof. destruct j; simpl; try discriminate; intros [= <-]; red; eauto. Qed.

Lemma decode_float64_Err field j dst e :
  decode_float64 field j dst = Err e -> is_type_error e.
Proof.
  destruct j; simpl; try discriminate; try (intros [= <-]; red; eauto).
  apply convertNumber_Err.
Qed.

Lemma decode_float64_ptr_Err field j dst e :
  decode_float64_ptr field j dst = Err e -> is_type_error e.
Proof.
  destruct j; simpl; try discriminate; try (intros [= <-]; red; eauto).
  intros H. apply bind_Err in H as [H|(f & _ & H)]; [|discriminate].
  now apply convertNumber_Err in H.
Qed.

(** The loop over the members of an object inside [decode_interface] is
    [decode_members]. *)
Lemma decode_interface_JObject field members :
  decode_interface field (JObject members)
  = (let* m := decode_members field members ∅ in Ok (GoMap m)).
Proof.
  cbn [decode_interface]. f_equal. unfold decode_members.
  generalize (∅ : gmap string goValue).
  induction members as [|[k v] members IH]; intros m; [reflexivity|].
  cbn [foldM_result fst snd]. destruct (decode_interface field v); simpl; [apply IH|reflexivity].
Qed.

Lemma decode_members_Err field members m e :
  Forall (fun kv => forall e, decode_interface field kv.2 = Err e -> is_type_error e) members ->
  decode_members field members m = Err e -> is_type_error e.
Proof.
  intros Hall. revert m. unfold decode_members.
  induction Hall as [|[k v] members Hv _ IH]; intros m; simpl; [discriminate|].
  intros H. apply bind_Err in H as [H|(m' & _ & H)]; [|eauto].
  apply bind_Err in H as [H|(x & _ & H)]; [eauto|discriminate].
Qed.

Lemma decode_interface_Err field j e :
  decode_interface field j = Err e -> is_type_error e.
Proof.
  revert e. induction j as [| | | |elems IH|members IH] using json_ind'; intros e;
    try (simpl; discriminate).
  - simpl. intros H. apply bind_Err in H as [H|(f & _ & H)]; [|discriminate].
    now apply convertNumber_Err in H.
  - cbn [decode_interface]. intros H.
    apply bind_Err in H as [H|(l & _ & H)]; [|discriminate].
    revert H. now apply mapM_result_Err.
  - rewrite decode_interface_JObject. intros H.
    apply bind_Err in H as [H|(m & _ & H)]; [|discriminate].
    revert H. now apply decode_members_Err.
Qed.

Lemma decode_map_Err field j dst e :
  decode_map field j dst = Err e -> is_type_error e.
Proof.
  destruct j; simpl; try discriminate; try (intros [= <-]; red; eauto).
  intros H. apply bind_Err in H as [H|(m & _ & H)]; [|discriminate].
  revert H. apply decode_members_Err.
  apply Forall_forall. intros kv _ e'. apply decode_interface_Err.
Qed.

Lemma decode_struct_Err {T} gotype field (setField : string -> json -> T -> result T)
    j dst e :
  (forall name v s e, setField name v s = Err e -> is_type_error e) ->
  decode_struct gotype field setField j dst = Err e -> is_type_error e.
Proof.
  intros Hset. destruct j; simpl; try discriminate; try (intros [= <-]; red; eauto).
  apply foldM_result_Err. intros kv s e'. apply Hset.
Qed.

End DecodeFacts.

Section VariantFacts.
Context {lib : Libraries}.

Ltac type_error :=
  intros;
  repeat match goal with
    | H : context [if ?b then _ else _] |- _ => destruct b
    | H : bind _ _ = Err _ |- _ => apply bind_Err in H as [H|(? & _ & H)]
    | H : Ok _ = Err _ |- _ => discriminate H
    end;
  eauto using decode_string_Err, decode_float64_Err, decode_float64_ptr_Err,
    decode_map_Err.

Lemma Address_setField_Err path name v a e :
  Address_setField path name v a = Err e -> is_type_error e.
Proof. destruct a. unfold Address_setField. type_error. Qed.

Lemma decode_Address_Err path j dst e :
  decode_Address path j dst = Err e -> is_type_error e.
Proof. apply decode_struct_Err. intros *. apply Address_setField_Err. Qed.

Lemma Coordinates_setField_Err path name v c e :
  Coordinates_setField path name v c = Err e -> is_type_error e.
Proof. destruct c. unfold Coordinates_setField. type_error. Qed.

Lemma decode_Coordinates_Err path j dst e :
  decode_Coordinates path j dst = Err e -> is_type_error e.
Proof. apply decode_struct_Err. intros *. apply Coordinates_setField_Err. Qed.

Lemma Shop_setField_Err path name v s e :
  Shop_setField path name v s = Err e -> is_type_error e.
Proof.
  destruct s. unfold Shop_setField. type_error. eauto using decode_Address_Err.
Qed.

Lemma decode_Shop_Err path j dst e :
  decode_Shop path j dst = Err e -> is_type_error e.
Proof. apply decode_struct_Err. intros *. apply Shop_setField_Err. Qed.

Lemma base_setField_Err struct name v b e :
  base_setField struct name v b = Some (Err e) -> is_type_error e.
Proof.
  unfold base_setField, store_string, store_with.
  repeat destruct (String.eqb name _); intros [= H]; type_error.
Qed.

Lemma decode_string_Ok_irrelevant g f g' f' v dst s :
  decode_string g f v dst = Ok s -> decode_string g' f' v dst = Ok s.
Proof. destruct v; simpl; congruence. Qed.

Lemma base_setField_tag struct name v b b' :
  base_setField struct name v b = Some (Ok b') ->
  discriminator_setField name v (LocationBase.LocationType b) = Ok (LocationBase.LocationType b').
Proof.
  unfold base_setField, discriminator_setField, store_string, store_with.
  destruct (String.eqb_spec name "ACCOUNTID") as [->|_].
  { intros [= H]. apply bind_Ok in H as (s & _ & [= <-]). reflexivity. }
  destruct (String.eqb name "LOCATIONTYPE").
  { intros [= H]. apply bind_Ok in H as (s & H & [= <-]). simpl.
    eauto using decode_string_Ok_irrelevant. }
  destruct (String.eqb name "EXTENDEDATTRIBUTES"); [|discriminate].
  intros [= H]. apply bind_Ok in H as (s & _ & [= <-]). reflexivity.
Qed.

Lemma base_setField_None struct name v b t :
  base_setField struct name v b = None -> discriminator_setField name v t = Ok t.
Proof.
  unfold base_setField, discriminator_setField.
  destruct (String.eqb name "ACCOUNTID"); [discriminate|].
  destruct (String.eqb name "LOCATIONTYPE"); [discriminate|reflexivity].
Qed.

Lemma AddressLocation_setField_Err name v l e :
  AddressLocation_setField name v l = Err e -> is_type_error e.
Proof.
  unfold AddressLocation_setField.
  destruct (base_setField _ name v _) as [[b|e']|] eqn:Hb.
  - discriminate.
  - intros [= <-]. eauto using base_setField_Err.
  - type_error. eauto using decode_Address_Err.
Qed.

Lemma AddressLocation_setField_tag name v l l' :
  AddressLocation_setField name v l = Ok l' ->
  discriminator_setField name v (LocationBase.LocationType (AddressLocation.Base l))
  = Ok (LocationBase.LocationType (AddressLocation.Base l')).
Proof.
  unfold AddressLocation_setField.
  destruct (base_setField _ name v _) as [[b|e']|] eqn:Hb; simpl.
  - intros [= <-]. eauto using base_setField_tag.
  - discriminate.
  - intros H. rewrite (base_setField_None _ _ _ _ _ Hb).
    destruct (String.eqb name "ADDRESS"); [|now injection H as <-].
    apply bind_Ok in H as (a & _ & [= <-]). reflexivity.
Qed.

Lemma CoordinatesLocation_setField_Err name v l e :
  CoordinatesLocation_setField name v l = Err e -> is_type_error e.
Proof.
  unfold CoordinatesLocation_setField.
  destruct (base_setField _ name v _) as [[b|e']|] eqn:Hb.
  - discriminate.
  - intros [= <-]. eauto using base_setField_Err.
  - type_error. eauto using decode_Coordinates_Err.
Qed.

Lemma CoordinatesLocation_setField_tag name v l l' :
  CoordinatesLocation_setField name v l = Ok l' ->
  discriminator_setField name v (LocationBase.LocationType (CoordinatesLocation.Base l))
  = Ok (LocationBase.LocationType (CoordinatesLocation.Base l')).
Proof.
  unfold CoordinatesLocation_setField.
  destruct (base_setField _ name v _) as [[b|e']|] eqn:Hb; simpl.
  - intros [= <-]. eauto using base_setField_tag.
  - discriminate.
  - intros H. rewrite (base_setField_None _ _ _ _ _ Hb).
    destruct (String.eqb name "COORDINATES"); [|now injection H as <-].
    apply bind_Ok in H as (a & _ & [= <-]). reflexivity.
Qed.

Lemma ShopLocation_setField_Err name v l e :
  ShopLocation_setField name v l = Err e -> is_type_error e.
Proof.
  unfold ShopLocation_setField.
  destruct (base_setField _ name v _) as [[b|e']|] eqn:Hb.
  - discriminate.
  - intros [= <-]. eauto using base_setField_Err.
  - type_error. eauto using decode_Shop_Err.
Qed.

Lemma ShopLocation_setField_tag name v l l' :
  ShopLocation_setField name v l = Ok l' ->
  discriminator_setField name v (LocationBase.LocationType (ShopLocation.Base l))
  = Ok (LocationBase.LocationType (ShopLocation.Base l')).
Proof.
  unfold ShopLocation_setField.
  destruct (base_setField _ name v _) as [[b|e']|] eqn:Hb; simpl.
  - intros [= <-]. eauto using base_setField_tag.
  - discriminate.
  - intros H. rewrite (base_setField_None _ _ _ _ _ Hb).
    destruct (String.eqb name "SHOP"); [|now injection H as <-].
    apply bind_Ok in H as (a & _ & [= <-]). reflexivity.
Qed.

(** A decoder that moves the tag as [discriminator_setField] does ends, on the zero
    value, with the tag the discriminator decoder finds. *)
Lemma decode_struct_tag {T} (tag : T -> LocationType) gotype field
    (setField : string -> json -> T -> result T) doc dst dst' t :
  (forall name v s s', setField name v s = Ok s' ->
                       discriminator_setField name v (tag s) = Ok (tag s')) ->
  decode_struct gotype field setField doc dst = Ok dst' ->
  decode_discriminator doc (tag dst) = Ok t ->
  tag dst' = t.
Proof.
  intros Hstep. unfold decode_discriminator.
  destruct doc as [| | | |elems|members]; simpl; try discriminate; try congruence.
  revert dst. induction members as [|[k v] members IH]; intros dst; simpl.
  - congruence.
  - intros H Ht. apply bind_Ok in H as (s & Hs & H).
    apply Hstep in Hs. rewrite Hs in Ht. simpl in Ht. eauto.
Qed.

Lemma decode_discriminator_Err doc t e :
  decode_discriminator doc t = Err e -> is_type_error e.
Proof.
  apply decode_struct_Err. intros name v s e'. unfold discriminator_setField.
  destruct (String.eqb name "LOCATIONTYPE"); [apply decode_string_Err|discriminate].
Qed.

Lemma decode_variant_Err t doc e :
  decode_variant t doc = Err e -> is_type_error e.
Proof.
  unfold decode_variant.
  repeat destruct (String.eqb t _); intros H;
    apply bind_Err in H as [H|(? & _ & H)]; try discriminate; revert H;
    apply decode_struct_Err; intros *.
  - apply AddressLocation_setField_Err.
  - apply CoordinatesLocation_setField_Err.
  - apply ShopLocation_setField_Err.
Qed.

Lemma decode_variant_tag t doc location :
  known_tag t ->
  decode_discriminator doc EmptyString = Ok t ->
  decode_variant t doc = Ok location ->
  variant_tag location = t /\ GetLocationType location = t.
Proof.
  intros Hk Ht. unfold decode_variant.
  destruct (String.eqb_spec t LocationTypeAddress) as [->|Ha].
  { intros H. apply bind_Ok in H as (l & H & [= <-]). split; [reflexivity|].
    eapply (decode_struct_tag (fun l => LocationBase.LocationType (AddressLocation.Base l)));
      eauto using AddressLocation_setField_tag. }
  destruct (String.eqb_spec t LocationTypeCoordinates) as [->|Hc].
  { intros H. apply bind_Ok in H as (l & H & [= <-]). split; [reflexivity|].
    eapply (decode_struct_tag
              (fun l => LocationBase.LocationType (CoordinatesLocation.Base l)));
      eauto using CoordinatesLocation_setField_tag. }
  destruct Hk as [->|[->| ->]]; try congruence.
  intros H. apply bind_Ok in H as (l & H & [= <-]). split; [reflexivity|].
  eapply (decode_struct_tag (fun l => LocationBase.LocationType (ShopLocation.Base l)));
    eauto using ShopLocation_setField_tag.
Qed.

(** [UnmarshalLocation] on a payload that is a document. *)
Lemma UnmarshalLocation_Document data doc :
  json_scan data = Document doc ->
  UnmarshalLocation data =
    match decode_discriminator doc EmptyString with
    | Err e => Err (wrapError "failed to unmarshal location type: " e)
    | Ok t =>
        if String.eqb t LocationTypeAddress || String.eqb t LocationTypeCoordinates
           || String.eqb t LocationTypeShop
        then
          match decode_variant t doc with
          | Err e => Err (wrapError ("failed to unmarshal " ++ t ++ " location: ") e)
          | Ok location => Ok location
          end
        else Err (fmtErrorS "unknown location type: " t)
    end.
Proof.
  intros Hscan. unfold UnmarshalLocation, decode_variant.
  rewrite !(Unmarshal_Document _ _ _ _ Hscan).
  destruct (decode_discriminator doc EmptyString) as [t|e]; [|reflexivity].
  destruct (String.eqb_spec t LocationTypeAddress) as [->|Ha]; simpl.
  { now destruct (decode_AddressLocation doc AddressLocation.zero). }
  destruct (String.eqb_spec t LocationTypeCoordinates) as [->|Hc]; simpl.
  { now destruct (decode_CoordinatesLocation doc CoordinatesLocation.zero). }
  destruct (String.eqb_spec t LocationTypeShop) as [->|Hs]; simpl.
  { now destruct (decode_ShopLocation doc ShopLocation.zero). }
  reflexivity.
Qed.

Lemma known_tag_eqb t :
  known_tag t <->
  String.eqb t LocationTypeAddress || String.eqb t LocationTypeCoordinates
  || String.eqb t LocationTypeShop = true.
Proof.
  unfold known_tag. rewrite !orb_true_iff, !String.eqb_eq. tauto.
Qed.

(** C5, amended. For every input byte string: when the JSON is malformed,
    [UnmarshalLocation] returns an error that wraps the parse error; when a
    member has a JSON type its field cannot hold, it returns an error that
    wraps the type error of the decoder; when the discriminator is none of
    address, coordinates and shop, it returns the "unknown location type"
    error; and otherwise it decodes the payload into exactly the concrete
    variant the discriminator names, whose locationType field is that
    discriminator. *)
Theorem C5_UnmarshalLocation_cases (data : string) :
  match json_scan data with
  | Malformed msg offset =>
      UnmarshalLocation data
      = Err (wrapError "failed to unmarshal location type: " (SyntaxError msg offset))
  | Document doc =>
      match decode_discriminator doc EmptyString with
      | Err e =>
          is_type_error e /\
          UnmarshalLocation data
          = Err (wrapError "failed to unmarshal location type: " e)
      | Ok t =>
          (~ known_tag t ->
             UnmarshalLocation data = Err (fmtErrorS "unknown location type: " t)) /\
          (known_tag t ->
             match decode_variant t doc with
             | Err e =>
                 is_type_error e /\
                 UnmarshalLocation data
                 = Err (wrapError ("failed to unmarshal " ++ t ++ " location: ") e)
             | Ok location =>
                 UnmarshalLocation data = Ok location /\
                 variant_tag location = t /\
                 GetLocationType location = t
             end)
      end
  end.
Proof.
  destruct (json_scan data) as [msg offset|doc] eqn:Hscan.
  { unfold UnmarshalLocation. now rewrite (Unmarshal_Malformed _ _ _ _ _ Hscan). }
  rewrite (UnmarshalLocation_Document _ _ Hscan).
  destruct (decode_discriminator doc EmptyString) as [t|e] eqn:Ht.
  2: { split; [eauto using decode_discriminator_Err|reflexivity]. }
  split; intros Hk.
  - apply (not_iff_compat (known_tag_eqb t)) in Hk.
    now apply not_true_is_false in Hk as ->.
  - pose proof Hk as Hk'. apply known_tag_eqb in Hk' as ->.
    destruct (decode_variant t doc) as [location|e] eqn:Hv.
    + split; [reflexivity|]. eauto using decode_variant_tag.
    + split; [eauto using decode_variant_Err|reflexivity].
Qed.

End VariantFacts.

(** ** Absent coordinates *)

Section AbsentCoordinates.
Context {lib : Libraries}.

(** C10. A coordinates payload whose coordinates object omits latitude
    and longitude, or that has no coordinates block at all, is decoded
    without error into the location whose latitude and longitude are 0,
    and that location passes validation; a payload that gives the point
    (0, 0) explicitly is decoded into the same location, so the decoded
    value does not tell an absent latitude and longitude from the point
    (0, 0). *)
Theorem C10_absent_coordinates_default_to_zero (accountID data : string) :
  accountID <> EmptyString ->
  json_scan data = Document (payload_without_block accountID) \/
  json_scan data = Document (payload_with_empty_block accountID) ->
  UnmarshalLocation data = Ok (location_at_origin accountID) /\
  Validate (location_at_origin accountID) = None /\
  (forall l, location_at_origin accountID = ofCoordinatesLocation l ->
             Coordinates.Latitude (CoordinatesLocation.Coordinates l) = 0%float /\
             Coordinates.Longitude (CoordinatesLocation.Coordinates l) = 0%float) /\
  (forall data',
     json_scan data' = Document (payload_at_origin accountID) ->
     strconv_ParseFloat "0" = Some 0%float ->
     UnmarshalLocation data' = Ok (location_at_origin accountID)).
Proof.
  intros Hacc Hscan. repeat split.
  - destruct Hscan as [Hscan|Hscan];
      rewrite (UnmarshalLocation_Document _ _ Hscan); reflexivity.
  - simpl. unfold CoordinatesLocation.Validate; simpl.
    apply String.eqb_neq in Hacc. now rewrite Hacc.
  - injection H as <-. reflexivity.
  - injection H as <-. reflexivity.
  - intros data' Hscan' Hzero.
    rewrite (UnmarshalLocation_Document _ _ Hscan').
    assert (Hd : decode_discriminator (payload_at_origin accountID) EmptyString
                 = Ok LocationTypeCoordinates) by reflexivity.
    rewrite Hd. lazy -[strconv_ParseFloat]. rewrite Hzero. reflexivity.
Qed.

End AbsentCoordinates.

(** ** The repository over any client *)

Section RepositoryFacts.
Context {lib : Libraries} {unmarshaler : Unmarshaler} {S : Type}.
Variable r : DynamoDBRepository S.

Ltac other_message :=
  let e := fresh "e" in
  let Hm := fresh "Hm" in
  intros (e & [= <-] & Hm); cbn in Hm; discriminate Hm.

Lemma MarshalMap_Ok record : exists av, MarshalMap record = Ok av.
Proof. unfold MarshalMap. eauto. Qed.

Lemma toLocationRecord_keys location locationID record :
  toLocationRecord location locationID = Ok record ->
  locationRecord.PK record = locationID /\
  locationRecord.SK record = GetAccountID location /\
  locationRecord.AccountID record = GetAccountID location /\
  locationRecord.LocationType record = GetLocationType location.
Proof. destruct location; simpl; intros [= <-]; auto. Qed.

Lemma toLocationRecord_Shop l locationID :
  toLocationRecord (ofShopLocation l) locationID
  = Err (errorString "unknown location type").
Proof. reflexivity. Qed.

(** [Update] answers "location not found or access denied" exactly when
    its conditional put fails with a conditional-check failure. *)
Lemma Update_not_found_iff location locationID st :
  (exists e, (Update r location locationID st).1 = Some e /\
             message e = "location not found or access denied") <->
  (exists record av err,
     Validate location = None /\
     toLocationRecord location locationID = Ok record /\
     MarshalMap record = Ok av /\
     (PutItem (DynamoDBClient := client r)
        (update_input r av (GetAccountID location)) st).1 = Err err /\
     errors_As_ccf err = true).
Proof.
  unfold Update.
  destruct (Validate location) as [verr|] eqn:Hv.
  { split; [other_message|]. intros (? & ? & ? & [=] & _). }
  destruct (toLocationRecord location locationID) as [record|cerr] eqn:Hr.
  2: { split; [other_message|]. intros (? & ? & ? & _ & [=] & _). }
  destruct (MarshalMap record) as [av|merr] eqn:Hm.
  2: { split; [other_message|]. intros (? & ? & ? & _ & [= <-] & H & _). congruence. }
  destruct (PutItem _ st) as [[[]|err] st'] eqn:Hp.
  { split; [intros (e & [=] & _)|].
    intros (? & ? & ? & _ & [= <-] & Hm' & Hp' & _).
    rewrite Hm in Hm'. injection Hm' as <-. rewrite Hp in Hp'. discriminate. }
  destruct (errors_As_ccf err) eqn:Hccf.
  - split; [|intros _; eexists; split; reflexivity].
    intros _. exists record, av, err. rewrite Hp. auto.
  - split; [other_message|].
    intros (? & ? & ? & _ & [= <-] & Hm' & Hp' & Hccf').
    rewrite Hm in Hm'. injection Hm' as <-. rewrite Hp in Hp'.
    injection Hp' as <-. congruence.
Qed.

(** [Delete] answers "location not found or access denied" exactly when
    its conditional delete fails with a conditional-check failure. *)
Lemma Delete_not_found_iff accountID locationID st :
  (exists e, (Delete r accountID locationID st).1 = Some e /\
             message e = "location not found or access denied") <->
  (exists err,
     (DeleteItem (DynamoDBClient := client r)
        (delete_input r accountID locationID) st).1 = Err err /\
     errors_As_ccf err = true).
Proof.
  unfold Delete.
  destruct (DeleteItem _ st) as [[[]|err] st'] eqn:Hd.
  { split; [intros (e & [=] & _)|intros (? & [=] & _)]. }
  destruct (errors_As_ccf err) eqn:Hccf.
  - split; [|intros _; eexists; split; reflexivity]. intros _. eauto.
  - split; [other_message|]. intros (? & [= <-] & ?). congruence.
Qed.

End RepositoryFacts.

(** ** The repository over the store *)

Section StoreFacts.
Context {lib : Libraries} {unmarshaler : Unmarshaler}.
Import memstore.

Lemma primary_key_lookup (it : item) pk sk :
  primary_key it = Some (pk, sk) ->
  it !! "PK" = Some (AttributeValueMemberS pk) /\
  it !! "SK" = Some (AttributeValueMemberS sk).
Proof.
  unfold primary_key.
  destruct (it !! "PK") as [[]|]; try discriminate.
  destruct (it !! "SK") as [[]|]; try discriminate.
  now intros [= -> ->].
Qed.

Lemma primary_key_record_key accountID locationID :
  primary_key (record_key accountID locationID) = Some (locationID, accountID).
Proof. reflexivity. Qed.

Lemma MarshalMap_keys record av :
  MarshalMap record = Ok av ->
  primary_key av = Some (locationRecord.PK record, locationRecord.SK record) /\
  av !! "accountId" = Some (AttributeValueMemberS (locationRecord.AccountID record)).
Proof.
  unfold MarshalMap, primary_key, put_string. intros [= <-].
  rewrite lookup_insert_eq.
  rewrite lookup_insert_ne by done. rewrite lookup_insert_eq.
  split; [reflexivity|].
  do 2 (rewrite lookup_insert_ne by done). now rewrite lookup_insert_eq.
Qed.

Lemma well_formed_lookup (tbl : table) k it :
  well_formed tbl -> tbl !! k = Some it -> primary_key it = Some k.
Proof. intros Hwf. apply Hwf. Qed.

Lemma well_formed_empty : well_formed ∅.
Proof. apply map_Forall_empty. Qed.

Lemma well_formed_insert (tbl : table) k it :
  well_formed tbl -> primary_key it = Some k -> well_formed (<[k := it]> tbl).
Proof. intros Hwf Hk. now apply map_Forall_insert_2. Qed.

Lemma well_formed_delete (tbl : table) k :
  well_formed tbl -> well_formed (delete k tbl).
Proof. apply map_Forall_delete. Qed.

(** The condition of [Update] and [Delete] on a well-formed table. *)
Lemma exists_and_owned (tbl : table) accountID locationID :
  well_formed tbl ->
  eval_condition
    (Some "attribute_exists(PK) AND attribute_exists(SK) AND accountId = :accountId")
    (Some (<[":accountId" := AttributeValueMemberS accountID]> ∅))
    (tbl !! (locationID, accountID))
  = Ok (match tbl !! (locationID, accountID) with
        | Some it =>
            match it !! "accountId" with
            | Some (AttributeValueMemberS a) => String.eqb a accountID
            | _ => false
            end
        | None => false
        end).
Proof.
  intros Hwf. cbn [eval_condition].
  change (String.eqb _ "attribute_not_exists(PK) AND attribute_not_exists(SK)")
    with false.
  change (String.eqb
            "attribute_exists(PK) AND attribute_exists(SK) AND accountId = :accountId"
            "attribute_exists(PK) AND attribute_exists(SK) AND accountId = :accountId")
    with true.
  cbn iota.
  destruct (tbl !! (locationID, accountID)) as [it|] eqn:Hit; [|reflexivity].
  apply (well_formed_lookup _ _ _ Hwf) in Hit as [Hpk Hsk]%primary_key_lookup.
  unfold attribute_exists, attribute_equals. rewrite Hpk, Hsk, lookup_insert_eq.
  simpl. now destruct (it !! "accountId") as [[]|].
Qed.

(** The condition of [Create] on a well-formed table. *)
Lemma not_exists (tbl : table) (k : string * string) :
  well_formed tbl ->
  eval_condition (Some "attribute_not_exists(PK) AND attribute_not_exists(SK)")
    None (tbl !! k)
  = Ok (match tbl !! k with
        | Some _ => false
        | None => true
        end).
Proof.
  intros Hwf. cbn [eval_condition].
  change (String.eqb "attribute_not_exists(PK) AND attribute_not_exists(SK)"
            "attribute_not_exists(PK) AND attribute_not_exists(SK)") with true.
  cbn iota.
  destruct (tbl !! k) as [it|] eqn:Hit; [|reflexivity]. destruct k as [pk sk].
  apply (well_formed_lookup _ _ _ Hwf) in Hit as [Hpk Hsk]%primary_key_lookup.
  unfold attribute_exists. now rewrite Hpk.
Qed.

Lemma owned_false_iff (tbl : table) accountID locationID :
  match tbl !! (locationID, accountID) with
  | Some it =>
      match it !! "accountId" with
      | Some (AttributeValueMemberS a) => String.eqb a accountID
      | _ => false
      end
  | None => false
  end = false <-> absent_or_foreign tbl accountID locationID.
Proof.
  unfold absent_or_foreign.
  destruct (tbl !! (locationID, accountID)) as [it|]; [|tauto].
  destruct (it !! "accountId") as [[a| | | | | |]|]; try (split; [congruence|reflexivity]).
  destruct (String.eqb_spec a accountID) as [->|Hne].
  - split; [discriminate|congruence].
  - split; [congruence|reflexivity].
Qed.

(** The conditional put of [Update] on the store. *)
Lemma mem_PutItem_update {S} (r : DynamoDBRepository S) (tbl : table) av accountID
    locationID :
  well_formed tbl ->
  primary_key av = Some (locationID, accountID) ->
  (absent_or_foreign tbl accountID locationID ->
   mem_PutItem (update_input r av accountID) tbl
   = (Err (conditionalCheckFailed "PutItem"), tbl)) /\
  (~ absent_or_foreign tbl accountID locationID ->
   mem_PutItem (update_input r av accountID) tbl
   = (Ok tt, <[(locationID, accountID) := av]> tbl)).
Proof.
  intros Hwf Hk. unfold mem_PutItem, update_input. cbn [PutItemInput.Item
    PutItemInput.ConditionExpression PutItemInput.ExpressionAttributeValues].
  rewrite Hk, (exists_and_owned _ _ _ Hwf).
  split; intros H.
  - apply owned_false_iff in H. now rewrite H.
  - rewrite <- owned_false_iff in H. apply not_false_is_true in H. now rewrite H.
Qed.

(** The conditional delete of [Delete] on the store. *)
Lemma mem_DeleteItem_delete {S} (r : DynamoDBRepository S) (tbl : table) accountID
    locationID :
  well_formed tbl ->
  (absent_or_foreign tbl accountID locationID ->
   mem_DeleteItem (delete_input r accountID locationID) tbl
   = (Err (conditionalCheckFailed "DeleteItem"), tbl)) /\
  (~ absent_or_foreign tbl accountID locationID ->
   mem_DeleteItem (delete_input r accountID locationID) tbl
   = (Ok tt, delete (locationID, accountID) tbl)).
Proof.
  intros Hwf. unfold mem_DeleteItem, delete_input. cbn [DeleteItemInput.Key
    DeleteItemInput.ConditionExpression DeleteItemInput.ExpressionAttributeValues].
  rewrite primary_key_record_key, (exists_and_owned _ _ _ Hwf).
  split; intros H.
  - apply owned_false_iff in H. now rewrite H.
  - rewrite <- owned_false_iff in H. apply not_false_is_true in H. now rewrite H.
Qed.

End StoreFacts.

(** ** Create, Update and Delete *)

Section Writes.
Context {lib : Libraries} {unmarshaler : Unmarshaler}.
Import memstore.

Lemma absent_or_foreign_dec (tbl : table) accountID locationID :
  absent_or_foreign tbl accountID locationID \/
  ~ absent_or_foreign tbl accountID locationID.
Proof.
  rewrite <- owned_false_iff.
  match goal with |- ?b = false \/ _ => destruct b end; [right|left]; congruence.
Qed.

(** [Create] of any valid shop location stops at the conversion to a
    record: nothing reaches the store. *)
Lemma Create_ShopLocation {S} (r : DynamoDBRepository S) uuid l st :
  Validate (ofShopLocation l) = None ->
  Create r uuid (ofShopLocation l) st
  = (Err (wrapError "failed to convert location to record: "
            (errorString "unknown location type")), st).
Proof. intros Hv. unfold Create. now rewrite Hv. Qed.

(** [Create] of a valid address or coordinates location on the store:
    the record is written under the fresh identifier, which is returned,
    unless a record is already there. *)
Lemma Create_on_store (r : DynamoDBRepository table) (uuid : string)
    (location : Location) (tbl : table) :
  client r = mem_client ->
  well_formed tbl ->
  Validate location = None ->
  (forall l, location <> ofShopLocation l) ->
  exists record av,
    toLocationRecord location uuid = Ok record /\
    MarshalMap record = Ok av /\
    primary_key av = Some (uuid, GetAccountID location) /\
    (tbl !! (uuid, GetAccountID location) = None ->
     Create r uuid location tbl = (Ok uuid, <[(uuid, GetAccountID location) := av]> tbl)) /\
    (tbl !! (uuid, GetAccountID location) <> None ->
     Create r uuid location tbl = (Err (errorString "location already exists"), tbl)).
Proof.
  intros Hc Hwf Hv Hshop.
  assert (exists record, toLocationRecord location uuid = Ok record) as [record Hr].
  { destruct location; simpl; eauto. now destruct (Hshop l). }
  destruct (MarshalMap_Ok record) as [av Hm].
  pose proof (toLocationRecord_keys _ _ _ Hr) as (Hpk & Hsk & _).
  pose proof (MarshalMap_keys _ _ Hm) as [Hk _]. rewrite Hpk, Hsk in Hk.
  exists record, av. repeat split; auto.
  - intros Hnone. unfold Create. rewrite Hv, Hr, Hm, Hc. cbn [PutItem mem_client].
    unfold mem_PutItem, create_input; cbn [PutItemInput.Item
      PutItemInput.ConditionExpression PutItemInput.ExpressionAttributeValues].
    rewrite Hk, (not_exists _ _ Hwf), Hnone. reflexivity.
  - intros Hsome. unfold Create. rewrite Hv, Hr, Hm, Hc. cbn [PutItem mem_client].
    unfold mem_PutItem, create_input; cbn [PutItemInput.Item
      PutItemInput.ConditionExpression PutItemInput.ExpressionAttributeValues].
    rewrite Hk, (not_exists _ _ Hwf).
    destruct (tbl !! (uuid, GetAccountID location)); [reflexivity|congruence].
Qed.

(** C1, as the code behaves. The shop location of the model tests is
    valid, and [Create] refuses it with the conversion error "unknown
    location type" whatever the client, the store and the fresh
    identifier: no record is written and no identifier is returned. *)
Theorem C1_Create_refuses_valid_ShopLocation {S} (r : DynamoDBRepository S)
    (uuid : string) (st : S) :
  Validate coffee_shop = None /\
  Create r uuid coffee_shop st
  = (Err (wrapError "failed to convert location to record: "
            (errorString "unknown location type")), st) /\
  message (wrapError "failed to convert location to record: "
             (errorString "unknown location type"))
  = "failed to convert location to record: unknown location type".
Proof. split; [reflexivity|]. split; reflexivity. Qed.

(** C2. For [Update] and [Delete], a conditional-check failure of the
    store is returned as the one error "location not found or access
    denied", and nothing else is: the result carries that message exactly
    when the store call failed with a conditional-check failure.  On the
    store, holding well-formed records, that failure occurs exactly when no
    record exists under the (locationId, accountId) key or the stored
    accountId attribute differs from the caller's account identifier, so
    both cases give the same message. *)
Theorem C2_not_found_or_access_denied :
  (forall S (r : DynamoDBRepository S) location locationID st,
     (exists e, (Update r location locationID st).1 = Some e /\
                message e = "location not found or access denied") <->
     (exists record av err,
        Validate location = None /\
        toLocationRecord location locationID = Ok record /\
        MarshalMap record = Ok av /\
        (PutItem (DynamoDBClient := client r)
           (update_input r av (GetAccountID location)) st).1 = Err err /\
        errors_As_ccf err = true)) /\
  (forall S (r : DynamoDBRepository S) accountID locationID st,
     (exists e, (Delete r accountID locationID st).1 = Some e /\
                message e = "location not found or access denied") <->
     (exists err,
        (DeleteItem (DynamoDBClient := client r)
           (delete_input r accountID locationID) st).1 = Err err /\
        errors_As_ccf err = true)) /\
  (forall (r : DynamoDBRepository table) (tbl : table) (location : Location)
          (locationID : string) (record : locationRecord.t),
     client r = mem_client ->
     well_formed tbl ->
     Validate location = None ->
     toLocationRecord location locationID = Ok record ->
     ((Update r location locationID tbl).1
      = Some (errorString "location not found or access denied")
      <-> absent_or_foreign tbl (GetAccountID location) locationID) /\
     ((Update r location locationID tbl).1 = None
      <-> ~ absent_or_foreign tbl (GetAccountID location) locationID)) /\
  (forall (r : DynamoDBRepository table) (tbl : table) (accountID locationID : string),
     client r = mem_client ->
     well_formed tbl ->
     ((Delete r accountID locationID tbl).1
      = Some (errorString "location not found or access denied")
      <-> absent_or_foreign tbl accountID locationID) /\
     ((Delete r accountID locationID tbl).1 = None
      <-> ~ absent_or_foreign tbl accountID locationID)).
Proof.
  split; [intros; apply Update_not_found_iff|].
  split; [intros; apply Delete_not_found_iff|].
  split.
  - intros r tbl location locationID record Hc Hwf Hv Hr.
    destruct (MarshalMap_Ok record) as [av Hm].
    pose proof (toLocationRecord_keys _ _ _ Hr) as (Hpk & Hsk & _).
    pose proof (MarshalMap_keys _ _ Hm) as [Hk _]. rewrite Hpk, Hsk in Hk.
    destruct (mem_PutItem_update r tbl av _ _ Hwf Hk) as [Hfail Hok].
    unfold Update. rewrite Hv, Hr, Hm, Hc. cbn [PutItem mem_client].
    destruct (absent_or_foreign_dec tbl (GetAccountID location) locationID) as [H|H].
    + rewrite (Hfail H). simpl. split; split; auto; try discriminate. tauto.
    + rewrite (Hok H). simpl. split; split; auto; try discriminate. tauto.
  - intros r tbl accountID locationID Hc Hwf.
    destruct (mem_DeleteItem_delete r tbl accountID locationID Hwf) as [Hfail Hok].
    unfold Delete. rewrite Hc. cbn [DeleteItem mem_client].
    destruct (absent_or_foreign_dec tbl accountID locationID) as [H|H].
    + rewrite (Hfail H). simpl. split; split; auto; try discriminate. tauto.
    + rewrite (Hok H). simpl. split; split; auto; try discriminate. tauto.
Qed.

End Writes.

(** ** Get *)

Section Reads.
Context {lib : Libraries} {unmarshaler : Unmarshaler}.
Import memstore.

Lemma toLocation_shape_block record :
  toLocation record =
    match shape_block record with
    | Some block => Ok (reconstruct record block)
    | None => Err (missing_block_error record)
    end.
Proof.
  unfold toLocation, shape_block, missing_block_error.
  destruct (String.eqb _ LocationTypeAddress).
  { now destruct (locationRecord.Address record). }
  destruct (String.eqb _ LocationTypeCoordinates).
  { now destruct (locationRecord.Coordinates record). }
  reflexivity.
Qed.

Lemma missing_block_message record :
  message (missing_block_error record) <> "location not found".
Proof.
  unfold missing_block_error.
  repeat destruct (String.eqb _ _); cbn; discriminate.
Qed.

(** C6. [Get] sends one GetItem request, whose key is
    {PK: locationId, SK: accountId}, and returns the "location not found"
    error exactly when the store returns no item for that request.  When
    an item is returned and read as a record, [Get] fails with an error if
    the record holds no shape block for its stored locationType (a
    locationType address with a nil address block, for one), and otherwise
    returns the Location reconstructed from the record.  On the store,
    whose records are kept under the pair (PK, SK), "location not found" is
    returned exactly when the table has nothing under
    (locationId, accountId), and the item kept there is the one read. *)
Theorem C6_Get_not_found_and_shape_guard {S} (r : DynamoDBRepository S)
    (accountID locationID : string) (st : S) :
  ((exists e, (Get r accountID locationID st).1 = Err e /\
              message e = "location not found") <->
   (exists out,
      (GetItem (DynamoDBClient := client r)
         {| GetItemInput.TableName := tableName r;
            GetItemInput.Key :=
              <["PK" := AttributeValueMemberS locationID]>
                (<["SK" := AttributeValueMemberS accountID]> ∅) |} st).1
      = Ok out /\ GetItemOutput.Item out = None)) /\
  (forall out st' it record,
     GetItem (DynamoDBClient := client r)
       {| GetItemInput.TableName := tableName r;
          GetItemInput.Key :=
            <["PK" := AttributeValueMemberS locationID]>
              (<["SK" := AttributeValueMemberS accountID]> ∅) |} st
     = (Ok out, st') ->
     GetItemOutput.Item out = Some it ->
     attributevalue_UnmarshalMap it = Ok record ->
     match shape_block record with
     | None => Get r accountID locationID st = (Err (missing_block_error record), st')
     | Some block => Get r accountID locationID st = (Ok (reconstruct record block), st')
     end) /\
  (forall record,
     locationRecord.LocationType record = LocationTypeAddress ->
     locationRecord.Address record = None ->
     shape_block record = None /\
     missing_block_error record = errorString "address is nil for address location type") /\
  (forall (table_name gsi : string) (tbl : table),
     ((exists e,
         (Get (NewDynamoDBRepository mem_client table_name gsi)
            accountID locationID tbl).1 = Err e /\
         message e = "location not found") <->
      tbl !! (locationID, accountID) = None) /\
     (forall it record,
        tbl !! (locationID, accountID) = Some it ->
        attributevalue_UnmarshalMap it = Ok record ->
        Get (NewDynamoDBRepository mem_client table_name gsi) accountID locationID tbl
        = (match shape_block record with
           | None => Err (missing_block_error record)
           | Some block => Ok (reconstruct record block)
           end, tbl))).
Proof.
  change {| GetItemInput.TableName := tableName r;
            GetItemInput.Key :=
              <["PK" := AttributeValueMemberS locationID]>
                (<["SK" := AttributeValueMemberS accountID]> ∅) |}
    with (get_input r accountID locationID).
  split; [|split; [|split]].
  - unfold Get.
    destruct (GetItem _ st) as [[[[it|]]|err] st'] eqn:Hg;
      cbn [fst GetItemOutput.Item].
    + split; [|intros (out & [= <-] & [=])].
      destruct (attributevalue_UnmarshalMap it) as [record|uerr]; cbn [fst].
      * rewrite toLocation_shape_block.
        destruct (shape_block record); intros (e & [= <-] & Hm).
        now apply missing_block_message in Hm.
      * intros (e & [= <-] & Hm). cbn in Hm. discriminate.
    + split; [eauto|]. intros _. eexists; split; reflexivity.
    + split; [|intros (out & [=] & _)].
      intros (e & [= <-] & Hm). cbn in Hm. discriminate.
  - intros out st' it record Hg Hit Hrec. unfold Get. rewrite Hg, Hit, Hrec.
    rewrite toLocation_shape_block. now destruct (shape_block record).
  - intros record Ht Ha. unfold shape_block, missing_block_error.
    rewrite Ht, Ha. split; reflexivity.
  - intros table_name gsi tbl.
    assert (Hget : Get (NewDynamoDBRepository mem_client table_name gsi)
                     accountID locationID tbl
                   = match tbl !! (locationID, accountID) with
                     | None => (Err (errorString "location not found"), tbl)
                     | Some it =>
                         match attributevalue_UnmarshalMap it with
                         | Err err =>
                             (Err (wrapError "failed to unmarshal location: " err), tbl)
                         | Ok record => (toLocation record, tbl)
                         end
                     end).
    { unfold Get. cbn [client NewDynamoDBRepository GetItem mem_client].
      unfold mem_GetItem, get_input. cbn [GetItemInput.Key].
      rewrite primary_key_record_key. cbn [GetItemOutput.Item]. reflexivity. }
    rewrite Hget. split.
    + destruct (tbl !! (locationID, accountID)) as [it|].
      * split; [|discriminate].
        destruct (attributevalue_UnmarshalMap it) as [record|uerr]; cbn [fst].
        -- rewrite toLocation_shape_block.
           destruct (shape_block record); intros (e & [= <-] & Hm).
           now apply missing_block_message in Hm.
        -- intros (e & [= <-] & Hm). cbn in Hm. discriminate.
      * split; [reflexivity|]. intros _. eexists; split; reflexivity.
    + intros it record -> ->. now rewrite toLocation_shape_block.
Qed.

End Reads.

(** ** List *)

Section Lists.
Context {lib : Libraries} {unmarshaler : Unmarshaler}.
Import memstore.

Lemma filter_none {A} (P : A -> Prop) `{forall x, Decision (P x)} (l : list A) :
  Forall (fun x => ~ P x) l -> filter P l = [].
Proof.
  induction 1 as [|x l Hx _ IH]; [reflexivity|].
  now rewrite filter_cons_False.
Qed.

Lemma partition_no_records (tbl : table) (accountID : string) :
  no_records tbl accountID -> partition accountID tbl = [].
Proof.
  intros Hnone. unfold partition. apply filter_none.
  apply (Forall_fmap snd (fun it => in_partition accountID it <> true)).
  eapply Permutation_Forall; [symmetry; apply merge_sort_Permutation|].
  apply map_Forall_to_list in Hnone.
  eapply Forall_impl; [exact Hnone|]. intros [k it]; simpl. congruence.
Qed.

(** What [List] returns once the query has answered and every item has
    been read. *)
Lemma List_answer {S} (r : DynamoDBRepository S) accountID options st sk out st'
    locations :
  list_startKey options = Ok sk ->
  Query (DynamoDBClient := client r)
    (list_input r accountID (list_limit r options) sk) st = (Ok out, st') ->
  mapM_result list_item (QueryOutput.Items out) = Ok locations ->
  List r accountID options st
  = (Ok {| ListResult.Locations := locations;
           ListResult.NextCursor :=
             match lastEvaluatedKeyToCursor (QueryOutput.LastEvaluatedKey out) with
             | Some c => Some (base64.EncodeToString (json_render (encode_cursor c)))
             | None => None
             end |}, st').
Proof.
  intros Hsk Hq Hl. unfold List. rewrite Hsk, Hq, Hl.
  now destruct (QueryOutput.LastEvaluatedKey out).
Qed.

(** C3. [List] queries the secondary index with limit 20 when the caller
    supplies no limit; the next-cursor it returns is non-nil exactly when
    the query reports a last-evaluated key; and for an account with no
    stored records it returns an empty slice of locations and a nil
    next-cursor, with no error. *)
Theorem C3_List_default_limit_and_cursor :
  (forall S (inner : DynamoDBClient S) (table_name gsi accountID : string)
          (options : option ListOptions.t) (sk : option item) (st : S),
     let r := NewDynamoDBRepository (recording inner) table_name gsi in
     no_limit options ->
     list_startKey options = Ok sk ->
     exists q,
       (List r accountID options ([], st)).2.1 = [q] /\
       QueryInput.IndexName q = Some gsi /\
       QueryInput.Limit q = Some 20%Z /\
       QueryInput.KeyConditionExpression q = Some "accountId = :accountId" /\
       QueryInput.ExpressionAttributeValues q
       = Some (<[":accountId" := AttributeValueMemberS accountID]> ∅) /\
       QueryInput.ExclusiveStartKey q = sk) /\
  (forall S (r : DynamoDBRepository S) (accountID : string)
          (options : option ListOptions.t) (sk : option item) (st st' st'' : S)
          (out : QueryOutput.t) (res : ListResult.t),
     list_startKey options = Ok sk ->
     Query (DynamoDBClient := client r)
       (list_input r accountID (list_limit r options) sk) st = (Ok out, st') ->
     List r accountID options st = (Ok res, st'') ->
     (ListResult.NextCursor res <> None <-> QueryOutput.LastEvaluatedKey out <> None)) /\
  (forall (r : DynamoDBRepository table) (tbl : table) (accountID : string)
          (options : option ListOptions.t) (sk : option item),
     client r = mem_client ->
     no_records tbl accountID ->
     list_startKey options = Ok sk ->
     (0 < list_limit r options)%Z ->
     List r accountID options tbl
     = (Ok {| ListResult.Locations := []; ListResult.NextCursor := None |}, tbl)).
Proof.
  split; [|split].
  - intros S inner table_name gsi accountID options sk st r Hno Hsk.
    exists (list_input r accountID 20 sk).
    split; [|repeat split].
    assert (Hlimit : list_limit r options = 20%Z).
    { destruct options as [o|]; [|reflexivity]. simpl in Hno.
      unfold list_limit. now rewrite Hno. }
    unfold List. rewrite Hsk, Hlimit.
    change (Query (DynamoDBClient := client r)) with (Query (DynamoDBClient := recording inner)).
    cbn [Query recording fst snd].
    destruct (Query (list_input r accountID 20 sk) st) as [[out|err] st'];
      [|reflexivity].
    destruct (mapM_result list_item (QueryOutput.Items out)); [|reflexivity].
    destruct (QueryOutput.LastEvaluatedKey out); reflexivity.
  - intros S r accountID options sk st st' st'' out res Hsk Hq.
    unfold List. rewrite Hsk, Hq.
    destruct (mapM_result list_item (QueryOutput.Items out)); [|discriminate].
    destruct (QueryOutput.LastEvaluatedKey out) as [lek|];
      intros [= <- _]; simpl; split; congruence.
  - intros r tbl accountID options sk Hc Hnone Hsk Hlimit.
    assert (Hq : Query (DynamoDBClient := client r)
                   (list_input r accountID (list_limit r options) sk) tbl
                 = (Ok {| QueryOutput.Items := [];
                          QueryOutput.LastEvaluatedKey := None |}, tbl)).
    { rewrite Hc. cbn [Query mem_client]. unfold mem_Query, list_input.
      cbn [QueryInput.KeyConditionExpression QueryInput.ExpressionAttributeValues
             QueryInput.ExclusiveStartKey QueryInput.Limit].
      change (String.eqb "accountId = :accountId" "accountId = :accountId") with true.
      cbn [negb]. rewrite lookup_insert_eq, (partition_no_records _ _ Hnone).
      assert (Hrest : match sk with
                      | Some k => after_key (primary_key k) []
                      | None => []
                      end = @nil item) by now destruct sk.
      rewrite Hrest.
      destruct (Z.leb_spec (list_limit r options) 0) as [Hle|_]; [lia|].
      rewrite take_nil. cbn [length last fmap option_fmap option_map].
      destruct (Nat.ltb_spec 0 (Z.to_nat (list_limit r options))) as [_|Hge];
        [reflexivity|lia]. }
    now rewrite (List_answer r accountID options tbl sk _ tbl [] Hsk Hq).
Qed.

End Lists.

(** ** Dynamic values: decoding inverts encoding *)

Section ValueRoundTrip.
Context {lib : Libraries}.

(** Induction on [value_round_trips], through slices and maps. *)
Lemma value_round_trips_ind' (P : goValue -> Prop) :
  P GoNil -> (forall b, P (GoBool b)) ->
  (forall f, float_round_trips f -> P (GoFloat f)) ->
  (forall s, P (GoString s)) ->
  (forall l, Forall P l -> P (GoSlice l)) ->
  (forall m, map_Forall (fun _ v => P v) m -> P (GoMap m)) ->
  forall v, value_round_trips v -> P v.
Proof.
  intros Hnil Hbool Hfloat Hstr Hslice Hmap.
  fix IH 2. intros v [|b|f Hf|s|l Hl|m Hm].
  - exact Hnil.
  - apply Hbool.
  - now apply Hfloat.
  - apply Hstr.
  - apply Hslice. induction Hl as [|x l Hx _ IHl]; constructor; [apply IH, Hx|exact IHl].
  - apply Hmap. intros k x Hk. apply IH, (Hm k x Hk).
Qed.

Lemma encode_float_round_trips f :
  float_round_trips f ->
  encode_float f = Ok (JNumber (json_formatFloat f)) /\
  forall field, convertNumber field (json_formatFloat f) = Ok f.
Proof.
  intros [Hfin Hparse]. unfold encode_float, convertNumber.
  now rewrite Hfin, Hparse.
Qed.

Lemma mapM_round_trip (field : string) (l : list goValue) :
  Forall (fun v => exists j, encode_interface v = Ok j /\ decode_interface field j = Ok v) l ->
  exists js, mapM_result encode_interface l = Ok js /\
             mapM_result (decode_interface field) js = Ok l.
Proof.
  induction 1 as [|v l (j & Hj & Hv) _ (js & Hjs & Hl)].
  - exists []. split; reflexivity.
  - exists (j :: js). simpl. rewrite Hj, Hjs. simpl. rewrite Hv, Hl. split; reflexivity.
Qed.

Lemma lookup_store_keys (m : gmap string goValue) ks m0 k :
  store_keys m ks m0 !! k = if decide (k ∈ ks) then
                              match m !! k with
                              | Some x => Some x
                              | None => m0 !! k
                              end
                            else m0 !! k.
Proof.
  unfold store_keys. revert m0. induction ks as [|k0 ks IH]; intros m0; simpl.
  - reflexivity.
  - rewrite IH. destruct (decide (k = k0)) as [->|Hne].
    + destruct (decide (k0 ∈ k0 :: ks)) as [_|Hn]; [|exfalso; apply Hn; left].
      destruct (m !! k0) as [x|] eqn:Hx.
      * rewrite lookup_insert_eq. now destruct (decide (k0 ∈ ks)).
      * now destruct (decide (k0 ∈ ks)).
    + assert (Hstep : match m !! k0 with
                      | Some x => <[k0 := x]> m0
                      | None => m0
                      end !! k = m0 !! k).
      { destruct (m !! k0); [now rewrite lookup_insert_ne|reflexivity]. }
      rewrite Hstep.
      destruct (decide (k ∈ ks)) as [Hin|Hnin];
        destruct (decide (k ∈ k0 :: ks)) as [Hin'|Hnin']; try reflexivity.
      * exfalso. apply Hnin'. now right.
      * exfalso. apply elem_of_cons in Hin' as [?|?]; congruence.
Qed.

Lemma store_keys_all (m : gmap string goValue) ks :
  (forall k, k ∈ ks <-> is_Some (m !! k)) -> store_keys m ks ∅ = m.
Proof.
  intros Hks. apply map_eq. intros k. rewrite lookup_store_keys.
  destruct (decide (k ∈ ks)) as [Hin|Hnin].
  - apply Hks in Hin as [x ->]. reflexivity.
  - rewrite lookup_empty. symmetry. apply eq_None_not_Some. now rewrite <- Hks.
Qed.

(** Entries that are each the encoding of the value their key has in [m]
    are written without error, and reading the members back stores those
    values. *)
Lemma members_round_trip (field : string) (m : gmap string goValue)
    (entries : list (string * result json)) :
  Forall (fun kr => exists j x, kr.2 = Ok j /\ m !! kr.1 = Some x /\
                                decode_interface field j = Ok x) entries ->
  exists members,
    mapM_result sequence_member entries = Ok members /\
    forall m0, decode_members field members m0 = Ok (store_keys m (entries.*1) m0).
Proof.
  induction 1 as [|[k r] entries (j & x & Hr & Hx & Hj) _ (members & Hm & Hd)].
  - exists []. split; [reflexivity|]. intros m0. reflexivity.
  - simpl in Hr, Hx. subst r. exists ((k, j) :: members). split.
    + simpl. now rewrite Hm.
    + intros m0. unfold decode_members in *. simpl. rewrite Hj. simpl.
      rewrite Hd. unfold store_keys. simpl. now rewrite Hx.
Qed.

Lemma sorted_entries_elem_of {A} (m : gmap string A) (kv : string * A) :
  kv ∈ sorted_entries m <-> m !! kv.1 = Some kv.2.
Proof.
  unfold sorted_entries. rewrite merge_sort_Permutation.
  destruct kv as [k v]. apply elem_of_map_to_list.
Qed.

Lemma sorted_entries_keys {A} (m : gmap string A) (k : string) :
  k ∈ (sorted_entries m).*1 <-> is_Some (m !! k).
Proof.
  rewrite list_elem_of_fmap. split.
  - intros ([k' v] & -> & Hin). apply sorted_entries_elem_of in Hin. simpl in *. eauto.
  - intros [v Hv]. exists (k, v). split; [reflexivity|]. now apply sorted_entries_elem_of.
Qed.

Lemma value_round_trip (field : string) (v : goValue) :
  value_round_trips v ->
  exists j, encode_interface v = Ok j /\ decode_interface field j = Ok v.
Proof.
  revert v. apply value_round_trips_ind'; [|intros b|intros f Hf|intros s|intros l IH|intros m IH].
  - exists JNull. split; reflexivity.
  - exists (JBool b). split; reflexivity.
  - destruct (encode_float_round_trips f Hf) as [He Hc].
    exists (JNumber (json_formatFloat f)). split; [exact He|].
    simpl. now rewrite Hc.
  - exists (JString s). split; reflexivity.
  - destruct (mapM_round_trip field l IH) as (js & Hjs & Hl).
    exists (JArray js). cbn [encode_interface decode_interface].
    rewrite Hjs, Hl. split; reflexivity.
  - destruct (members_round_trip field m (sorted_entries (encode_interface <$> m)))
      as (members & Hm & Hd).
    { apply Forall_forall. intros [k r] Hin.
      apply sorted_entries_elem_of in Hin. simpl in Hin.
      rewrite lookup_fmap in Hin.
      destruct (m !! k) as [x|] eqn:Hx; [|discriminate]. simpl in Hin.
      injection Hin as <-.
      destruct (IH k x Hx) as (j & Hj & Hback). exists j, x. auto. }
    exists (JObject members). split.
    + cbn [encode_interface]. now rewrite Hm.
    + rewrite decode_interface_JObject, Hd. simpl. f_equal. f_equal.
      apply store_keys_all. intros k. rewrite sorted_entries_keys, lookup_fmap.
      now rewrite fmap_is_Some.
Qed.

(** The document of a value that round-trips is read back as the value
    inside any field. *)
Lemma value_round_trip_any (v : goValue) :
  value_round_trips v ->
  exists j, encode_interface v = Ok j /\
            forall field, decode_interface field j = Ok v.
Proof.
  intros Hv. destruct (value_round_trip EmptyString v Hv) as (j & Hj & _).
  exists j. split; [exact Hj|]. intros field.
  destruct (value_round_trip field v Hv) as (j' & Hj' & Hd).
  rewrite Hj in Hj'. now injection Hj' as <-.
Qed.

(** A map of values that round-trip is written as an object whose members,
    read back into a nil map, give the map. *)
Lemma map_round_trip (m : gmap string goValue) :
  map_Forall (fun _ v => value_round_trips v) m ->
  exists members,
    encode_map m = Ok (JObject members) /\
    forall field, decode_map field (JObject members) None = Ok (Some m).
Proof.
  intros Hm. destruct (value_round_trip_any (GoMap m)) as (j & Hj & Hback).
  { now constructor. }
  unfold encode_map. cbn [encode_interface] in Hj |- *.
  destruct (mapM_result sequence_member _) as [members|] eqn:Hmembers; [|discriminate].
  simpl in Hj. injection Hj as <-. exists members. split; [reflexivity|].
  intros field. specialize (Hback field). rewrite decode_interface_JObject in Hback.
  cbn [decode_map default]. destruct (decode_members field members ∅); [|discriminate].
  simpl in Hback. now injection Hback as ->.
Qed.

End ValueRoundTrip.

(** ** Locations: decoding inverts encoding *)

Section LocationRoundTrip.
Context {lib : Libraries}.

Lemma Validate_tag (location : Location) :
  Validate location = None -> GetLocationType location = variant_tag location.
Proof.
  destruct location as [l|l|l]; simpl;
    [unfold AddressLocation.Validate|unfold CoordinatesLocation.Validate
    |unfold ShopLocation.Validate];
    destruct (String.eqb _ EmptyString); try discriminate;
    unfold GetLocationType; simpl;
    match goal with |- context [String.eqb ?a ?b] => destruct (String.eqb_spec a b) end;
    simpl; congruence.
Qed.

Lemma decode_encode_Address (path : string) (a : Address.t) :
  decode_Address path (encode_Address a) Address.zero = Ok a.
Proof.
  destruct a as [sa sa2 city sp pc co]. unfold encode_Address, omitempty_string.
  cbn [Address.StreetAddress Address.StreetAddress2 Address.City
         Address.StateProvince Address.PostalCode Address.Country].
  destruct (String.eqb_spec sa2 EmptyString) as [->|_];
    destruct (String.eqb_spec sp EmptyString) as [->|_]; reflexivity.
Qed.

Lemma decode_encode_Shop (path : string) (s : Shop.t) :
  decode_Shop path (encode_Shop s) Shop.zero = Ok s.
Proof.
  destruct s as [nm cid addr]. unfold encode_Shop, decode_Shop, decode_struct.
  cbn [Shop.Name Shop.ContactID Shop.Address].
  lazy -[decode_Address encode_Address append].
  now rewrite decode_encode_Address.
Qed.

Lemma decode_encode_Coordinates (path : string) (c : Coordinates.t) :
  float_round_trips (Coordinates.Latitude c) ->
  float_round_trips (Coordinates.Longitude c) ->
  float_ptr_round_trips (Coordinates.Altitude c) ->
  float_ptr_round_trips (Coordinates.Accuracy c) ->
  exists j, encode_Coordinates c = Ok j /\
            decode_Coordinates path j Coordinates.zero = Ok c.
Proof.
  destruct c as [lat lon alt acc]. simpl.
  intros [Hlat Hlat']%encode_float_round_trips [Hlon Hlon']%encode_float_round_trips
    Halt Hacc.
  unfold encode_Coordinates, omitempty_float_ptr. simpl. rewrite Hlat, Hlon. simpl.
  destruct alt as [alt|], acc as [acc|]; simpl in Halt, Hacc;
    repeat match goal with
      | H : float_round_trips _ |- _ =>
          let He := fresh "He" in
          apply encode_float_round_trips in H as [He ?Hc]; rewrite He; clear He
      end;
    simpl; eexists; (split; [reflexivity|]);
    lazy -[convertNumber json_formatFloat append];
    repeat match goal with H : forall field, convertNumber field _ = _ |- _ =>
             rewrite H; clear H end;
    reflexivity.
Qed.

(** The members [encode_base] writes, and the base they are read into. *)
Lemma encode_base_members (b : LocationBase.t) :
  match LocationBase.ExtendedAttributes b with
  | Some m => size m <> 0%nat /\ map_Forall (fun _ v => value_round_trips v) m
  | None => True
  end ->
  exists ext,
    encode_base b
    = Ok ([("accountId", JString (LocationBase.AccountID b));
           ("locationType", JString (LocationBase.LocationType b))] ++ ext)%list /\
    (ext = [] /\ LocationBase.ExtendedAttributes b = None \/
     exists members m,
       ext = [("extendedAttributes", JObject members)] /\
       LocationBase.ExtendedAttributes b = Some m /\
       forall field, decode_map field (JObject members) None = Ok (Some m)).
Proof.
  destruct b as [acc lt [m|]]; simpl.
  - intros [Hsize Hm]. destruct (map_round_trip m Hm) as (members & He & Hd).
    exists [("extendedAttributes", JObject members)]. split.
    + unfold encode_base, omitempty_map. simpl.
      apply Nat.eqb_neq in Hsize. rewrite Hsize, He. reflexivity.
    + right. exists members, m. auto.
  - intros _. exists []. split; [reflexivity|]. now left.
Qed.

Ltac read_back Hd :=
  repeat (lazy -[decode_map decode_Address encode_Address decode_Coordinates
                   decode_Shop encode_Shop append];
          first [rewrite Hd|rewrite decode_encode_Address
                |rewrite decode_encode_Shop]);
  lazy -[decode_map decode_Address encode_Address decode_Coordinates
           decode_Shop encode_Shop append];
  try reflexivity.

(** The theorem of this section for one location. *)
Lemma Location_round_trip (location : Location) :
  Validate location = None ->
  attributes_nil_or_inhabited location ->
  numbers_round_trip location ->
  exists doc,
    encode_Location location = Ok doc /\
    decode_discriminator doc EmptyString = Ok (variant_tag location) /\
    decode_variant (variant_tag location) doc = Ok location.
Proof.
  intros Hv Hattrs [Hext Hnum].
  pose proof (Validate_tag _ Hv) as Htag.
  destruct (encode_base_members (base location)) as (ext & Hb & Hcases).
  { unfold attributes_nil_or_inhabited, GetExtendedAttributes in *.
    destruct (LocationBase.ExtendedAttributes (base location)); auto. }
  unfold GetLocationType in Htag.
  destruct location as [[b a]|[b c]|[b s]];
    cbn [base AddressLocation.Base CoordinatesLocation.Base ShopLocation.Base
           variant_tag] in Hb, Hcases, Htag; simpl in Hnum;
    destruct b as [acc lt attrs];
    cbn [LocationBase.AccountID LocationBase.LocationType
           LocationBase.ExtendedAttributes] in Htag, Hb, Hcases; subst lt.
  - exists (JObject ([("accountId", JString acc); ("locationType", JString "address")]
                     ++ ext ++ [("address", encode_Address a)])%list).
    split; [unfold encode_Location; simpl base; rewrite Hb; reflexivity|].
    destruct Hcases as [[-> ->]|(members & m & -> & -> & Hd)].
    + split; [reflexivity|]. unfold decode_variant. read_back Hd.
    + split; [reflexivity|]. unfold decode_variant. read_back Hd.
  - destruct Hnum as (Hlat & Hlon & Halt & Hacc).
    destruct (decode_encode_Coordinates "CoordinatesLocation.coordinates" c
                Hlat Hlon Halt Hacc) as (j & Hj & Hc).
    unfold Coordinates.zero in Hc.
    exists (JObject ([("accountId", JString acc); ("locationType", JString "coordinates")]
                     ++ ext ++ [("coordinates", j)])%list).
    split; [unfold encode_Location; simpl base; rewrite Hb; simpl; rewrite Hj;
            reflexivity|].
    destruct Hcases as [[-> ->]|(members & m & -> & -> & Hd)].
    + split; [reflexivity|]. unfold decode_variant. read_back Hd.
      now rewrite Hc.
    + split; [reflexivity|]. unfold decode_variant. read_back Hd.
      now rewrite Hc.
  - exists (JObject ([("accountId", JString acc); ("locationType", JString "shop")]
                     ++ ext ++ [("shop", encode_Shop s)])%list).
    split; [unfold encode_Location; simpl base; rewrite Hb; reflexivity|].
    destruct Hcases as [[-> ->]|(members & m & -> & -> & Hd)].
    + split; [reflexivity|]. unfold decode_variant. read_back Hd.
    + split; [reflexivity|]. unfold decode_variant. read_back Hd.
Qed.

Lemma encode_Location_nil_if_empty (location : Location) :
  encode_Location (nil_if_empty location) = encode_Location location.
Proof.
  unfold nil_if_empty, GetExtendedAttributes.
  destruct location as [[[acc t [m|]] a]|[[acc t [m|]] c]|[[acc t [m|]] s]];
    cbn [base AddressLocation.Base CoordinatesLocation.Base ShopLocation.Base
           LocationBase.ExtendedAttributes]; try reflexivity;
    destruct (size m =? 0)%nat eqn:Hsize; try reflexivity;
    unfold encode_Location, encode_base, omitempty_map, with_attributes;
    cbn [base AddressLocation.Base CoordinatesLocation.Base ShopLocation.Base
           LocationBase.ExtendedAttributes LocationBase.AccountID
           LocationBase.LocationType AddressLocation.Address
           CoordinatesLocation.Coordinates ShopLocation.Shop];
    rewrite Hsize; reflexivity.
Qed.

Lemma Validate_nil_if_empty (location : Location) :
  Validate (nil_if_empty location) = Validate location.
Proof.
  unfold nil_if_empty, GetExtendedAttributes.
  destruct location as [[[acc t [m|]] a]|[[acc t [m|]] c]|[[acc t [m|]] s]];
    cbn [base AddressLocation.Base CoordinatesLocation.Base ShopLocation.Base
           LocationBase.ExtendedAttributes]; try reflexivity;
    destruct (size m =? 0)%nat; reflexivity.
Qed.

Lemma nil_if_empty_inhabited (location : Location) :
  attributes_nil_or_inhabited (nil_if_empty location).
Proof.
  unfold attributes_nil_or_inhabited, nil_if_empty, GetExtendedAttributes.
  destruct location as [[[acc t [m|]] a]|[[acc t [m|]] c]|[[acc t [m|]] s]];
    cbn [base AddressLocation.Base CoordinatesLocation.Base ShopLocation.Base
           LocationBase.ExtendedAttributes]; try exact I;
    destruct (size m =? 0)%nat eqn:Hsize; cbn; try exact I;
    now apply Nat.eqb_neq.
Qed.

Lemma nil_if_empty_numbers (location : Location) :
  numbers_round_trip location -> numbers_round_trip (nil_if_empty location).
Proof.
  unfold numbers_round_trip, nil_if_empty, GetExtendedAttributes.
  destruct location as [[[acc t [m|]] a]|[[acc t [m|]] c]|[[acc t [m|]] s]];
    cbn [base AddressLocation.Base CoordinatesLocation.Base ShopLocation.Base
           LocationBase.ExtendedAttributes]; try tauto;
    destruct (size m =? 0)%nat; cbn; tauto.
Qed.

Lemma nil_if_empty_inhabited_id (location : Location) :
  attributes_nil_or_inhabited location -> nil_if_empty location = location.
Proof.
  unfold attributes_nil_or_inhabited, nil_if_empty.
  destruct (GetExtendedAttributes location) as [m|]; [|reflexivity].
  intros Hsize. apply Nat.eqb_neq in Hsize. now rewrite Hsize.
Qed.

Lemma nil_if_empty_empty (location : Location) :
  GetExtendedAttributes location = Some ∅ ->
  nil_if_empty location = with_attributes None location.
Proof. unfold nil_if_empty. now intros ->. Qed.

Lemma GetExtendedAttributes_with_attributes attrs (location : Location) :
  GetExtendedAttributes (with_attributes attrs location) = attrs.
Proof. now destruct location. Qed.

(** Decoding the JSON of a valid location gives the location with an
    empty extendedAttributes map replaced by nil. *)
Lemma Location_read_back (location : Location) :
  Validate location = None ->
  numbers_round_trip location ->
  exists doc,
    encode_Location location = Ok doc /\
    (json_scan (json_render doc) = Document doc ->
     UnmarshalLocation (json_render doc) = Ok (nil_if_empty location)).
Proof.
  intros Hv Hnum.
  assert (Hv' : Validate (nil_if_empty location) = None)
    by now rewrite Validate_nil_if_empty.
  destruct (Location_round_trip _ Hv' (nil_if_empty_inhabited location)
              (nil_if_empty_numbers _ Hnum)) as (doc & He & Hd & Hback).
  exists doc. rewrite encode_Location_nil_if_empty in He.
  split; [exact He|].
  intros Hscan. rewrite (UnmarshalLocation_Document _ _ Hscan), Hd.
  assert (Hk : known_tag (variant_tag (nil_if_empty location))).
  { destruct (nil_if_empty location); unfold known_tag; simpl; auto. }
  apply known_tag_eqb in Hk. rewrite Hk, Hback. reflexivity.
Qed.

(** C8, amended. Take a valid Location all of whose numbers the library
    writes and reads back, and whose JSON document the library reads back
    from the text it writes for it.  Encoding it succeeds.  If its
    extendedAttributes map is nil or holds an entry, decoding the JSON so
    produced yields an equal Location: tag, accountId, extendedAttributes
    and shape fields are all preserved.  If the map is allocated and
    empty, the JSON is that of the same Location with a nil map, and
    decoding it yields that Location, which is not the one encoded. *)
Theorem C8_round_trip_amended (location : Location) :
  Validate location = None ->
  numbers_round_trip location ->
  (forall doc, encode_Location location = Ok doc ->
               json_scan (json_render doc) = Document doc) ->
  exists data,
    MarshalLocation location = Ok data /\
    (attributes_nil_or_inhabited location ->
     UnmarshalLocation data = Ok location) /\
    (GetExtendedAttributes location = Some ∅ ->
     MarshalLocation (with_attributes None location) = Ok data /\
     UnmarshalLocation data = Ok (with_attributes None location) /\
     with_attributes None location <> location).
Proof.
  intros Hv Hnum Hlib.
  destruct (Location_read_back location Hv Hnum) as (doc & He & Hback).
  specialize (Hback (Hlib doc He)).
  exists (json_render doc). split; [|split].
  - unfold MarshalLocation, Marshal. now rewrite He.
  - intros Hattrs. now rewrite (nil_if_empty_inhabited_id _ Hattrs) in Hback.
  - intros Hempty. rewrite <- (nil_if_empty_empty _ Hempty).
    split; [|split; [exact Hback|]].
    + unfold MarshalLocation, Marshal.
      now rewrite encode_Location_nil_if_empty, He.
    + rewrite (nil_if_empty_empty _ Hempty). intros Heq.
      apply (f_equal GetExtendedAttributes) in Heq.
      rewrite GetExtendedAttributes_with_attributes, Hempty in Heq. discriminate.
Qed.

End LocationRoundTrip.

(** ** The handler of getLocation *)

Section GetLocation.
Context {lib : Libraries}.

Lemma decode_members_nil (field : string) (m : gmap string goValue) :
  decode_members field [] m = Ok m.
Proof. reflexivity. Qed.

Lemma decode_members_cons (field k : string) (v : json) (rest : list (string * json))
    (m : gmap string goValue) :
  decode_members field ((k, v) :: rest) m
  = bind (decode_interface field v) (fun x => decode_members field rest (<[k := x]> m)).
Proof.
  unfold decode_members. cbn [foldM_result fst snd].
  destruct (decode_interface field v); reflexivity.
Qed.

Lemma decode_interface_JString (field s : string) :
  decode_interface field (JString s) = Ok (GoString s).
Proof. reflexivity. Qed.

Lemma bind_of_Ok {A B} (a : A) (k : A -> result B) : bind (Ok a) k = k a.
Proof. reflexivity. Qed.

Ltac members :=
  rewrite ?decode_interface_JObject;
  repeat first [rewrite decode_members_cons|rewrite decode_members_nil
               |rewrite decode_interface_JString|rewrite bind_of_Ok].

Lemma Address_decode_interface (field : string) (a : Address.t) :
  decode_interface field (encode_Address a) = Ok (GoMap (Address_fields a)).
Proof.
  destruct a as [sa sa2 city sp pc co].
  unfold encode_Address, Address_fields, omitempty_string, put_nonempty.
  cbn [Address.StreetAddress Address.StreetAddress2 Address.City
         Address.StateProvince Address.PostalCode Address.Country].
  destruct (String.eqb sa2 EmptyString), (String.eqb sp EmptyString);
    cbn [app]; members; reflexivity.
Qed.

Lemma Shop_decode_interface (field : string) (s : Shop.t) :
  decode_interface field (encode_Shop s) = Ok (GoMap (Shop_fields s)).
Proof.
  destruct s as [nm cid addr]. unfold encode_Shop, Shop_fields.
  cbn [Shop.Name Shop.ContactID Shop.Address].
  members. rewrite Address_decode_interface. members. reflexivity.
Qed.

Lemma number_decode_interface (f : float) :
  float_round_trips f ->
  encode_float f = Ok (JNumber (json_formatFloat f)) /\
  forall field, decode_interface field (JNumber (json_formatFloat f)) = Ok (GoFloat f).
Proof.
  intros [He Hc]%encode_float_round_trips. split; [exact He|]. intros field.
  cbn [decode_interface]. now rewrite Hc.
Qed.

Lemma Coordinates_decode_interface (c : Coordinates.t) :
  float_round_trips (Coordinates.Latitude c) ->
  float_round_trips (Coordinates.Longitude c) ->
  float_ptr_round_trips (Coordinates.Altitude c) ->
  float_ptr_round_trips (Coordinates.Accuracy c) ->
  exists j, encode_Coordinates c = Ok j /\
            forall field, decode_interface field j = Ok (GoMap (Coordinates_fields c)).
Proof.
  destruct c as [lat lon alt acc].
  cbn [Coordinates.Latitude Coordinates.Longitude Coordinates.Altitude
         Coordinates.Accuracy].
  intros [Hlat Hlat']%number_decode_interface [Hlon Hlon']%number_decode_interface
    Halt Hacc.
  unfold encode_Coordinates, omitempty_float_ptr, Coordinates_fields, put_number.
  cbn [Coordinates.Latitude Coordinates.Longitude Coordinates.Altitude
         Coordinates.Accuracy].
  rewrite Hlat, Hlon, !bind_of_Ok.
  destruct alt as [alt|], acc as [acc|]; cbn [float_ptr_round_trips] in Halt, Hacc;
    repeat match goal with
      | H : float_round_trips _ |- _ =>
          let He := fresh "He" in
          apply number_decode_interface in H as [He ?Hd]; rewrite He; clear He
      end;
    rewrite !bind_of_Ok; eexists; (split; [reflexivity|]); intros field; cbn [app];
    rewrite decode_interface_JObject;
    repeat first [rewrite decode_members_cons|rewrite decode_members_nil
                 |rewrite bind_of_Ok
                 |match goal with
                  | H : forall _ : string, decode_interface _ _ = _ |- _ => rewrite H
                  end];
    reflexivity.
Qed.

(** The members of the base, read into a map. *)
Lemma base_decode_members (b : LocationBase.t) :
  match LocationBase.ExtendedAttributes b with
  | Some m => map_Forall (fun _ v => value_round_trips v) m
  | None => True
  end ->
  exists members,
    encode_base b = Ok members /\
    forall field, decode_members field members ∅ = Ok (base_fields b).
Proof.
  destruct b as [acc lt [m|]]; unfold encode_base, base_fields, put_attributes,
    omitempty_map; simpl.
  - intros Hm. destruct (size m =? 0)%nat.
    + eexists; split; reflexivity.
    + destruct (value_round_trip_any (GoMap m)) as (j & He & Hd).
      { now constructor. }
      unfold encode_map. rewrite He. simpl. eexists; split; [reflexivity|].
      intros field. specialize (Hd field).
      unfold decode_members. cbn [foldM_result fst snd bind].
      set (d := decode_interface field j) in *. simpl. subst d. rewrite Hd. reflexivity.
  - intros _. eexists; split; reflexivity.
Qed.

Lemma decode_members_app (field : string) (l1 l2 : list (string * json))
    (m : gmap string goValue) :
  decode_members field (l1 ++ l2) m
  = bind (decode_members field l1 m) (fun m' => decode_members field l2 m').
Proof.
  unfold decode_members. revert m. induction l1 as [|[k v] l1 IH]; intros m.
  - reflexivity.
  - simpl. destruct (decode_interface field v) as [x|e]; simpl; [apply IH|reflexivity].
Qed.

(** What [json.Unmarshal] into a map makes of the JSON of a location. *)
Lemma Location_decode_map (location : Location) :
  numbers_round_trip location ->
  exists doc,
    encode_Location location = Ok doc /\
    forall field, decode_map field doc None = Ok (Some (Location_fields location)).
Proof.
  intros [Hext Hnum].
  destruct (base_decode_members (base location)) as (members & Hb & Hd).
  { exact Hext. }
  unfold encode_Location, Location_fields. rewrite Hb.
  set (fields := base_fields (base location)) in *. clearbody fields.
  destruct location as [[b a]|[b c]|[b s]]; simpl in Hnum |- *.
  - eexists; split; [reflexivity|]. intros field.
    unfold decode_map. cbn [default]. rewrite decode_members_app, Hd.
    unfold decode_members. cbn [bind foldM_result fst snd].
    rewrite Address_decode_interface. reflexivity.
  - destruct Hnum as (Hlat & Hlon & Halt & Hacc).
    destruct (Coordinates_decode_interface c Hlat Hlon Halt Hacc) as (j & Hj & Hc).
    rewrite Hj. eexists; split; [reflexivity|]. intros field.
    unfold decode_map. cbn [default]. rewrite decode_members_app, Hd.
    unfold decode_members. cbn [bind foldM_result fst snd].
    rewrite Hc. reflexivity.
  - eexists; split; [reflexivity|]. intros field.
    unfold decode_map. cbn [default]. rewrite decode_members_app, Hd.
    unfold decode_members. cbn [bind foldM_result fst snd].
    rewrite Shop_decode_interface. reflexivity.
Qed.

Lemma add_typename_known (t : LocationType) (m : gmap string goValue) :
  known_tag t ->
  handler.add_typename t m = <["__typename" := GoString (typename t)]> m.
Proof.
  unfold handler.add_typename, typename.
  intros [-> | [-> | ->]]; reflexivity.
Qed.

(** C4. When [Handle] routes a getLocation event whose arguments decode
    and the repository returns a location with one of the three tags, the
    response is the map of the location's JSON fields (the fields of the
    embedded base at the top level, the shape block as a nested map) with
    a locationId entry equal to the requested identifier and a __typename
    entry equal to AddressLocation, CoordinatesLocation or ShopLocation
    according to the locationType tag of the location; every other entry
    is an entry of the location's JSON. The library is assumed to read
    back the numbers and the document it writes for the location. *)
Theorem C4_getLocation_response {S} (repo : handler.Repository S)
    (handleCreateLocation handleUpdateLocation handleDeleteLocation
       handleListLocations : string -> S -> result handler.response * S)
    (event : handler.AppSyncEvent.t) (args : handler.GetLocationArguments.t)
    (location : Location) (st st' : S) :
  handler.AppSyncEvent.Field event = "getLocation" ->
  Unmarshal handler.decode_GetLocationArguments (handler.AppSyncEvent.Arguments event)
    handler.GetLocationArguments.zero = Ok args ->
  handler.Get (handler.GetLocationArguments.AccountID args)
    (handler.GetLocationArguments.LocationID args) st = (Ok location, st') ->
  known_tag (GetLocationType location) ->
  numbers_round_trip location ->
  (forall doc, encode_Location location = Ok doc ->
               json_scan (json_render doc) = Document doc) ->
  exists response,
    handler.Handle handleCreateLocation handleUpdateLocation handleDeleteLocation
      handleListLocations event st = (Ok (handler.ofMap response), st') /\
    response
    = <["__typename" := GoString (typename (GetLocationType location))]>
        (<["locationId" := GoString (handler.GetLocationArguments.LocationID args)]>
           (Location_fields location)) /\
    response !! "locationId"
    = Some (GoString (handler.GetLocationArguments.LocationID args)) /\
    response !! "__typename" = Some (GoString (typename (GetLocationType location))) /\
    (typename (GetLocationType location) = "AddressLocation" /\
       GetLocationType location = LocationTypeAddress \/
     typename (GetLocationType location) = "CoordinatesLocation" /\
       GetLocationType location = LocationTypeCoordinates \/
     typename (GetLocationType location) = "ShopLocation" /\
       GetLocationType location = LocationTypeShop) /\
    (forall k, k <> "locationId" -> k <> "__typename" ->
               response !! k = Location_fields location !! k).
Proof.
  intros Hfield Hargs Hget Hknown Hnum Hlib.
  destruct (Location_decode_map location Hnum) as (doc & Hdoc & Hmap).
  eexists. split; [|split; [reflexivity|]].
  - unfold handler.Handle. rewrite Hfield.
    lazy [handler.one_of existsb String.eqb Ascii.eqb Bool.eqb orb].
    unfold handler.handleGetLocation. rewrite Hargs, Hget.
    unfold MarshalLocation, Marshal. rewrite Hdoc. cbn [bind].
    unfold Unmarshal. rewrite (Hlib doc Hdoc), Hmap.
    now rewrite (add_typename_known _ _ Hknown).
  - split; [|split; [apply lookup_insert_eq|split]].
    + rewrite lookup_insert_ne by discriminate. apply lookup_insert_eq.
    + destruct Hknown as [H|[H|H]]; rewrite H; auto.
    + intros k Hk1 Hk2. now rewrite !lookup_insert_ne by congruence.
Qed.

End GetLocation.

(** ** The properties at sample values, with the reference libraries *)

Section Examples.
#[local] Existing Instance reference.libraries.
#[local] Existing Instance reference.unmarshaler.
Import dynamodb memstore.

(** The point (40.75, -74.125) with accuracy 10 is within the bounds and
    passes validation. *)
Lemma C9_coordinates_validate_witness :
  coordinates_in_bounds a_point /\
  Coordinates.Validate a_point = None.
Proof.
  assert (H : coordinates_in_bounds a_point).
  { unfold coordinates_in_bounds. simpl. repeat split; reflexivity. }
  split; [exact H|].
  exact (proj1 (C9_coordinates_validate a_point H)).
Defined.

(** The cursor after loc-1 of acc-12345 is encoded and decoded back. *)
Lemma C7_cursor_round_trip_witness :
  exists s, encodeCursor (Some a_cursor) = Ok (Some s) /\
            decodeCursor (Some s) = Ok (Some a_cursor).
Proof.
  apply (C7_cursor_round_trip a_cursor).
  split; [vm_compute; discriminate|vm_compute; reflexivity].
Defined.

(** A cursor whose PK is not valid UTF-8 is encoded, and the string so
    produced is decoded without error into another cursor: the byte 0xFF
    of the PK is written as the escape of U+FFFD and read as U+FFFD. *)
Lemma C7_invalid_utf8_counterexample :
  encodeCursor (Some a_cursor_of_bytes) = Ok (Some a_cursor_of_bytes_text) /\
  decodeCursor (Some a_cursor_of_bytes_text) = Ok (Some a_cursor_read_back) /\
  a_cursor_read_back <> a_cursor_of_bytes /\
  ~ cursor_round_trip_as_stated reference.libraries.
Proof.
  assert (He : encodeCursor (Some a_cursor_of_bytes) = Ok (Some a_cursor_of_bytes_text))
    by (vm_compute; reflexivity).
  assert (Hd : decodeCursor (Some a_cursor_of_bytes_text) = Ok (Some a_cursor_read_back))
    by (vm_compute; reflexivity).
  assert (Hne : a_cursor_read_back <> a_cursor_of_bytes) by discriminate.
  repeat split; try assumption.
  intros Hstated. specialize (Hstated _ _ He). rewrite Hd in Hstated.
  injection Hstated as Heq. now apply Hne.
Defined.

(** A coordinates payload without a block is decoded into the location at
    the point (0, 0). *)
Lemma C10_absent_coordinates_witness :
  UnmarshalLocation blockless_payload = Ok (location_at_origin "acc-12345").
Proof.
  assert (Hacc : "acc-12345" <> EmptyString) by discriminate.
  assert (Hscan : json_scan blockless_payload
                  = Document (payload_without_block "acc-12345"))
    by (vm_compute; reflexivity).
  exact (proj1 (C10_absent_coordinates_default_to_zero
                  "acc-12345" blockless_payload Hacc (or_introl Hscan))).
Defined.

(** The attributes of the survey point are written and read back. *)
Lemma survey_attributes_round_trip :
  map_Forall (fun _ v => value_round_trips v) survey_attributes.
Proof.
  unfold survey_attributes.
  apply map_Forall_insert_2.
  { constructor. split; vm_compute; reflexivity. }
  apply map_Forall_insert_2; [constructor|apply map_Forall_empty].
Defined.

(** The survey point, with its attributes, is encoded and decoded back. *)
Lemma C8_round_trip_amended_witness :
  exists data,
    MarshalLocation a_survey_point = Ok data /\
    UnmarshalLocation data = Ok a_survey_point.
Proof.
  assert (Hv : Validate a_survey_point = None) by (vm_compute; reflexivity).
  assert (Ha : attributes_nil_or_inhabited a_survey_point)
    by (vm_compute; discriminate).
  assert (Hn : numbers_round_trip a_survey_point).
  { split; [exact survey_attributes_round_trip|].
    repeat split; vm_compute; reflexivity. }
  assert (Hlib : forall doc,
            encode_Location a_survey_point = Ok doc ->
            json_scan (json_render doc) = Document doc).
  { intros doc Hdoc. vm_compute in Hdoc. injection Hdoc as <-. vm_compute. reflexivity. }
  destruct (C8_round_trip_amended a_survey_point Hv Hn Hlib) as (data & Hm & Hback & _).
  exists data. split; [exact Hm|exact (Hback Ha)].
Defined.

(** A valid address location whose extendedAttributes map is allocated and
    empty is encoded without the field and decoded with a nil map: the
    decoded location is not the one that was encoded. *)
Lemma C8_empty_attributes_counterexample :
  Validate main_street_empty_attributes = None /\
  MarshalLocation main_street_empty_attributes = Ok main_street_json /\
  UnmarshalLocation main_street_json = Ok main_street /\
  main_street <> main_street_empty_attributes /\
  ~ round_trip_as_stated reference.libraries.
Proof.
  assert (Hv : Validate main_street_empty_attributes = None) by (vm_compute; reflexivity).
  assert (Hne : main_street <> main_street_empty_attributes).
  { assert (Hattrs : GetExtendedAttributes main_street
                     <> GetExtendedAttributes main_street_empty_attributes)
      by (vm_compute; discriminate).
    exact (fun H => Hattrs (f_equal GetExtendedAttributes H)). }
  assert (Hdata : MarshalLocation main_street_empty_attributes = Ok main_street_json)
    by (vm_compute; reflexivity).
  assert (Hback : UnmarshalLocation main_street_json = Ok main_street)
    by (vm_compute; reflexivity).
  repeat split; try assumption.
  intros Hstated. specialize (Hstated _ _ Hv Hdata). rewrite Hback in Hstated.
  injection Hstated as Heq. now apply Hne.
Defined.

(** A well-formed payload whose discriminator is that of an address and
    whose accountId is a number is not decoded into an address location:
    the decoder's type error is returned. *)
Lemma C5_numeric_accountId_counterexample :
  json_scan numeric_account_payload = Document numeric_account_document /\
  decode_discriminator numeric_account_document EmptyString = Ok LocationTypeAddress /\
  UnmarshalLocation numeric_account_payload
  = Err (wrapError "failed to unmarshal address location: "
           (UnmarshalTypeError "number" "string" "AddressLocation.accountId")) /\
  ~ UnmarshalLocation_as_stated reference.libraries.
Proof.
  assert (Hs : json_scan numeric_account_payload = Document numeric_account_document)
    by (vm_compute; reflexivity).
  assert (Hu : UnmarshalLocation numeric_account_payload
               = Err (wrapError "failed to unmarshal address location: "
                        (UnmarshalTypeError "number" "string"
                           "AddressLocation.accountId")))
    by (vm_compute; reflexivity).
  split; [exact Hs|]. split; [reflexivity|]. split; [exact Hu|].
  intros Hstated.
  specialize (Hstated numeric_account_payload).
  rewrite Hs in Hstated.
  destruct (Hstated LocationTypeAddress eq_refl) as [_ Hk].
  destruct Hk as (location & Hloc & _); [left; reflexivity|].
  rewrite Hu in Hloc. discriminate.
Defined.

(** A getLocation event for loc-1, against a repository holding
    [main_street]. *)
Lemma C4_getLocation_response_witness :
  exists response,
    handler.Handle (repo := holding main_street)
      not_reached not_reached not_reached not_reached a_getLocation_event tt
    = (Ok (handler.ofMap response), tt) /\
    response !! "locationId" = Some (GoString "loc-1") /\
    response !! "__typename" = Some (GoString "AddressLocation") /\
    response !! "accountId" = Some (GoString "acc-12345").
Proof.
  assert (Hargs : Unmarshal handler.decode_GetLocationArguments
                    (handler.AppSyncEvent.Arguments a_getLocation_event)
                    handler.GetLocationArguments.zero = Ok a_getLocation_arguments)
    by (vm_compute; reflexivity).
  assert (Hk : known_tag (GetLocationType main_street)) by (left; reflexivity).
  assert (Hn : numbers_round_trip main_street) by (split; exact I).
  assert (Hlib : forall doc,
            encode_Location main_street = Ok doc ->
            json_scan (json_render doc) = Document doc).
  { intros doc Hdoc. vm_compute in Hdoc. injection Hdoc as <-. vm_compute. reflexivity. }
  destruct (C4_getLocation_response (holding main_street)
              not_reached not_reached not_reached not_reached
              a_getLocation_event a_getLocation_arguments main_street tt tt
              eq_refl Hargs eq_refl Hk Hn Hlib)
    as (response & Hr & Heq & Hid & Hty & _ & Hrest).
  exists response. split; [exact Hr|]. split; [exact Hid|]. split; [exact Hty|].
  rewrite Hrest by discriminate. vm_compute. reflexivity.
Defined.

(** An update of a location not in the store. *)
Lemma C2_not_found_or_access_denied_witness :
  (Update test_repository main_street "loc-1" ∅).1
  = Some (errorString "location not found or access denied").
Proof.
  destruct C2_not_found_or_access_denied as (_ & _ & H & _).
  destruct (toLocationRecord main_street "loc-1") as [record|e] eqn:Hr;
    [|discriminate Hr].
  apply (H test_repository ∅ main_street "loc-1" record eq_refl
           (map_Forall_empty _) eq_refl Hr).
  exact I.
Defined.

(** A listing of an empty store. *)
Lemma C3_List_default_limit_and_cursor_witness :
  List test_repository "acc-12345" None ∅
  = (Ok {| ListResult.Locations := []; ListResult.NextCursor := None |}, ∅).
Proof.
  destruct C3_List_default_limit_and_cursor as (_ & _ & H).
  apply (H test_repository ∅ "acc-12345" None None eq_refl).
  - apply map_Forall_empty.
  - reflexivity.
  - reflexivity.
Defined.

(** A read of the record the sample store holds under (loc-1, acc-12345),
    and reads that miss it: another location identifier, and the same
    identifier under another account. *)
Lemma C6_Get_witness :
  Get test_repository "acc-12345" "loc-1" a_store = (Ok main_street, a_store) /\
  (exists e, (Get test_repository "acc-12345" "loc-2" a_store).1 = Err e /\
             message e = "location not found") /\
  (exists e, (Get test_repository "acc-67890" "loc-1" a_store).1 = Err e /\
             message e = "location not found").
Proof.
  assert (Hit : a_store !! ("loc-1", "acc-12345") = Some (stored main_street "loc-1"))
    by apply lookup_insert_eq.
  assert (Hrec : attributevalue_UnmarshalMap (stored main_street "loc-1")
                 = Ok (record_of main_street "loc-1")) by (vm_compute; reflexivity).
  split; [|split].
  - exact (proj2 (proj2 (proj2 (proj2 (C6_Get_not_found_and_shape_guard
                                         test_repository "acc-12345" "loc-1" ∅)))
                    "test-table" "test-gsi" a_store)
             (stored main_street "loc-1") (record_of main_street "loc-1") Hit Hrec).
  - apply (proj1 (proj2 (proj2 (proj2 (C6_Get_not_found_and_shape_guard
                                         test_repository "acc-12345" "loc-2" ∅)))
                    "test-table" "test-gsi" a_store)).
    vm_compute. reflexivity.
  - apply (proj1 (proj2 (proj2 (proj2 (C6_Get_not_found_and_shape_guard
                                         test_repository "acc-67890" "loc-1" ∅)))
                    "test-table" "test-gsi" a_store)).
    vm_compute. reflexivity.
Defined.

End Examples.

(* ===================================================================== *)
(** * Part III: further properties of the code                            *)
(* ===================================================================== *)

(** ** Validation *)

Section Validation.
Context {lib : Libraries}.

(** [Address.Validate] accepts exactly the addresses whose streetAddress,
    city and postalCode are not empty and whose country has two bytes;
    streetAddress2 and stateProvince are never looked at.  It reports the
    first of the checks that fails, in the order streetAddress, city,
    postalCode, country, length of country. *)
Theorem Address_Validate_accepts_exactly (a : Address.t) :
  (Address.Validate a = None <->
   Address.StreetAddress a <> EmptyString /\
   Address.City a <> EmptyString /\
   Address.PostalCode a <> EmptyString /\
   String.length (Address.Country a) = 2%nat) /\
  (Address.StreetAddress a = EmptyString ->
   Address.Validate a = Some (errorString "streetAddress is required")) /\
  (Address.StreetAddress a <> EmptyString -> Address.City a = EmptyString ->
   Address.Validate a = Some (errorString "city is required")) /\
  (Address.StreetAddress a <> EmptyString -> Address.City a <> EmptyString ->
   Address.PostalCode a = EmptyString ->
   Address.Validate a = Some (errorString "postalCode is required")) /\
  (Address.StreetAddress a <> EmptyString -> Address.City a <> EmptyString ->
   Address.PostalCode a <> EmptyString -> Address.Country a = EmptyString ->
   Address.Validate a = Some (errorString "country is required")) /\
  (Address.StreetAddress a <> EmptyString -> Address.City a <> EmptyString ->
   Address.PostalCode a <> EmptyString -> Address.Country a <> EmptyString ->
   String.length (Address.Country a) <> 2%nat ->
   Address.Validate a
   = Some (errorString "country must be a 2-character ISO 3166-1 alpha-2 code")).
Proof.
  destruct a as [sa sa2 city sp pc co]. unfold Address.Validate.
  cbn [Address.StreetAddress Address.City Address.PostalCode Address.Country].
  destruct (String.eqb_spec sa EmptyString) as [Hsa|Hsa];
    destruct (String.eqb_spec city EmptyString) as [Hcity|Hcity];
    destruct (String.eqb_spec pc EmptyString) as [Hpc|Hpc];
    destruct (String.eqb_spec co EmptyString) as [Hco|Hco];
    destruct (Nat.eqb_spec (String.length co) 2) as [Hlen|Hlen];
    cbn [negb];
    (split; [split; [try discriminate; intros _; repeat split; assumption
                    |intros (H1 & H2 & H3 & H4); try reflexivity; try contradiction]
            |repeat split; intros; try reflexivity; try contradiction]).
  all: subst co; simpl in H4; discriminate.
Qed.

(** [Shop.Validate] accepts exactly the shops whose name and contactId are
    not empty and whose address [Address.Validate] accepts; the name is
    checked before the contactId, and an error of the address is returned
    as it is, with no prefix. *)
Theorem Shop_Validate_accepts_exactly (s : Shop.t) :
  (Shop.Validate s = None <->
   Shop.Name s <> EmptyString /\ Shop.ContactID s <> EmptyString /\
   Address.Validate (Shop.Address s) = None) /\
  (Shop.Name s = EmptyString ->
   Shop.Validate s = Some (errorString "name is required")) /\
  (Shop.Name s <> EmptyString -> Shop.ContactID s = EmptyString ->
   Shop.Validate s = Some (errorString "contactId is required")) /\
  (Shop.Name s <> EmptyString -> Shop.ContactID s <> EmptyString ->
   Shop.Validate s = Address.Validate (Shop.Address s)).
Proof.
  destruct s as [nm cid addr]. unfold Shop.Validate.
  cbn [Shop.Name Shop.ContactID Shop.Address].
  destruct (String.eqb_spec nm EmptyString) as [Hnm|Hnm];
    destruct (String.eqb_spec cid EmptyString) as [Hcid|Hcid];
    destruct (Address.Validate addr) as [err|];
    (split; [split; [try discriminate; intros _; repeat split; assumption
                    |intros (H1 & H2 & H3); try reflexivity; try contradiction;
                     try discriminate]
            |repeat split; intros; try reflexivity; try contradiction]).
Qed.

(** [Validate] of a location, whichever its variant, accepts it exactly
    when its accountId is not empty, its locationType field is the tag of
    its variant and its shape block is valid.  An empty accountId is
    reported first; then a locationType that is not the tag of the
    variant, with the name of the variant and the offending value; then
    the error of the shape block, as it is. *)
Theorem Location_Validate_accepts_exactly (location : Location) :
  (Validate location = None <->
   GetAccountID location <> EmptyString /\
   GetLocationType location = variant_tag location /\
   shape_Validate location = None) /\
  (GetAccountID location = EmptyString ->
   Validate location = Some (errorString "accountId is required")) /\
  (GetAccountID location <> EmptyString ->
   GetLocationType location <> variant_tag location ->
   Validate location
   = Some (fmtErrorS ("invalid locationType for "
                        ++ typename (variant_tag location) ++ ": ")
             (GetLocationType location))) /\
  (GetAccountID location <> EmptyString ->
   GetLocationType location = variant_tag location ->
   Validate location = shape_Validate location).
Proof.
  destruct location as [[b a]|[b c]|[b s]];
    unfold Validate, AddressLocation.Validate, CoordinatesLocation.Validate,
      ShopLocation.Validate, GetAccountID, GetLocationType, shape_Validate;
    cbn [base variant_tag AddressLocation.Base AddressLocation.Address
           CoordinatesLocation.Base CoordinatesLocation.Coordinates
           ShopLocation.Base ShopLocation.Shop];
    match goal with
    | |- context [String.eqb (LocationBase.LocationType b) ?t] =>
        destruct (String.eqb_spec (LocationBase.LocationType b) t) as [Ht|Ht]
    end;
    match goal with
    | |- context [Address.Validate ?x] => destruct (Address.Validate x) as [err|]
    | |- context [Coordinates.Validate ?x] => destruct (Coordinates.Validate x) as [err|]
    | |- context [Shop.Validate ?x] => destruct (Shop.Validate x) as [err|]
    end;
    destruct (String.eqb_spec (LocationBase.AccountID b) EmptyString) as [Hacc|Hacc];
    cbn [negb];
    (split; [split; [try discriminate; intros _; repeat split; assumption
                    |intros (H1 & H2 & H3); try reflexivity; try contradiction;
                     try discriminate]
            |repeat split; intros; try reflexivity; try contradiction]).
Qed.

End Validation.

(** ** Not-a-number coordinates *)

Section NotANumber.
Context {lib : Libraries}.

Lemma SFcompare_refl (a : spec_float) : a <> S754_nan -> SFcompare a a = Some Eq.
Proof.
  destruct a as [s|s| |s m e]; simpl; intros H; try congruence.
  - destruct s; reflexivity.
  - destruct s; rewrite Z.compare_refl, Pos.compare_cont_refl; reflexivity.
Qed.

Lemma is_nan_Prim2SF (x : float) : PrimFloat.is_nan x = true -> Prim2SF x = S754_nan.
Proof.
  unfold PrimFloat.is_nan. rewrite FloatAxioms.eqb_spec. unfold SFeqb.
  destruct (Prim2SF x) eqn:E; intros H; try reflexivity;
    rewrite SFcompare_refl in H by discriminate; discriminate H.
Qed.

(** Every ordered comparison with a NaN is false. *)
Lemma nan_unordered (x y : float) :
  PrimFloat.is_nan x = true ->
  F64.lt x y = false /\ F64.gt x y = false.
Proof.
  intros H%is_nan_Prim2SF. unfold F64.lt, F64.gt. rewrite !ltb_spec, H.
  unfold SFltb. split; [reflexivity|]. destruct (Prim2SF y); reflexivity.
Qed.

(** [Coordinates.Validate] does not reject a NaN: its checks are ordered
    comparisons, which are all false on a NaN.  A latitude, a longitude or
    an accuracy that is NaN passes, so a coordinates location with a NaN
    latitude passes [Validate]; [json.Marshal] then refuses that location
    with an UnsupportedValueError. *)
Theorem Coordinates_Validate_accepts_NaN (b : LocationBase.t) (c : Coordinates.t)
    (nan : float) :
  coordinates_in_bounds c ->
  PrimFloat.is_nan nan = true ->
  Coordinates.Validate (with_Latitude nan c) = None /\
  Coordinates.Validate (with_Longitude nan c) = None /\
  Coordinates.Validate (with_Accuracy (Some nan) c) = None /\
  (LocationBase.AccountID b <> EmptyString ->
   LocationBase.LocationType b = LocationTypeCoordinates ->
   Validate (coordinates_location b (with_Latitude nan c)) = None) /\
  (forall members,
     encode_base b = Ok members ->
     MarshalLocation (coordinates_location b (with_Latitude nan c))
     = Err (UnsupportedValueError nan)) /\
  message (UnsupportedValueError nan) = "json: unsupported value: " ++ fmt_g nan.
Proof.
  intros Hc Hnan.
  pose proof Hc as (Hlat1 & Hlat2 & Hlon1 & Hlon2 & Hacc).
  assert (Hu : forall y, F64.lt nan y = false /\ F64.gt nan y = false)
    by (intros y; now apply nan_unordered).
  assert (Hbounds : Coordinates.Validate c = None)
    by now apply Coordinates_Validate_in_bounds.
  assert (H1 : Coordinates.Validate (with_Latitude nan c) = None).
  { unfold Coordinates.Validate, with_Latitude; simpl.
    rewrite (proj1 (Hu _)), (proj2 (Hu _)).
    rewrite (le_not_lt _ _ Hlon1), (le_not_gt _ _ Hlon2). simpl.
    destruct (Coordinates.Accuracy c) as [acc|]; [|reflexivity].
    now rewrite (le_not_lt _ _ Hacc). }
  split; [exact H1|]. split; [|split; [|split; [|split]]].
  - unfold Coordinates.Validate, with_Longitude; simpl.
    rewrite (le_not_lt _ _ Hlat1), (le_not_gt _ _ Hlat2).
    rewrite (proj1 (Hu _)), (proj2 (Hu _)). simpl.
    destruct (Coordinates.Accuracy c) as [acc|]; [|reflexivity].
    now rewrite (le_not_lt _ _ Hacc).
  - unfold Coordinates.Validate, with_Accuracy; simpl.
    rewrite (le_not_lt _ _ Hlat1), (le_not_gt _ _ Hlat2).
    rewrite (le_not_lt _ _ Hlon1), (le_not_gt _ _ Hlon2). simpl.
    now rewrite (proj1 (Hu _)).
  - intros Hb Ht. unfold coordinates_location. simpl.
    unfold CoordinatesLocation.Validate. simpl.
    apply String.eqb_neq in Hb. rewrite Hb, Ht. exact H1.
  - intros members Hm. unfold MarshalLocation, Marshal, encode_Location.
    unfold coordinates_location. cbn [base CoordinatesLocation.Base].
    rewrite Hm. cbn [bind CoordinatesLocation.Coordinates].
    unfold encode_Coordinates, with_Latitude. cbn [Coordinates.Latitude].
    unfold encode_float at 1. unfold F64.is_nan_or_inf. rewrite Hnan. reflexivity.
  - reflexivity.
Qed.

End NotANumber.

(** ** Records and locations *)

Section Records.

(** [toLocationRecord] succeeds exactly for the address and coordinates
    variants.  The record it builds has the location identifier as PK and
    the account identifier as SK and as accountId, and [toLocation] gives
    the location back when the locationType field of the location is the
    tag of its variant; when it is not, [toLocation] fails on the
    record. *)
Theorem toLocation_inverts_toLocationRecord (location : Location)
    (locationID : string) :
  (variant_tag location <> LocationTypeShop <->
   exists record, toLocationRecord location locationID = Ok record) /\
  (forall record,
     toLocationRecord location locationID = Ok record ->
     locationRecord.PK record = locationID /\
     locationRecord.SK record = GetAccountID location /\
     locationRecord.AccountID record = GetAccountID location /\
     (GetLocationType location = variant_tag location ->
      toLocation record = Ok location) /\
     (GetLocationType location <> variant_tag location ->
      exists e, toLocation record = Err e)).
Proof.
  split.
  - destruct location as [l|l|l]; cbn [variant_tag toLocationRecord]; split;
      try (intros _; eexists; reflexivity); try discriminate.
    + intros H. now contradiction H.
    + intros [record H]. discriminate H.
  - intros record Hr.
    destruct location as [[[acc t attrs] a]|[[acc t attrs] c]|l];
      cbn in Hr; try discriminate; injection Hr as <-;
      unfold GetLocationType, GetAccountID, toLocation;
      cbn [base variant_tag AddressLocation.Base CoordinatesLocation.Base
             LocationBase.AccountID LocationBase.LocationType
             LocationBase.ExtendedAttributes
             locationRecord.PK locationRecord.SK locationRecord.AccountID
             locationRecord.LocationType locationRecord.ExtendedAttributes
             locationRecord.Address locationRecord.Coordinates];
      (split; [reflexivity|]); (split; [reflexivity|]); (split; [reflexivity|]);
      split.
    + intros ->. reflexivity.
    + intros Ht. apply String.eqb_neq in Ht. rewrite Ht.
      destruct (String.eqb t LocationTypeCoordinates); eexists; reflexivity.
    + intros ->. reflexivity.
    + intros Ht. apply String.eqb_neq in Ht. rewrite Ht.
      destruct (String.eqb t LocationTypeAddress); eexists; reflexivity.
Qed.

End Records.

(** ** Cursors and pages *)

Section Pagination.
Context {lib : Libraries} {unmarshaler : Unmarshaler}.

(** [lastEvaluatedKeyToCursor] inverts [cursorToLastEvaluatedKey], nil
    included.  In the other direction a key is rebuilt from its cursor with
    its PK, SK and accountId only, each as a string: a key that holds just
    these three strings comes back unchanged, any other attribute is
    dropped, each of the three that is a string is kept, and each of the
    three that is absent or not a string comes back as the empty string. *)
Theorem cursor_key_round_trip :
  (forall cursor : option paginationCursor.t,
     lastEvaluatedKeyToCursor (cursorToLastEvaluatedKey cursor) = cursor) /\
  lastEvaluatedKeyToCursor None = None /\
  (forall lek : item,
     cursorToLastEvaluatedKey (lastEvaluatedKeyToCursor (Some lek))
     = Some (resume_key lek)) /\
  (forall cursor : paginationCursor.t,
     forall key, cursorToLastEvaluatedKey (Some cursor) = Some key ->
     resume_key key = key) /\
  (forall (lek : item) (name : string) (v : AttributeValue),
     name <> "PK" -> name <> "SK" -> name <> "accountId" ->
     resume_key (<[name := v]> lek) = resume_key lek /\
     resume_key lek !! name = None) /\
  (forall lek : item,
     lek !! "PK" = None ->
     resume_key lek !! "PK" = Some (AttributeValueMemberS EmptyString)) /\
  (forall (lek : item) (name : string),
     name = "PK" \/ name = "SK" \/ name = "accountId" ->
     (forall v, lek !! name = Some (AttributeValueMemberS v) ->
                resume_key lek !! name = Some (AttributeValueMemberS v)) /\
     ((forall v, lek !! name <> Some (AttributeValueMemberS v)) ->
      resume_key lek !! name = Some (AttributeValueMemberS EmptyString))).
Proof.
  split; [|split; [|split; [|split; [|split; [|split]]]]].
  - intros [[pk sk acc]|]; reflexivity.
  - reflexivity.
  - reflexivity.
  - intros [pk sk acc] key [= <-]. reflexivity.
  - intros lek name v H1 H2 H3. split.
    + unfold resume_key, string_attribute.
      now rewrite !lookup_insert_ne by congruence.
    + unfold resume_key. now rewrite !lookup_insert_ne by congruence.
  - intros lek H. unfold resume_key, string_attribute. rewrite H.
    apply lookup_insert_eq.
  - intros lek name Hname.
    assert (Hkey : resume_key lek !! name
                   = Some (AttributeValueMemberS (string_attribute lek name))).
    { unfold resume_key. destruct Hname as [-> | [-> | ->]].
      - apply lookup_insert_eq.
      - rewrite lookup_insert_ne by discriminate. apply lookup_insert_eq.
      - rewrite !lookup_insert_ne by discriminate. apply lookup_insert_eq. }
    rewrite Hkey. unfold string_attribute. split.
    + intros v ->. reflexivity.
    + intros Hno. destruct (lek !! name) as [[]|]; try reflexivity.
      now edestruct Hno.
Qed.

Lemma List_records_query {S} (inner : DynamoDBClient S)
    (table_name gsi accountID : string) (options : option ListOptions.t)
    (sk : option item) (log : list QueryInput.t) (st : S) :
  let r := NewDynamoDBRepository (recording inner) table_name gsi in
  list_startKey options = Ok sk ->
  (List r accountID options (log, st)).2.1
  = (log ++ [list_input r accountID (list_limit r options) sk])%list.
Proof.
  intros r Hsk. unfold List. rewrite Hsk.
  change (Query (DynamoDBClient := client r))
    with (Query (DynamoDBClient := recording inner)).
  cbn [Query recording fst snd].
  destruct (Query (DynamoDBClient := inner) _ st) as [[out|e] st'];
    [|reflexivity].
  destruct (mapM_result list_item (QueryOutput.Items out)); [|reflexivity].
  destruct (QueryOutput.LastEvaluatedKey out); [|reflexivity].
  destruct (encodeCursor _); reflexivity.
Qed.

Lemma decodeCursor_encoded (c : paginationCursor.t) :
  json_round_trips (encode_cursor c) ->
  decodeCursor (Some (base64.EncodeToString (json_render (encode_cursor c))))
  = Ok (Some c).
Proof.
  intros [Hne Hscan]. unfold decodeCursor.
  destruct (String.eqb _ _) eqn:E.
  - apply String.eqb_eq, EncodeToString_empty in E. contradiction.
  - rewrite DecodeString_EncodeToString. unfold Unmarshal. rewrite Hscan.
    now rewrite decode_encode_cursor.
Qed.

(** When a query reports a last evaluated key, [List] returns a cursor,
    and a later call of [List] with that cursor, whatever its limit and
    the state of the store, sends a query whose ExclusiveStartKey is the
    PK, SK and accountId of that key: the listing resumes where the page
    ended.  The JSON library is assumed to read back the text it writes
    for the cursor. *)
Theorem List_cursor_resumes_at_last_key {S} (inner : DynamoDBClient S)
    (table_name gsi accountID : string) (options : option ListOptions.t)
    (sk : option item) (st st' : S) (out : QueryOutput.t) (lek : item)
    (locations : list Location) :
  let r := NewDynamoDBRepository (recording inner) table_name gsi in
  list_startKey options = Ok sk ->
  Query (DynamoDBClient := inner)
    (list_input r accountID (list_limit r options) sk) st = (Ok out, st') ->
  mapM_result list_item (QueryOutput.Items out) = Ok locations ->
  QueryOutput.LastEvaluatedKey out = Some lek ->
  json_round_trips
    (encode_cursor {| paginationCursor.PK := string_attribute lek "PK";
                      paginationCursor.SK := string_attribute lek "SK";
                      paginationCursor.AccountID := string_attribute lek "accountId" |}) ->
  exists s,
    List r accountID options ([], st)
    = (Ok {| ListResult.Locations := locations; ListResult.NextCursor := Some s |},
       ([list_input r accountID (list_limit r options) sk], st')) /\
    forall (limit : option Z) (log : list QueryInput.t) (st1 : S),
      list_startKey (resume_at limit s) = Ok (Some (resume_key lek)) /\
      (List r accountID (resume_at limit s) (log, st1)).2.1
      = (log ++ [list_input r accountID
                   (match limit with Some l => l | None => 20%Z end)
                   (Some (resume_key lek))])%list.
Proof.
  intros r Hsk Hq Hl Hlek Hrt.
  eexists. split.
  - unfold List. rewrite Hsk.
    change (Query (DynamoDBClient := client r))
      with (Query (DynamoDBClient := recording inner)).
    cbn [Query recording fst snd]. rewrite Hq, Hl, Hlek.
    cbn [lastEvaluatedKeyToCursor]. rewrite encodeCursor_Some. reflexivity.
  - intros limit log st1.
    assert (Hkey : list_startKey (resume_at limit
                      (base64.EncodeToString (json_render (encode_cursor
                         {| paginationCursor.PK := string_attribute lek "PK";
                            paginationCursor.SK := string_attribute lek "SK";
                            paginationCursor.AccountID :=
                              string_attribute lek "accountId" |}))))
                   = Ok (Some (resume_key lek))).
    { unfold list_startKey, resume_at. cbn [ListOptions.Cursor].
      rewrite (decodeCursor_encoded _ Hrt). reflexivity. }
    split; [exact Hkey|]. subst r.
    rewrite (List_records_query inner table_name gsi accountID _ _ log st1 Hkey).
    destruct limit; reflexivity.
Qed.

(** A cursor that is not valid base64, or whose bytes are not JSON, makes
    [List] fail before any query is sent: the state of the store is the
    one it was called with.  The error of the decoder is wrapped twice,
    by [decodeCursor] and by [List], so that the message of a cursor that
    is not base64 starts with the prefix "failed to decode cursor: "
    twice. *)
Theorem List_rejects_undecodable_cursor {S} (r : DynamoDBRepository S)
    (accountID : string) (limit : option Z) (cursor : string) (st : S) :
  cursor <> EmptyString ->
  (forall e,
     base64.DecodeString cursor = Err e ->
     List r accountID (resume_at limit cursor) st
     = (Err (wrapError "failed to decode cursor: "
               (wrapError "failed to decode cursor: " e)), st) /\
     message (wrapError "failed to decode cursor: "
                (wrapError "failed to decode cursor: " e))
     = "failed to decode cursor: failed to decode cursor: " ++ message e) /\
  (forall data msg offset,
     base64.DecodeString cursor = Ok data ->
     json_scan data = Malformed msg offset ->
     List r accountID (resume_at limit cursor) st
     = (Err (wrapError "failed to decode cursor: "
               (wrapError "failed to unmarshal cursor: "
                  (SyntaxError msg offset))), st)).
Proof.
  intros Hne. apply String.eqb_neq in Hne. split.
  - intros e He. split; [|reflexivity].
    unfold List, list_startKey, resume_at, decodeCursor.
    cbn [ListOptions.Cursor]. rewrite Hne, He. reflexivity.
  - intros data msg offset Hd Hs.
    unfold List, list_startKey, resume_at, decodeCursor.
    cbn [ListOptions.Cursor]. rewrite Hne, Hd.
    rewrite (Unmarshal_Malformed _ _ _ _ _ Hs). reflexivity.
Qed.

(** [List] converts the items of the page one by one, in the order of the
    page: when every item is read as a record that [toLocation] accepts,
    the locations returned are those of the items, in that order; when
    one item is not, [List] returns an error and no location at all.  A
    record of type shop is such an item. *)
Theorem List_converts_every_item {S} (r : DynamoDBRepository S)
    (accountID : string) (options : option ListOptions.t) (sk : option item)
    (st st' : S) (out : QueryOutput.t) :
  list_startKey options = Ok sk ->
  Query (DynamoDBClient := client r)
    (list_input r accountID (list_limit r options) sk) st = (Ok out, st') ->
  (forall locations,
     Forall2 (fun it location =>
                exists record, attributevalue_UnmarshalMap it = Ok record /\
                               toLocation record = Ok location)
       (QueryOutput.Items out) locations ->
     exists res,
       List r accountID options st = (Ok res, st') /\
       ListResult.Locations res = locations) /\
  (forall it e,
     it ∈ QueryOutput.Items out -> list_item it = Err e ->
     exists e', List r accountID options st = (Err e', st')) /\
  (forall it record,
     attributevalue_UnmarshalMap it = Ok record ->
     locationRecord.LocationType record = LocationTypeShop ->
     list_item it
     = Err (wrapError "failed to convert record to location: "
              (fmtErrorS "unknown location type: " LocationTypeShop))).
Proof.
  intros Hsk Hq. split; [|split].
  - intros locations Hall.
    assert (Hm : mapM_result list_item (QueryOutput.Items out) = Ok locations).
    { induction Hall as [|it location its locations (record & Hu & Ht) _ IH];
        [reflexivity|].
      cbn [mapM_result]. unfold list_item at 1. rewrite Hu, Ht.
      cbn [bind]. rewrite IH. reflexivity. }
    eexists. split; [apply (List_answer r _ _ _ _ _ _ _ Hsk Hq Hm)|reflexivity].
  - intros it e Hin He.
    assert (Hm : exists e', mapM_result list_item (QueryOutput.Items out) = Err e').
    { induction (QueryOutput.Items out) as [|it' its IH]; [inversion Hin|].
      cbn [mapM_result]. apply elem_of_cons in Hin as [<-|Hin].
      - rewrite He. eexists; reflexivity.
      - destruct (list_item it'); [|eexists; reflexivity].
        destruct (IH Hin) as [e' ->]. eexists; reflexivity. }
    destruct Hm as [e' Hm]. exists e'. unfold List. now rewrite Hsk, Hq, Hm.
  - intros it record Hu Ht. unfold list_item, toLocation. rewrite Hu, Ht.
    reflexivity.
Qed.

End Pagination.

(** ** The repository over the store: what the writes change *)

Section StoreWrites.
Context {lib : Libraries} {unmarshaler : Unmarshaler}.
Import memstore.

Lemma mem_PutItem_cases (input : PutItemInput.t) (tbl : table) (k : string * string) :
  primary_key (PutItemInput.Item input) = Some k ->
  (exists e, mem_PutItem input tbl = (Err e, tbl)) \/
  mem_PutItem input tbl = (Ok tt, <[k := PutItemInput.Item input]> tbl).
Proof.
  intros Hk. unfold mem_PutItem. rewrite Hk.
  destruct (eval_condition _ _ _) as [[]|e]; eauto.
Qed.

Lemma mem_DeleteItem_cases (input : DeleteItemInput.t) (tbl : table)
    (k : string * string) :
  primary_key (DeleteItemInput.Key input) = Some k ->
  (exists e, mem_DeleteItem input tbl = (Err e, tbl)) \/
  mem_DeleteItem input tbl = (Ok tt, delete k tbl).
Proof.
  intros Hk. unfold mem_DeleteItem. rewrite Hk.
  destruct (eval_condition _ _ _) as [[]|e]; eauto.
Qed.

Lemma Create_cases (table_name gsi uuid : string) (location : Location) (tbl : table) :
  (exists e, Create (store_repository table_name gsi) uuid location tbl = (Err e, tbl)) \/
  (exists record av,
     Validate location = None /\
     toLocationRecord location uuid = Ok record /\
     MarshalMap record = Ok av /\
     Create (store_repository table_name gsi) uuid location tbl
     = (Ok uuid, <[(uuid, GetAccountID location) := av]> tbl)).
Proof.
  unfold Create. destruct (Validate location) as [e|] eqn:Hv; [eauto|].
  destruct (toLocationRecord location uuid) as [record|e] eqn:Hr; [|eauto].
  destruct (MarshalMap_Ok record) as [av Hm]. rewrite Hm.
  pose proof (toLocationRecord_keys _ _ _ Hr) as (Hpk & Hsk & _).
  pose proof (MarshalMap_keys _ _ Hm) as [Hk _]. rewrite Hpk, Hsk in Hk.
  cbn [client store_repository NewDynamoDBRepository PutItem mem_client].
  destruct (mem_PutItem_cases
              (create_input (store_repository table_name gsi) av) tbl _ Hk)
    as [[e He]|Hok].
  - rewrite He.
    left. destruct (errors_As_ccf e); eauto.
  - rewrite Hok.
    right. exists record, av. auto.
Qed.

Lemma Update_cases (table_name gsi locationID : string) (location : Location)
    (tbl : table) :
  (exists e, Update (store_repository table_name gsi) location locationID tbl
             = (Some e, tbl)) \/
  (exists record av,
     Validate location = None /\
     toLocationRecord location locationID = Ok record /\
     MarshalMap record = Ok av /\
     Update (store_repository table_name gsi) location locationID tbl
     = (None, <[(locationID, GetAccountID location) := av]> tbl)).
Proof.
  unfold Update. destruct (Validate location) as [e|] eqn:Hv; [eauto|].
  destruct (toLocationRecord location locationID) as [record|e] eqn:Hr; [|eauto].
  destruct (MarshalMap_Ok record) as [av Hm]. rewrite Hm.
  pose proof (toLocationRecord_keys _ _ _ Hr) as (Hpk & Hsk & _).
  pose proof (MarshalMap_keys _ _ Hm) as [Hk _]. rewrite Hpk, Hsk in Hk.
  cbn [client store_repository NewDynamoDBRepository PutItem mem_client].
  destruct (mem_PutItem_cases
              (update_input (store_repository table_name gsi) av
                 (GetAccountID location)) tbl _ Hk)
    as [[e He]|Hok].
  - rewrite He.
    left. destruct (errors_As_ccf e); eauto.
  - rewrite Hok.
    right. exists record, av. auto.
Qed.

Lemma Delete_cases (table_name gsi accountID locationID : string) (tbl : table) :
  (exists e, Delete (store_repository table_name gsi) accountID locationID tbl
             = (Some e, tbl)) \/
  Delete (store_repository table_name gsi) accountID locationID tbl
  = (None, delete (locationID, accountID) tbl).
Proof.
  unfold Delete.
  cbn [client store_repository NewDynamoDBRepository DeleteItem mem_client].
  destruct (mem_DeleteItem_cases
              (delete_input (store_repository table_name gsi) accountID locationID)
              tbl _ (primary_key_record_key accountID locationID))
    as [[e He]|Hok].
  - rewrite He.
    left. destruct (errors_As_ccf e); eauto.
  - rewrite Hok. now right.
Qed.

(** On the store, a write of the repository changes at most the record
    under its own (locationId, accountId) key: every other key holds after
    [Create], [Update] or [Delete] what it held before, so a write made
    for one account never changes a record of another account; and a
    write that returns an error changes nothing at all. *)
Theorem writes_change_one_key (table_name gsi : string) (tbl : table) :
  (forall uuid location k,
     k <> (uuid, GetAccountID location) ->
     (Create (store_repository table_name gsi) uuid location tbl).2 !! k = tbl !! k) /\
  (forall location locationID k,
     k <> (locationID, GetAccountID location) ->
     (Update (store_repository table_name gsi) location locationID tbl).2 !! k
     = tbl !! k) /\
  (forall accountID locationID k,
     k <> (locationID, accountID) ->
     (Delete (store_repository table_name gsi) accountID locationID tbl).2 !! k
     = tbl !! k) /\
  (forall location locationID (other : string * string),
     other.2 <> GetAccountID location ->
     (Update (store_repository table_name gsi) location locationID tbl).2 !! other
     = tbl !! other) /\
  (forall accountID locationID (other : string * string),
     other.2 <> accountID ->
     (Delete (store_repository table_name gsi) accountID locationID tbl).2 !! other
     = tbl !! other) /\
  (forall uuid location e,
     (Create (store_repository table_name gsi) uuid location tbl).1 = Err e ->
     (Create (store_repository table_name gsi) uuid location tbl).2 = tbl) /\
  (forall location locationID e,
     (Update (store_repository table_name gsi) location locationID tbl).1 = Some e ->
     (Update (store_repository table_name gsi) location locationID tbl).2 = tbl) /\
  (forall accountID locationID e,
     (Delete (store_repository table_name gsi) accountID locationID tbl).1 = Some e ->
     (Delete (store_repository table_name gsi) accountID locationID tbl).2 = tbl).
Proof.
  assert (HU : forall location locationID k,
     k <> (locationID, GetAccountID location) ->
     (Update (store_repository table_name gsi) location locationID tbl).2 !! k
     = tbl !! k).
  { intros location locationID k Hk.
    destruct (Update_cases table_name gsi locationID location tbl)
      as [[e ->]|(record & av & _ & _ & _ & ->)]; [reflexivity|].
    cbn [snd]. now rewrite lookup_insert_ne. }
  assert (HD : forall accountID locationID k,
     k <> (locationID, accountID) ->
     (Delete (store_repository table_name gsi) accountID locationID tbl).2 !! k
     = tbl !! k).
  { intros accountID locationID k Hk.
    destruct (Delete_cases table_name gsi accountID locationID tbl)
      as [[e ->]| ->]; [reflexivity|].
    cbn [snd]. now rewrite lookup_delete_ne. }
  split; [|split; [exact HU|split; [exact HD|split; [|split; [|split; [|split]]]]]].
  - intros uuid location k Hk.
    destruct (Create_cases table_name gsi uuid location tbl)
      as [[e ->]|(record & av & _ & _ & _ & ->)]; [reflexivity|].
    cbn [snd]. now rewrite lookup_insert_ne.
  - intros location locationID [id acc] Hacc. apply HU. cbn in Hacc. congruence.
  - intros accountID locationID [id acc] Hacc. apply HD. cbn in Hacc. congruence.
  - intros uuid location e.
    destruct (Create_cases table_name gsi uuid location tbl)
      as [[e' ->]|(record & av & _ & _ & _ & ->)]; [reflexivity|discriminate].
  - intros location locationID e.
    destruct (Update_cases table_name gsi locationID location tbl)
      as [[e' ->]|(record & av & _ & _ & _ & ->)]; [reflexivity|discriminate].
  - intros accountID locationID e.
    destruct (Delete_cases table_name gsi accountID locationID tbl)
      as [[e' ->]| ->]; [reflexivity|discriminate].
Qed.

Lemma owned_by_key_well_formed (tbl : table) : owned_by_key tbl -> well_formed tbl.
Proof. intros H k it Hk. exact (proj1 (H k it Hk)). Qed.

Lemma owned_by_key_insert (tbl : table) (location : Location) (locationID : string)
    (record : locationRecord.t) (av : item) :
  owned_by_key tbl ->
  toLocationRecord location locationID = Ok record ->
  MarshalMap record = Ok av ->
  owned_by_key (<[(locationID, GetAccountID location) := av]> tbl).
Proof.
  intros Ho Hr Hm.
  pose proof (toLocationRecord_keys _ _ _ Hr) as (Hpk & Hsk & Hacc & _).
  pose proof (MarshalMap_keys _ _ Hm) as [Hk Ha]. rewrite Hpk, Hsk in Hk.
  rewrite Hacc in Ha.
  apply map_Forall_insert_2; [split; assumption|exact Ho].
Qed.

(** The repository keeps the store in the shape it writes: starting from
    a store in which every item lies under its own key and carries the
    account identifier of that key as its accountId, every [Create],
    [Update] and [Delete] leads to such a store again, whatever their
    arguments and outcome, and [Get] and [List] leave the store as it is.
    The empty store has that shape.  In such a store no record is foreign
    to the account of its key: [Update] and [Delete] return "location not
    found or access denied" exactly when there is no record under the
    (locationId, accountId) key. *)
Theorem repository_keeps_records_under_their_key (table_name gsi : string)
    (tbl : table) :
  owned_by_key tbl ->
  (forall uuid location,
     owned_by_key (Create (store_repository table_name gsi) uuid location tbl).2) /\
  (forall location locationID,
     owned_by_key (Update (store_repository table_name gsi) location locationID tbl).2) /\
  (forall accountID locationID,
     owned_by_key (Delete (store_repository table_name gsi) accountID locationID tbl).2) /\
  (forall accountID locationID,
     (Get (store_repository table_name gsi) accountID locationID tbl).2 = tbl) /\
  (forall accountID options,
     (List (store_repository table_name gsi) accountID options tbl).2 = tbl) /\
  (forall accountID locationID,
     (Delete (store_repository table_name gsi) accountID locationID tbl).1
     = Some (errorString "location not found or access denied")
     <-> tbl !! (locationID, accountID) = None) /\
  (forall location locationID record,
     Validate location = None ->
     toLocationRecord location locationID = Ok record ->
     ((Update (store_repository table_name gsi) location locationID tbl).1
      = Some (errorString "location not found or access denied")
      <-> tbl !! (locationID, GetAccountID location) = None)).
Proof.
  intros Ho. pose proof (owned_by_key_well_formed _ Ho) as Hwf.
  assert (Habsent : forall accountID locationID,
            absent_or_foreign tbl accountID locationID
            <-> tbl !! (locationID, accountID) = None).
  { intros accountID locationID. unfold absent_or_foreign.
    destruct (tbl !! (locationID, accountID)) as [it|] eqn:Hit; [|tauto].
    destruct (Ho _ _ Hit) as [_ Ha]. cbn in Ha. split; [congruence|discriminate]. }
  split; [|split; [|split; [|split; [|split; [|split]]]]].
  - intros uuid location.
    destruct (Create_cases table_name gsi uuid location tbl)
      as [[e ->]|(record & av & _ & Hr & Hm & ->)]; [exact Ho|].
    cbn [snd]. eapply owned_by_key_insert; eassumption.
  - intros location locationID.
    destruct (Update_cases table_name gsi locationID location tbl)
      as [[e ->]|(record & av & _ & Hr & Hm & ->)]; [exact Ho|].
    cbn [snd]. eapply owned_by_key_insert; eassumption.
  - intros accountID locationID.
    destruct (Delete_cases table_name gsi accountID locationID tbl)
      as [[e ->]| ->]; [exact Ho|].
    cbn [snd]. now apply map_Forall_delete.
  - intros accountID locationID. unfold Get.
    cbn [client store_repository NewDynamoDBRepository GetItem mem_client].
    unfold mem_GetItem, get_input. cbn [GetItemInput.Key].
    rewrite primary_key_record_key. cbn [GetItemOutput.Item].
    destruct (tbl !! (locationID, accountID)); [|reflexivity].
    destruct (attributevalue_UnmarshalMap _); reflexivity.
  - intros accountID options. unfold List.
    destruct (list_startKey options) as [sk|e]; [|reflexivity].
    cbn [client store_repository NewDynamoDBRepository Query mem_client].
    assert (Hq : forall input, (mem_Query input tbl).2 = tbl).
    { intros input. unfold mem_Query.
      destruct (QueryInput.KeyConditionExpression input),
        (QueryInput.ExpressionAttributeValues input); try reflexivity.
      destruct (negb _); [reflexivity|].
      destruct (_ !! ":accountId") as [[]|]; try reflexivity.
      destruct (QueryInput.Limit input); [|reflexivity].
      destruct (_ <=? _)%Z; reflexivity. }
    specialize (Hq (list_input (NewDynamoDBRepository mem_client table_name gsi)
                      accountID
                      (list_limit (NewDynamoDBRepository mem_client table_name gsi)
                         options) sk)).
    destruct (mem_Query _ tbl) as [[out|e] tbl']; cbn in Hq; subst tbl';
      [|reflexivity].
    destruct (mapM_result list_item _); [|reflexivity].
    destruct (QueryOutput.LastEvaluatedKey out); [|reflexivity].
    destruct (encodeCursor _); reflexivity.
  - intros accountID locationID. rewrite <- Habsent.
    unfold Delete.
    cbn [client store_repository NewDynamoDBRepository DeleteItem mem_client].
    destruct (mem_DeleteItem_delete (store_repository table_name gsi) tbl
                accountID locationID Hwf) as [Hfail Hok].
    destruct (absent_or_foreign_dec tbl accountID locationID) as [Ha|Ha].
    + rewrite (Hfail Ha). cbn. tauto.
    + rewrite (Hok Ha). cbn. split; [discriminate|contradiction].
  - intros location locationID record Hv Hr. rewrite <- Habsent.
    destruct (MarshalMap_Ok record) as [av Hm].
    pose proof (toLocationRecord_keys _ _ _ Hr) as (Hpk & Hsk & _).
    pose proof (MarshalMap_keys _ _ Hm) as [Hk _]. rewrite Hpk, Hsk in Hk.
    destruct (mem_PutItem_update (store_repository table_name gsi) tbl av _ _ Hwf Hk)
      as [Hfail Hok].
    unfold Update. rewrite Hv, Hr, Hm.
    cbn [client store_repository NewDynamoDBRepository PutItem mem_client].
    destruct (absent_or_foreign_dec tbl (GetAccountID location) locationID) as [Ha|Ha].
    + rewrite (Hfail Ha). cbn. tauto.
    + rewrite (Hok Ha). cbn. split; [discriminate|contradiction].
Qed.

End StoreWrites.

(** ** The repository over the store: reading back what was written *)

Section StoreLifecycle.
Context {lib : Libraries} {unmarshaler : Unmarshaler}.
Import memstore.

Lemma toLocation_of_record (location : Location) (locationID : string)
    (record : locationRecord.t) :
  toLocationRecord location locationID = Ok record ->
  GetLocationType location = variant_tag location ->
  toLocation record = Ok location.
Proof.
  intros Hr Ht.
  destruct location as [[[acc t attrs] a]|[[acc t attrs] c]|l];
    cbn in Hr; try discriminate; injection Hr as <-;
    unfold GetLocationType in Ht; cbn in Ht; subst t; reflexivity.
Qed.

Lemma Get_stored (table_name gsi accountID locationID : string) (tbl : table)
    (av : item) :
  tbl !! (locationID, accountID) = Some av ->
  Get (store_repository table_name gsi) accountID locationID tbl
  = (match attributevalue_UnmarshalMap av with
     | Ok record => toLocation record
     | Err err => Err (wrapError "failed to unmarshal location: " err)
     end, tbl).
Proof.
  intros Hav. unfold Get.
  cbn [client store_repository NewDynamoDBRepository GetItem mem_client].
  unfold mem_GetItem, get_input. cbn [GetItemInput.Key].
  rewrite primary_key_record_key. cbn [GetItemOutput.Item]. rewrite Hav.
  destruct (attributevalue_UnmarshalMap av); reflexivity.
Qed.

Lemma Get_absent (table_name gsi accountID locationID : string) (tbl : table) :
  tbl !! (locationID, accountID) = None ->
  Get (store_repository table_name gsi) accountID locationID tbl
  = (Err (errorString "location not found"), tbl).
Proof.
  intros Hnone. unfold Get.
  cbn [client store_repository NewDynamoDBRepository GetItem mem_client].
  unfold mem_GetItem, get_input. cbn [GetItemInput.Key].
  rewrite primary_key_record_key. cbn [GetItemOutput.Item]. now rewrite Hnone.
Qed.

Lemma variant_of_record (location : Location) (locationID : string)
    (record : locationRecord.t) :
  toLocationRecord location locationID = Ok record ->
  forall l, location <> ofShopLocation l.
Proof. intros Hr l ->. discriminate Hr. Qed.

(** On the store, a valid location that [Create] writes under a fresh
    identifier is what [Get] returns for that identifier and the account of
    the location; for the same identifier and another account [Get] says
    "location not found"; and a second [Create] that draws the same
    identifier is refused with "location already exists" and changes
    nothing.  The SDK is assumed to read the written item back as the
    record it was made from. *)
Theorem Create_then_Get (table_name gsi uuid : string) (location : Location)
    (tbl : table) (record : locationRecord.t) (av : item) :
  well_formed tbl ->
  Validate location = None ->
  toLocationRecord location uuid = Ok record ->
  MarshalMap record = Ok av ->
  attributevalue_UnmarshalMap av = Ok record ->
  tbl !! (uuid, GetAccountID location) = None ->
  Create (store_repository table_name gsi) uuid location tbl
  = (Ok uuid, <[(uuid, GetAccountID location) := av]> tbl) /\
  Get (store_repository table_name gsi) (GetAccountID location) uuid
    (<[(uuid, GetAccountID location) := av]> tbl)
  = (Ok location, <[(uuid, GetAccountID location) := av]> tbl) /\
  (forall other,
     other <> GetAccountID location ->
     tbl !! (uuid, other) = None ->
     Get (store_repository table_name gsi) other uuid
       (<[(uuid, GetAccountID location) := av]> tbl)
     = (Err (errorString "location not found"),
        <[(uuid, GetAccountID location) := av]> tbl)) /\
  Create (store_repository table_name gsi) uuid location
    (<[(uuid, GetAccountID location) := av]> tbl)
  = (Err (errorString "location already exists"),
     <[(uuid, GetAccountID location) := av]> tbl).
Proof.
  intros Hwf Hv Hr Hm Hu Hnone.
  pose proof (toLocationRecord_keys _ _ _ Hr) as (Hpk & Hsk & _).
  pose proof (MarshalMap_keys _ _ Hm) as [Hk _]. rewrite Hpk, Hsk in Hk.
  pose proof (variant_of_record _ _ _ Hr) as Hshop.
  split; [|split; [|split]].
  - destruct (Create_on_store (store_repository table_name gsi) uuid location tbl
                eq_refl Hwf Hv Hshop) as (record' & av' & Hr' & Hm' & _ & Hok & _).
    rewrite Hr in Hr'. injection Hr' as <-. rewrite Hm in Hm'. injection Hm' as <-.
    exact (Hok Hnone).
  - rewrite (Get_stored _ _ _ _ _ av) by apply lookup_insert_eq.
    rewrite Hu. f_equal. apply (toLocation_of_record _ _ _ Hr).
    now apply Validate_tag.
  - intros other Hother Ho. apply Get_absent.
    rewrite lookup_insert_ne by congruence. exact Ho.
  - assert (Hwf' : well_formed (<[(uuid, GetAccountID location) := av]> tbl))
      by now apply well_formed_insert.
    destruct (Create_on_store (store_repository table_name gsi) uuid location _
                eq_refl Hwf' Hv Hshop) as (record' & av' & _ & _ & _ & _ & Hex).
    apply Hex. rewrite lookup_insert_eq. discriminate.
Qed.

(** On the store, [Update] of a record that exists under the
    (locationId, accountId) key and carries that account identifier
    replaces it, and [Get] then returns the new location instead of the
    old one.  The SDK is assumed to read the written item back as the
    record it was made from. *)
Theorem Update_then_Get (table_name gsi locationID : string) (location : Location)
    (tbl : table) (record : locationRecord.t) (av : item) :
  well_formed tbl ->
  Validate location = None ->
  toLocationRecord location locationID = Ok record ->
  MarshalMap record = Ok av ->
  attributevalue_UnmarshalMap av = Ok record ->
  ~ absent_or_foreign tbl (GetAccountID location) locationID ->
  Update (store_repository table_name gsi) location locationID tbl
  = (None, <[(locationID, GetAccountID location) := av]> tbl) /\
  Get (store_repository table_name gsi) (GetAccountID location) locationID
    (<[(locationID, GetAccountID location) := av]> tbl)
  = (Ok location, <[(locationID, GetAccountID location) := av]> tbl).
Proof.
  intros Hwf Hv Hr Hm Hu Hown.
  pose proof (toLocationRecord_keys _ _ _ Hr) as (Hpk & Hsk & _).
  pose proof (MarshalMap_keys _ _ Hm) as [Hk _]. rewrite Hpk, Hsk in Hk.
  split.
  - destruct (mem_PutItem_update (store_repository table_name gsi) tbl av _ _ Hwf Hk)
      as [_ Hok].
    unfold Update. rewrite Hv, Hr, Hm.
    cbn [client store_repository NewDynamoDBRepository PutItem mem_client].
    now rewrite (Hok Hown).
  - rewrite (Get_stored _ _ _ _ _ av) by apply lookup_insert_eq.
    rewrite Hu. f_equal. apply (toLocation_of_record _ _ _ Hr).
    now apply Validate_tag.
Qed.

(** On the store, [Delete] of a record that exists under the
    (locationId, accountId) key and carries that account identifier
    removes it: [Get] then says "location not found", and a second
    [Delete] says "location not found or access denied" and changes
    nothing. *)
Theorem Delete_then_Get (table_name gsi accountID locationID : string)
    (tbl : table) :
  well_formed tbl ->
  ~ absent_or_foreign tbl accountID locationID ->
  Delete (store_repository table_name gsi) accountID locationID tbl
  = (None, delete (locationID, accountID) tbl) /\
  Get (store_repository table_name gsi) accountID locationID
    (delete (locationID, accountID) tbl)
  = (Err (errorString "location not found"), delete (locationID, accountID) tbl) /\
  Delete (store_repository table_name gsi) accountID locationID
    (delete (locationID, accountID) tbl)
  = (Some (errorString "location not found or access denied"),
     delete (locationID, accountID) tbl).
Proof.
  intros Hwf Hown. split; [|split].
  - destruct (mem_DeleteItem_delete (store_repository table_name gsi) tbl
                accountID locationID Hwf) as [_ Hok].
    unfold Delete.
    cbn [client store_repository NewDynamoDBRepository DeleteItem mem_client].
    now rewrite (Hok Hown).
  - apply Get_absent. apply lookup_delete_eq.
  - assert (Hwf' : well_formed (delete (locationID, accountID) tbl))
      by now apply well_formed_delete.
    destruct (mem_DeleteItem_delete (store_repository table_name gsi) _
                accountID locationID Hwf') as [Hfail _].
    unfold Delete.
    cbn [client store_repository NewDynamoDBRepository DeleteItem mem_client].
    rewrite Hfail; [reflexivity|].
    unfold absent_or_foreign. now rewrite lookup_delete_eq.
Qed.

End StoreLifecycle.

(** ** The handler *)

Section HandlerFacts.
Context {lib : Libraries}.
Import handler.

Lemma one_of_true (s : string) (names : list string) :
  In s names -> one_of s names = true.
Proof.
  intros H. unfold one_of. apply existsb_exists. exists s.
  split; [exact H|apply String.eqb_refl].
Qed.

Lemma one_of_false (s : string) (names : list string) :
  ~ In s names -> one_of s names = false.
Proof.
  intros H. unfold one_of. apply not_true_is_false. intros Ht.
  apply existsb_exists in Ht as (x & Hx & He). apply String.eqb_eq in He.
  subst x. contradiction.
Qed.

(** [Handle] chooses the handler by the exact name of the field: each of
    the four create names goes to the create handler and each of the four
    update names to the update handler, with the arguments and the state
    unchanged; deleteLocation and listLocations go to their handlers; and
    any other name, a known name in another letter case included, gives
    the error "unknown field: <name>" without any handler being called. *)
Theorem Handle_routes_by_field {S} (repo : Repository S)
    (handleCreateLocation handleUpdateLocation handleDeleteLocation
       handleListLocations : string -> S -> result response * S)
    (event : AppSyncEvent.t) (st : S) :
  (In (AppSyncEvent.Field event) create_fields ->
   Handle handleCreateLocation handleUpdateLocation handleDeleteLocation
     handleListLocations event st
   = handleCreateLocation (AppSyncEvent.Arguments event) st) /\
  (In (AppSyncEvent.Field event) update_fields ->
   Handle handleCreateLocation handleUpdateLocation handleDeleteLocation
     handleListLocations event st
   = handleUpdateLocation (AppSyncEvent.Arguments event) st) /\
  (AppSyncEvent.Field event = "deleteLocation" ->
   Handle handleCreateLocation handleUpdateLocation handleDeleteLocation
     handleListLocations event st
   = handleDeleteLocation (AppSyncEvent.Arguments event) st) /\
  (AppSyncEvent.Field event = "listLocations" ->
   Handle handleCreateLocation handleUpdateLocation handleDeleteLocation
     handleListLocations event st
   = handleListLocations (AppSyncEvent.Arguments event) st) /\
  (~ In (AppSyncEvent.Field event) known_fields ->
   Handle handleCreateLocation handleUpdateLocation handleDeleteLocation
     handleListLocations event st
   = (Err (fmtErrorS "unknown field: " (AppSyncEvent.Field event)), st) /\
   message (fmtErrorS "unknown field: " (AppSyncEvent.Field event))
   = "unknown field: " ++ AppSyncEvent.Field event) /\
  ~ In "GetLocation" known_fields.
Proof.
  destruct event as [field arguments]. cbn [AppSyncEvent.Field AppSyncEvent.Arguments].
  split; [|split; [|split; [|split; [|split]]]].
  - intros H. unfold Handle. cbn [AppSyncEvent.Field AppSyncEvent.Arguments].
    change (one_of field _) with (one_of field create_fields) at 1.
    now rewrite (one_of_true _ _ H).
  - intros H. unfold Handle. cbn [AppSyncEvent.Field AppSyncEvent.Arguments].
    cbn in H. destruct H as [<-|[<-|[<-|[<-|[]]]]]; reflexivity.
  - intros ->. reflexivity.
  - intros ->. reflexivity.
  - intros H. split; [|reflexivity].
    unfold Handle. cbn [AppSyncEvent.Field AppSyncEvent.Arguments].
    change (one_of field ["createLocation"; "createAddressLocation";
                          "createCoordinatesLocation"; "createShopLocation"])
      with (one_of field create_fields).
    change (one_of field ["updateLocation"; "updateAddressLocation";
                          "updateCoordinatesLocation"; "updateShopLocation"])
      with (one_of field update_fields).
    rewrite (one_of_false field create_fields), (one_of_false field update_fields).
    + assert (Hne : forall name, In name known_fields -> String.eqb field name = false).
      { intros name Hin. apply String.eqb_neq. intros ->. contradiction. }
      rewrite !Hne; [reflexivity| | |]; cbn; tauto.
    + intros Hin. apply H. unfold known_fields. apply in_or_app. right.
      apply in_or_app. right. apply in_or_app. now left.
    + intros Hin. apply H. unfold known_fields. apply in_or_app. now left.
  - cbn. intros H.
    repeat (destruct H as [H|H]; [discriminate H|]). exact H.
Qed.

End HandlerFacts.

(** ** The handlers of deleteLocation and getLocation *)

Section DeleteAndGet.
Context {lib : Libraries} {unmarshaler : Unmarshaler}.
Import handler appsync memstore.

Lemma Handle_deleteLocation {S} (repo : Repository S)
    (handleCreateLocation handleUpdateLocation handleListLocations
       : string -> S -> result response * S)
    (event : AppSyncEvent.t) (st : S) :
  AppSyncEvent.Field event = "deleteLocation" ->
  Handle handleCreateLocation handleUpdateLocation deleteLocation
    handleListLocations event st
  = deleteLocation (AppSyncEvent.Arguments event) st.
Proof. destruct event as [field arguments]. cbn. intros ->. reflexivity. Qed.

Lemma Handle_getLocation {S} (repo : Repository S)
    (handleCreateLocation handleUpdateLocation handleDeleteLocation
       handleListLocations : string -> S -> result response * S)
    (event : AppSyncEvent.t) (st : S) :
  AppSyncEvent.Field event = "getLocation" ->
  Handle handleCreateLocation handleUpdateLocation handleDeleteLocation
    handleListLocations event st
  = match handleGetLocation (AppSyncEvent.Arguments event) st with
    | (Ok m, st') => (Ok (ofMap m), st')
    | (Err err, st') => (Err err, st')
    end.
Proof. destruct event as [field arguments]. cbn. intros ->. reflexivity. Qed.

(** For a deleteLocation event, [Handle] answers [true] exactly when the
    repository deleted the record; an error of the repository comes back
    under the prefix "failed to delete location: ", and arguments that are
    not decodable come back under "failed to unmarshal arguments: "
    without the repository being called.  The handler does not check that
    accountId and locationId are given: for an arguments object without
    members it calls the repository with two empty strings. *)
Theorem deleteLocation_outcomes {S} (repo : Repository S)
    (handleCreateLocation handleUpdateLocation handleListLocations
       : string -> S -> result response * S)
    (event : AppSyncEvent.t) (st : S) :
  AppSyncEvent.Field event = "deleteLocation" ->
  (forall e,
     Unmarshal decode_DeleteLocationArguments (AppSyncEvent.Arguments event)
       DeleteLocationArguments.zero = Err e ->
     Handle handleCreateLocation handleUpdateLocation deleteLocation
       handleListLocations event st
     = (Err (wrapError "failed to unmarshal arguments: " e), st)) /\
  (forall args st',
     Unmarshal decode_DeleteLocationArguments (AppSyncEvent.Arguments event)
       DeleteLocationArguments.zero = Ok args ->
     Delete (DeleteLocationArguments.AccountID args)
       (DeleteLocationArguments.LocationID args) st = (None, st') ->
     Handle handleCreateLocation handleUpdateLocation deleteLocation
       handleListLocations event st
     = (Ok (ofBool true), st')) /\
  (forall args e st',
     Unmarshal decode_DeleteLocationArguments (AppSyncEvent.Arguments event)
       DeleteLocationArguments.zero = Ok args ->
     Delete (DeleteLocationArguments.AccountID args)
       (DeleteLocationArguments.LocationID args) st = (Some e, st') ->
     Handle handleCreateLocation handleUpdateLocation deleteLocation
       handleListLocations event st
     = (Err (wrapError "failed to delete location: " e), st') /\
     message (wrapError "failed to delete location: " e)
     = "failed to delete location: " ++ message e) /\
  (json_scan (AppSyncEvent.Arguments event) = Document (JObject []) ->
   Handle handleCreateLocation handleUpdateLocation deleteLocation
     handleListLocations event st
   = match Delete EmptyString EmptyString st with
     | (None, st') => (Ok (ofBool true), st')
     | (Some e, st') => (Err (wrapError "failed to delete location: " e), st')
     end).
Proof.
  intros Hfield. rewrite (Handle_deleteLocation _ _ _ _ _ _ Hfield).
  unfold deleteLocation, handleDeleteLocation.
  split; [|split; [|split]].
  - intros e ->. reflexivity.
  - intros args st' -> ->. reflexivity.
  - intros args e st' -> ->. split; reflexivity.
  - intros Hs. rewrite (Unmarshal_Document _ _ _ _ Hs).
    cbn [decode_DeleteLocationArguments decode_struct foldM_result
           DeleteLocationArguments.zero DeleteLocationArguments.AccountID
           DeleteLocationArguments.LocationID].
    destruct (Delete EmptyString EmptyString st) as [[e|] st']; reflexivity.
Qed.

Lemma absent_iff_no_record (tbl : table) (accountID locationID : string) :
  owned_by_key tbl ->
  absent_or_foreign tbl accountID locationID <-> tbl !! (locationID, accountID) = None.
Proof.
  intros Ho. unfold absent_or_foreign.
  destruct (tbl !! (locationID, accountID)) as [it|] eqn:Hit; [|tauto].
  destruct (Ho _ _ Hit) as [_ Ha]. cbn in Ha. split; [congruence|discriminate].
Qed.

(** The handler over the repository over the store: a deleteLocation
    event for a key that holds no record is answered with the error
    "failed to delete location: location not found or access denied" and
    the store is unchanged; for a key that holds a record the answer is
    [true] and exactly that record is gone. *)
Theorem deleteLocation_on_store (table_name gsi uuid : string)
    (handleCreateLocation handleUpdateLocation handleListLocations
       : string -> table -> result response * table)
    (event : AppSyncEvent.t) (args : DeleteLocationArguments.t) (tbl : table) :
  AppSyncEvent.Field event = "deleteLocation" ->
  Unmarshal decode_DeleteLocationArguments (AppSyncEvent.Arguments event)
    DeleteLocationArguments.zero = Ok args ->
  owned_by_key tbl ->
  (tbl !! (DeleteLocationArguments.LocationID args,
           DeleteLocationArguments.AccountID args) = None ->
   Handle (repo := as_Repository (store_repository table_name gsi) uuid)
     handleCreateLocation handleUpdateLocation
     (deleteLocation (repo := as_Repository (store_repository table_name gsi) uuid))
     handleListLocations event tbl
   = (Err (wrapError "failed to delete location: "
             (errorString "location not found or access denied")), tbl) /\
   message (wrapError "failed to delete location: "
              (errorString "location not found or access denied"))
   = "failed to delete location: location not found or access denied") /\
  (tbl !! (DeleteLocationArguments.LocationID args,
           DeleteLocationArguments.AccountID args) <> None ->
   Handle (repo := as_Repository (store_repository table_name gsi) uuid)
     handleCreateLocation handleUpdateLocation
     (deleteLocation (repo := as_Repository (store_repository table_name gsi) uuid))
     handleListLocations event tbl
   = (Ok (ofBool true),
      delete (DeleteLocationArguments.LocationID args,
              DeleteLocationArguments.AccountID args) tbl)).
Proof.
  intros Hfield Hargs Ho.
  pose proof (owned_by_key_well_formed _ Ho) as Hwf.
  rewrite (Handle_deleteLocation _ _ _ _ _ _ Hfield).
  unfold deleteLocation, handleDeleteLocation. rewrite Hargs.
  cbn [Delete as_Repository]. unfold repository.Delete.
  cbn [client store_repository NewDynamoDBRepository DeleteItem mem_client].
  destruct (mem_DeleteItem_delete (store_repository table_name gsi) tbl
              (DeleteLocationArguments.AccountID args)
              (DeleteLocationArguments.LocationID args) Hwf) as [Hfail Hok].
  split.
  - intros Hnone. split; [|reflexivity].
    rewrite Hfail by now apply absent_iff_no_record. reflexivity.
  - intros Hsome. rewrite Hok; [reflexivity|].
    now rewrite absent_iff_no_record.
Qed.

(** For a getLocation event, arguments that are not decodable, an error
    of the repository and a location that [json.Marshal] refuses each end
    the call with the error under a prefix of its own: "failed to
    unmarshal arguments: ", "failed to get location: " and "failed to
    marshal location: ".  The state is the one the repository left. *)
Theorem getLocation_failures {S} (repo : Repository S)
    (handleCreateLocation handleUpdateLocation handleDeleteLocation
       handleListLocations : string -> S -> result response * S)
    (event : AppSyncEvent.t) (st : S) :
  AppSyncEvent.Field event = "getLocation" ->
  (forall e,
     Unmarshal decode_GetLocationArguments (AppSyncEvent.Arguments event)
       GetLocationArguments.zero = Err e ->
     Handle handleCreateLocation handleUpdateLocation handleDeleteLocation
       handleListLocations event st
     = (Err (wrapError "failed to unmarshal arguments: " e), st)) /\
  (forall args e st',
     Unmarshal decode_GetLocationArguments (AppSyncEvent.Arguments event)
       GetLocationArguments.zero = Ok args ->
     Get (GetLocationArguments.AccountID args)
       (GetLocationArguments.LocationID args) st = (Err e, st') ->
     Handle handleCreateLocation handleUpdateLocation handleDeleteLocation
       handleListLocations event st
     = (Err (wrapError "failed to get location: " e), st')) /\
  (forall args location e st',
     Unmarshal decode_GetLocationArguments (AppSyncEvent.Arguments event)
       GetLocationArguments.zero = Ok args ->
     Get (GetLocationArguments.AccountID args)
       (GetLocationArguments.LocationID args) st = (Ok location, st') ->
     MarshalLocation location = Err e ->
     Handle handleCreateLocation handleUpdateLocation handleDeleteLocation
       handleListLocations event st
     = (Err (wrapError "failed to marshal location: " e), st')).
Proof.
  intros Hfield. rewrite (Handle_getLocation _ _ _ _ _ _ _ Hfield).
  unfold handleGetLocation. split; [|split].
  - intros e ->. reflexivity.
  - intros args e st' -> ->. reflexivity.
  - intros args location e st' -> -> ->. reflexivity.
Qed.

Lemma toLocation_known_tag (record : locationRecord.t) (location : Location) :
  toLocation record = Ok location ->
  GetLocationType location = LocationTypeAddress \/
  GetLocationType location = LocationTypeCoordinates.
Proof.
  unfold toLocation.
  destruct (String.eqb_spec (locationRecord.LocationType record) LocationTypeAddress)
    as [Ha|Ha].
  { destruct (locationRecord.Address record); [|discriminate].
    intros [= <-]. left. exact Ha. }
  destruct (String.eqb_spec (locationRecord.LocationType record)
              LocationTypeCoordinates) as [Hc|Hc]; [|discriminate].
  destruct (locationRecord.Coordinates record); [|discriminate].
  intros [= <-]. right. exact Hc.
Qed.

(** The handler over the repository over the store: a getLocation event
    for a key whose item is read as a record that [toLocation] accepts is
    answered with the map of the JSON fields of that location, the
    requested locationId and a __typename that is AddressLocation or
    CoordinatesLocation, never ShopLocation; the store is unchanged.  For
    a key that holds no record the answer is the error "failed to get
    location: location not found".  The library is assumed to read back
    the numbers and the document it writes for the location. *)
Theorem getLocation_on_store (table_name gsi uuid : string)
    (handleCreateLocation handleUpdateLocation handleDeleteLocation
       handleListLocations : string -> table -> result response * table)
    (event : AppSyncEvent.t) (args : GetLocationArguments.t) (tbl : table) :
  AppSyncEvent.Field event = "getLocation" ->
  Unmarshal decode_GetLocationArguments (AppSyncEvent.Arguments event)
    GetLocationArguments.zero = Ok args ->
  (forall av record location,
     tbl !! (GetLocationArguments.LocationID args,
             GetLocationArguments.AccountID args) = Some av ->
     attributevalue_UnmarshalMap av = Ok record ->
     toLocation record = Ok location ->
     numbers_round_trip location ->
     (forall doc, encode_Location location = Ok doc ->
                  json_scan (json_render doc) = Document doc) ->
     Handle (repo := as_Repository (store_repository table_name gsi) uuid)
       handleCreateLocation handleUpdateLocation handleDeleteLocation
       handleListLocations event tbl
     = (Ok (ofMap
              (<["__typename" := GoString (typename (GetLocationType location))]>
                 (<["locationId" := GoString (GetLocationArguments.LocationID args)]>
                    (Location_fields location)))), tbl) /\
     (typename (GetLocationType location) = "AddressLocation" \/
      typename (GetLocationType location) = "CoordinatesLocation")) /\
  (tbl !! (GetLocationArguments.LocationID args,
           GetLocationArguments.AccountID args) = None ->
   Handle (repo := as_Repository (store_repository table_name gsi) uuid)
     handleCreateLocation handleUpdateLocation handleDeleteLocation
     handleListLocations event tbl
   = (Err (wrapError "failed to get location: "
             (errorString "location not found")), tbl)).
Proof.
  intros Hfield Hargs. rewrite (Handle_getLocation _ _ _ _ _ _ _ Hfield).
  unfold handleGetLocation. rewrite Hargs. cbn [Get as_Repository].
  split.
  - intros av record location Hav Hu Ht Hnum Hlib.
    pose proof (toLocation_known_tag _ _ Ht) as Htag.
    rewrite (Get_stored _ _ _ _ _ _ Hav), Hu, Ht.
    destruct (Location_decode_map location Hnum) as (doc & Hdoc & Hmap).
    unfold MarshalLocation, Marshal. rewrite Hdoc. cbn [bind].
    unfold Unmarshal. rewrite (Hlib doc Hdoc), Hmap.
    rewrite add_typename_known by (unfold known_tag; tauto).
    split; [reflexivity|]. destruct Htag as [-> | ->]; auto.
  - intros Hnone. now rewrite (Get_absent _ _ _ _ _ Hnone).
Qed.

End DeleteAndGet.

(** ** What the repository sends, and what it makes of the answers *)

Section ClientErrors.
Context {lib : Libraries} {unmarshaler : Unmarshaler}.

Ltac another_message :=
  let e := fresh "e" in
  let Hm := fresh "Hm" in
  intros (e & [= <-] & Hm); cbn in Hm; discriminate Hm.

(** [Create] answers "location already exists" exactly when its
    conditional put fails with a conditional-check failure; any other
    failure of the put comes back under the prefix "failed to create
    location: ", and a put that succeeds makes [Create] return the
    identifier it drew. *)
Theorem Create_already_exists_iff {S} (r : DynamoDBRepository S) (uuid : string)
    (location : Location) (st : S) :
  ((exists e, (Create r uuid location st).1 = Err e /\
              message e = "location already exists") <->
   (exists record av err,
      Validate location = None /\
      toLocationRecord location uuid = Ok record /\
      MarshalMap record = Ok av /\
      (PutItem (DynamoDBClient := client r) (create_input r av) st).1 = Err err /\
      errors_As_ccf err = true)) /\
  (forall record av err st',
     Validate location = None ->
     toLocationRecord location uuid = Ok record ->
     MarshalMap record = Ok av ->
     PutItem (DynamoDBClient := client r) (create_input r av) st = (Err err, st') ->
     errors_As_ccf err = false ->
     Create r uuid location st
     = (Err (wrapError "failed to create location: " err), st')) /\
  (forall record av st',
     Validate location = None ->
     toLocationRecord location uuid = Ok record ->
     MarshalMap record = Ok av ->
     PutItem (DynamoDBClient := client r) (create_input r av) st = (Ok tt, st') ->
     Create r uuid location st = (Ok uuid, st')).
Proof.
  split; [|split].
  - unfold Create.
    destruct (Validate location) as [verr|] eqn:Hv.
    { split; [another_message|]. intros (? & ? & ? & [=] & _). }
    destruct (toLocationRecord location uuid) as [record|cerr] eqn:Hr.
    2: { split; [another_message|]. intros (? & ? & ? & _ & [=] & _). }
    destruct (MarshalMap record) as [av|merr] eqn:Hm.
    2: { split; [another_message|].
         intros (? & ? & ? & _ & [= <-] & H & _). congruence. }
    destruct (PutItem _ st) as [[[]|err] st'] eqn:Hp.
    { split; [intros (e & [=] & _)|].
      intros (? & ? & ? & _ & [= <-] & Hm' & Hp' & _).
      rewrite Hm in Hm'. injection Hm' as <-. rewrite Hp in Hp'. discriminate. }
    destruct (errors_As_ccf err) eqn:Hccf.
    + split; [|intros _; eexists; split; reflexivity].
      intros _. exists record, av, err. rewrite Hp. auto.
    + split; [another_message|].
      intros (? & ? & ? & _ & [= <-] & Hm' & Hp' & Hccf').
      rewrite Hm in Hm'. injection Hm' as <-. rewrite Hp in Hp'.
      injection Hp' as <-. congruence.
  - intros record av err st' Hv Hr Hm Hp Hccf.
    unfold Create. now rewrite Hv, Hr, Hm, Hp, Hccf.
  - intros record av st' Hv Hr Hm Hp.
    unfold Create. now rewrite Hv, Hr, Hm, Hp.
Qed.

(** A location that [Validate] rejects never reaches the store: [Create]
    and [Update] return the error of [Validate] under the prefix
    "validation failed: " and leave the state as it is, whatever the
    client.  The same holds for a valid shop location in [Update], which
    is refused with "failed to convert location to record: unknown
    location type". *)
Theorem invalid_locations_never_reach_the_store {S} (r : DynamoDBRepository S)
    (location : Location) (st : S) :
  (forall err,
     Validate location = Some err ->
     (forall uuid,
        Create r uuid location st = (Err (wrapError "validation failed: " err), st)) /\
     (forall locationID,
        Update r location locationID st
        = (Some (wrapError "validation failed: " err), st)) /\
     message (wrapError "validation failed: " err)
     = "validation failed: " ++ message err) /\
  (Validate location = None ->
   variant_tag location = LocationTypeShop ->
   forall locationID,
     Update r location locationID st
     = (Some (wrapError "failed to convert location to record: "
                (errorString "unknown location type")), st)).
Proof.
  split.
  - intros err Hv. split; [|split].
    + intros uuid. unfold Create. now rewrite Hv.
    + intros locationID. unfold Update. now rewrite Hv.
    + reflexivity.
  - intros Hv Ht locationID. unfold Update. rewrite Hv.
    destruct location as [l|l|l]; try discriminate Ht. reflexivity.
Qed.

(** [List] sends the limit of the caller as it is, whatever its value:
    zero and negative limits are passed on to the store, and only an
    absent limit is replaced by the default of 20. *)
Theorem List_passes_the_limit_on {S} (inner : DynamoDBClient S)
    (table_name gsi accountID : string) (limit : Z) (st : S) :
  exists q,
    (List (NewDynamoDBRepository (recording inner) table_name gsi) accountID
       (with_limit limit) ([], st)).2.1 = [q] /\
    QueryInput.Limit q = Some limit /\
    QueryInput.IndexName q = Some gsi /\
    QueryInput.TableName q = table_name /\
    QueryInput.ExclusiveStartKey q = None /\
    QueryInput.ScanIndexForward q = Some true.
Proof.
  eexists. split.
  - apply (List_records_query inner table_name gsi accountID (with_limit limit)
             None [] st). reflexivity.
  - repeat split.
Qed.

End ClientErrors.

(** ** Encoding and decoding, empty attributes included *)

Section Normalisation.
Context {lib : Libraries}.

(** Decoding the JSON of any valid location gives the location back with
    an empty extendedAttributes map replaced by nil, and nothing else
    changed; the result is valid, has the same JSON, and is not changed
    by a second round.  The library is assumed to write and read back the
    numbers of the location and the document it wrote. *)
Theorem round_trip_up_to_empty_attributes (location : Location) :
  Validate location = None ->
  numbers_round_trip location ->
  exists doc,
    encode_Location location = Ok doc /\
    (json_scan (json_render doc) = Document doc ->
     UnmarshalLocation (json_render doc) = Ok (nil_if_empty location)) /\
    Validate (nil_if_empty location) = None /\
    encode_Location (nil_if_empty location) = Ok doc /\
    nil_if_empty (nil_if_empty location) = nil_if_empty location.
Proof.
  intros Hv Hnum.
  assert (Hv' : Validate (nil_if_empty location) = None)
    by now rewrite Validate_nil_if_empty.
  assert (Hattrs : attributes_nil_or_inhabited (nil_if_empty location)).
  { unfold attributes_nil_or_inhabited, nil_if_empty, GetExtendedAttributes.
    destruct location as [[[acc t [m|]] a]|[[acc t [m|]] c]|[[acc t [m|]] s]];
      cbn [base AddressLocation.Base CoordinatesLocation.Base ShopLocation.Base
             LocationBase.ExtendedAttributes]; try exact I;
      destruct (size m =? 0)%nat eqn:Hsize; cbn; try exact I;
      now apply Nat.eqb_neq. }
  assert (Hnum' : numbers_round_trip (nil_if_empty location)).
  { revert Hnum. unfold numbers_round_trip, nil_if_empty, GetExtendedAttributes.
    destruct location as [[[acc t [m|]] a]|[[acc t [m|]] c]|[[acc t [m|]] s]];
      cbn [base AddressLocation.Base CoordinatesLocation.Base ShopLocation.Base
             LocationBase.ExtendedAttributes]; try tauto;
      destruct (size m =? 0)%nat; cbn; tauto. }
  assert (Hidem : nil_if_empty (nil_if_empty location) = nil_if_empty location).
  { unfold nil_if_empty, GetExtendedAttributes.
    destruct location as [[[acc t [m|]] a]|[[acc t [m|]] c]|[[acc t [m|]] s]];
      cbn [base AddressLocation.Base CoordinatesLocation.Base ShopLocation.Base
             LocationBase.ExtendedAttributes]; try reflexivity;
      destruct (size m =? 0)%nat eqn:Hsize; cbn; try reflexivity;
      now rewrite Hsize. }
  destruct (Location_round_trip _ Hv' Hattrs Hnum') as (doc & He & Hd & Hback).
  exists doc. rewrite encode_Location_nil_if_empty in He.
  split; [exact He|]. split; [|split; [exact Hv'|split; [|exact Hidem]]].
  - intros Hscan. rewrite (UnmarshalLocation_Document _ _ Hscan), Hd.
    assert (Hk : known_tag (variant_tag (nil_if_empty location))).
    { destruct (nil_if_empty location); unfold known_tag; simpl; auto. }
    apply known_tag_eqb in Hk. rewrite Hk, Hback. reflexivity.
  - now rewrite encode_Location_nil_if_empty.
Qed.

End Normalisation.

(** ** The entry point *)

Section EntryPoint.
Context {lib : Libraries}.
Import main.

(** [getEnvVar] returns the value of the variable when it is set and not
    empty, and the default otherwise: a variable set to the empty string
    counts as not set.  With a default that is not empty the result is
    never empty. *)
Theorem getEnvVar_falls_back_when_unset_or_empty (env : environment)
    (key defaultValue : string) :
  (env !! key = None \/ env !! key = Some EmptyString ->
   getEnvVar env key defaultValue = defaultValue) /\
  (forall v, env !! key = Some v -> v <> EmptyString ->
             getEnvVar env key defaultValue = v) /\
  (defaultValue <> EmptyString -> getEnvVar env key defaultValue <> EmptyString) /\
  getEnvVar (<[key := EmptyString]> env) key defaultValue
  = getEnvVar (delete key env) key defaultValue.
Proof.
  unfold getEnvVar, Getenv. split; [|split; [|split]].
  - intros [-> | ->]; reflexivity.
  - intros v -> Hv. cbn [default from_option id]. apply String.eqb_neq in Hv. now rewrite Hv.
  - intros Hd. destruct (env !! key) as [v|]; cbn [default from_option id]; [|exact Hd].
    destruct (String.eqb_spec v EmptyString); cbn [negb]; assumption.
  - unfold environment in *. rewrite lookup_insert_eq, lookup_delete_eq. reflexivity.
Qed.

(** Without a table name in DYNAMODB_TABLE_NAME (the variable not set, or
    set to the empty string) every invocation fails with "initialization
    error: DYNAMODB_TABLE_NAME environment variable is required", before
    the AWS configuration is loaded and without the event being handled;
    one ERROR line is logged.  With a table name and a configuration that
    loads, the repository is made for that table and the answer of
    [Handle], a value or an error, is returned as it is, the error not
    wrapped; a configuration that does not load gives the error under the
    two prefixes "initialization error: failed to load AWS config: ". *)
Theorem lambdaHandler_requires_the_table_name {Config Client Repo St : Type}
    (LoadDefaultConfig : result Config) (NewFromConfig : Config -> Client)
    (NewDynamoDBRepository : Client -> string -> Repo)
    (Handle : Repo -> handler.AppSyncEvent.t -> St -> result handler.response * St)
    (env : environment) (event : handler.AppSyncEvent.t) (st : St)
    (log : list string) :
  (env !! "DYNAMODB_TABLE_NAME" = None \/
   env !! "DYNAMODB_TABLE_NAME" = Some EmptyString ->
   lambdaHandler LoadDefaultConfig NewFromConfig NewDynamoDBRepository Handle
     env event st log
   = (Err (wrapError "initialization error: "
             (errorString "DYNAMODB_TABLE_NAME environment variable is required")),
      st,
      (log ++ ["ERROR: Failed to initialize handler: DYNAMODB_TABLE_NAME environment variable is required"])%list) /\
   message (wrapError "initialization error: "
              (errorString "DYNAMODB_TABLE_NAME environment variable is required"))
   = "initialization error: DYNAMODB_TABLE_NAME environment variable is required") /\
  (forall name cfg,
     env !! "DYNAMODB_TABLE_NAME" = Some name -> name <> EmptyString ->
     LoadDefaultConfig = Ok cfg ->
     lambdaHandler LoadDefaultConfig NewFromConfig NewDynamoDBRepository Handle
       env event st log
     = match Handle (NewDynamoDBRepository (NewFromConfig cfg) name) event st with
       | (Ok result, st') =>
           (Ok result, st',
            (log ++ [("INFO: Processing AppSync event - Field: "
                        ++ handler.AppSyncEvent.Field event)%string;
                     "INFO: Successfully processed event"])%list)
       | (Err err, st') =>
           (Err err, st',
            (log ++ [("INFO: Processing AppSync event - Field: "
                        ++ handler.AppSyncEvent.Field event)%string;
                     ("ERROR: Failed to handle event: " ++ message err)%string])%list)
       end) /\
  (forall name err,
     env !! "DYNAMODB_TABLE_NAME" = Some name -> name <> EmptyString ->
     LoadDefaultConfig = Err err ->
     lambdaHandler LoadDefaultConfig NewFromConfig NewDynamoDBRepository Handle
       env event st log
     = (Err (wrapError "initialization error: "
               (wrapError "failed to load AWS config: " err)),
        st,
        (log ++ [("ERROR: Failed to initialize handler: failed to load AWS config: "
                    ++ message err)%string])%list)).
Proof.
  unfold lambdaHandler, initializeHandler, Getenv. split; [|split].
  - intros [-> | ->]; split; reflexivity.
  - intros name cfg -> Hname ->. cbn [default from_option id].
    apply String.eqb_neq in Hname. rewrite Hname.
    destruct (Handle _ event st) as [[result|err] st']; rewrite <- ?app_assoc;
      reflexivity.
  - intros name err -> Hname ->. cbn [default from_option id].
    apply String.eqb_neq in Hname. rewrite Hname. reflexivity.
Qed.

End EntryPoint.

(** ** The repository over the store: listings stay within the account *)

Section Isolation.
Context {lib : Libraries} {unmarshaler : Unmarshaler}.
Import memstore.

Lemma after_key_Forall (P : item -> Prop) (k : option (string * string))
    (l : list item) :
  Forall P l -> Forall P (after_key k l).
Proof.
  induction 1 as [|it l Hit Hl IH]; cbn [after_key]; [constructor|].
  destruct (bool_decide _); assumption.
Qed.

Lemma partition_Forall (accountID : string) (tbl : table) :
  Forall (fun it => in_partition accountID it = true) (partition accountID tbl).
Proof.
  unfold partition. apply Forall_forall. intros it Hin.
  apply list_elem_of_filter in Hin. tauto.
Qed.

Lemma mem_Query_within_partition {S} (r : DynamoDBRepository S)
    (accountID : string) (limit : Z) (sk : option item) (tbl tbl' : table)
    (out : QueryOutput.t) :
  mem_Query (list_input r accountID limit sk) tbl = (Ok out, tbl') ->
  Forall (fun it => in_partition accountID it = true) (QueryOutput.Items out).
Proof.
  unfold mem_Query, list_input.
  cbn [QueryInput.KeyConditionExpression QueryInput.ExpressionAttributeValues
         QueryInput.ExclusiveStartKey QueryInput.Limit].
  change (negb ("accountId = :accountId" =? "accountId = :accountId")%string)
    with false.
  cbn match. rewrite lookup_insert_eq.
  destruct (limit <=? 0)%Z; [discriminate|].
  intros [= <- _]. cbn [QueryOutput.Items].
  apply Forall_take. destruct sk as [k|].
  - apply after_key_Forall, partition_Forall.
  - apply partition_Forall.
Qed.

Lemma mapM_result_Forall2 {A B} (f : A -> result B) (l : list A) (l' : list B) :
  mapM_result f l = Ok l' -> Forall2 (fun x y => f x = Ok y) l l'.
Proof.
  revert l'. induction l as [|x l IH]; intros l'; cbn [mapM_result].
  - intros [= <-]. constructor.
  - destruct (f x) as [y|e] eqn:Hy; [|discriminate]. cbn [bind].
    destruct (mapM_result f l) as [ys|e]; [|discriminate]. cbn [bind].
    intros [= <-]. constructor; [exact Hy|]. now apply IH.
Qed.

Lemma toLocation_account (record : locationRecord.t) (location : Location) :
  toLocation record = Ok location ->
  GetAccountID location = locationRecord.AccountID record.
Proof.
  unfold toLocation.
  destruct (String.eqb _ LocationTypeAddress).
  { destruct (locationRecord.Address record); [|discriminate].
    intros [= <-]. reflexivity. }
  destruct (String.eqb _ LocationTypeCoordinates); [|discriminate].
  destruct (locationRecord.Coordinates record); [|discriminate].
  intros [= <-]. reflexivity.
Qed.

(** On the store, every location [List] returns belongs to the account it
    was called for, whatever the limit and the cursor, a cursor made for
    another account included, and the store is left as it is.  The SDK is
    assumed to read the accountId attribute of an item into the record. *)
Theorem List_stays_within_the_account (table_name gsi accountID : string)
    (options : option ListOptions.t) (tbl tbl' : table) (res : ListResult.t) :
  reads_accountId ->
  List (store_repository table_name gsi) accountID options tbl = (Ok res, tbl') ->
  Forall (fun location => GetAccountID location = accountID)
    (ListResult.Locations res) /\
  tbl' = tbl.
Proof.
  intros Hsdk. unfold List.
  destruct (list_startKey options) as [sk|e]; [|discriminate].
  cbn [client store_repository NewDynamoDBRepository Query mem_client].
  destruct (mem_Query _ tbl) as [[out|e] tbl0] eqn:Hq; [|discriminate].
  pose proof (mem_Query_within_partition _ _ _ _ _ _ _ Hq) as Hitems.
  assert (Htbl : tbl0 = tbl).
  { revert Hq. unfold mem_Query, list_input.
    cbn [QueryInput.KeyConditionExpression QueryInput.ExpressionAttributeValues
           QueryInput.ExclusiveStartKey QueryInput.Limit].
    change (negb ("accountId = :accountId" =? "accountId = :accountId")%string)
      with false.
    cbn match. rewrite lookup_insert_eq.
    destruct (_ <=? 0)%Z; [discriminate|]. now intros [= _ <-]. }
  subst tbl0.
  destruct (mapM_result list_item (QueryOutput.Items out)) as [locations|e] eqn:Hm;
    [|discriminate].
  apply mapM_result_Forall2 in Hm.
  assert (Hall : Forall (fun location => GetAccountID location = accountID) locations).
  { clear Hq. induction Hm as [|it location its locations Hit _ IH]; [constructor|].
    apply Forall_cons in Hitems as [Hp Hitems]. constructor; [|now apply IH].
    unfold list_item in Hit.
    destruct (attributevalue_UnmarshalMap it) as [record|e] eqn:Hu; [|discriminate].
    destruct (toLocation record) as [loc|e] eqn:Ht; [|discriminate].
    injection Hit as <-. rewrite (toLocation_account _ _ Ht).
    unfold in_partition in Hp.
    destruct (it !! "accountId") as [[a| | | | | |]|] eqn:Ha; try discriminate.
    apply String.eqb_eq in Hp. subst a. exact (Hsdk it record accountID Hu Ha). }
  destruct (QueryOutput.LastEvaluatedKey out).
  - destruct (encodeCursor _); [|discriminate].
    intros [= <- <-]. split; [exact Hall|reflexivity].
  - intros [= <- <-]. split; [exact Hall|reflexivity].
Qed.

End Isolation.

(** ** The handler of the file appsync.go *)

Section AppsyncGo.
Context {lib : Libraries}.
Import handler.

(** The handler of appsync.go differs from the later one in three ways.
    Once the arguments of a deleteLocation event are decoded it returns no
    error: a failure of the repository comes back as a response with
    success false and the message "Failed to delete location: <error>",
    a deletion as a response with success true.  A getLocation event is
    answered with the location of the repository itself, with no
    locationId and no __typename.  And only five field names are known:
    the names createAddressLocation, createCoordinatesLocation,
    createShopLocation and their update counterparts are unknown
    fields. *)
Theorem appsync_go_responses {S} (repo : Repository S)
    (handleCreateLocation handleUpdateLocation handleListLocations
       : string -> S -> result appsync_go.response * S)
    (event : AppSyncEvent.t) (st : S) :
  (AppSyncEvent.Field event = "deleteLocation" ->
   forall args,
     Unmarshal appsync.decode_DeleteLocationArguments (AppSyncEvent.Arguments event)
       appsync.DeleteLocationArguments.zero = Ok args ->
     (forall st',
        Delete (appsync.DeleteLocationArguments.AccountID args)
          (appsync.DeleteLocationArguments.LocationID args) st = (None, st') ->
        appsync_go.Handle handleCreateLocation handleUpdateLocation
          handleListLocations event st
        = (Ok (appsync_go.ofDeleteResponse
                 {| appsync_go.DeleteResponse.Success := true;
                    appsync_go.DeleteResponse.Message :=
                      "Location deleted successfully" |}), st')) /\
     (forall e st',
        Delete (appsync.DeleteLocationArguments.AccountID args)
          (appsync.DeleteLocationArguments.LocationID args) st = (Some e, st') ->
        appsync_go.Handle handleCreateLocation handleUpdateLocation
          handleListLocations event st
        = (Ok (appsync_go.ofDeleteResponse
                 {| appsync_go.DeleteResponse.Success := false;
                    appsync_go.DeleteResponse.Message :=
                      "Failed to delete location: " ++ message e |}), st')) /\
     (exists r st',
        appsync_go.Handle handleCreateLocation handleUpdateLocation
          handleListLocations event st
        = (Ok (appsync_go.ofDeleteResponse r), st'))) /\
  (AppSyncEvent.Field event = "getLocation" ->
   forall args location st',
     Unmarshal decode_GetLocationArguments (AppSyncEvent.Arguments event)
       GetLocationArguments.zero = Ok args ->
     Get (GetLocationArguments.AccountID args)
       (GetLocationArguments.LocationID args) st = (Ok location, st') ->
     appsync_go.Handle handleCreateLocation handleUpdateLocation
       handleListLocations event st
     = (Ok (appsync_go.ofLocation location), st')) /\
  (In (AppSyncEvent.Field event)
      ["createAddressLocation"; "createCoordinatesLocation"; "createShopLocation";
       "updateAddressLocation"; "updateCoordinatesLocation"; "updateShopLocation"] ->
   appsync_go.Handle handleCreateLocation handleUpdateLocation
     handleListLocations event st
   = (Err (fmtErrorS "unknown field: " (AppSyncEvent.Field event)), st)).
Proof.
  destruct event as [field arguments].
  cbn [AppSyncEvent.Field AppSyncEvent.Arguments].
  split; [|split].
  - intros -> args Hargs. unfold appsync_go.Handle.
    cbn [AppSyncEvent.Field AppSyncEvent.Arguments].
    change ("deleteLocation" =? "createLocation")%string with false.
    change ("deleteLocation" =? "getLocation")%string with false.
    change ("deleteLocation" =? "updateLocation")%string with false.
    change ("deleteLocation" =? "deleteLocation")%string with true.
    cbn match. unfold appsync_go.handleDeleteLocation. rewrite Hargs.
    split; [|split].
    + intros st' ->. reflexivity.
    + intros e st' ->. reflexivity.
    + destruct (Delete _ _ st) as [[e|] st']; eexists _, _; reflexivity.
  - intros -> args location st' Hargs Hget. unfold appsync_go.Handle.
    cbn [AppSyncEvent.Field AppSyncEvent.Arguments].
    change ("getLocation" =? "createLocation")%string with false.
    change ("getLocation" =? "getLocation")%string with true.
    cbn match. unfold appsync_go.handleGetLocation. now rewrite Hargs, Hget.
  - cbn [In]. intros [<-|[<-|[<-|[<-|[<-|[<-|[]]]]]]]; reflexivity.
Qed.

End AppsyncGo.

(** ** The further properties at sample values *)

Section MoreExamples.
#[local] Existing Instance reference.libraries.
#[local] Existing Instance reference.unmarshaler.
Import dynamodb memstore.

(** The reference SDK reads the item of [main_street] back as its record. *)
Lemma main_street_read_back :
  attributevalue_UnmarshalMap (stored main_street "loc-1")
  = Ok (record_of main_street "loc-1").
Proof. vm_compute. reflexivity. Qed.

(** The sample store has the shape the repository keeps. *)
Lemma a_store_owned : owned_by_key a_store.
Proof.
  apply map_Forall_insert_2; [|apply map_Forall_empty].
  split; vm_compute; reflexivity.
Qed.

(** The sample store holds a record of acc-12345 under loc-1. *)
Lemma a_store_holds_main_street : ~ absent_or_foreign a_store "acc-12345" "loc-1".
Proof. intros H. vm_compute in H. apply H. reflexivity. Qed.

(** The sample point with a NaN latitude. *)
Lemma Coordinates_Validate_accepts_NaN_witness :
  Coordinates.Validate (with_Latitude nan a_point) = None /\
  MarshalLocation
    (coordinates_location (base a_survey_point) (with_Latitude nan a_point))
  = Err (UnsupportedValueError nan).
Proof.
  assert (Hb : coordinates_in_bounds a_point).
  { unfold coordinates_in_bounds. simpl. repeat split; reflexivity. }
  assert (Hnan : PrimFloat.is_nan nan = true) by reflexivity.
  destruct (Coordinates_Validate_accepts_NaN (base a_survey_point) a_point nan
              Hb Hnan) as (H1 & _ & _ & _ & H5 & _).
  split; [exact H1|].
  destruct (encode_base (base a_survey_point)) as [members|e] eqn:He.
  - exact (H5 members eq_refl).
  - vm_compute in He. discriminate He.
Defined.

(** A listing whose one page ends at loc-1 of acc-12345. *)
Lemma List_cursor_resumes_at_last_key_witness :
  exists s,
    List (NewDynamoDBRepository (recording (scripted a_page)) "test-table" "test-gsi")
      "acc-12345" None ([], tt)
    = (Ok {| ListResult.Locations := []; ListResult.NextCursor := Some s |},
       ([list_input (NewDynamoDBRepository (recording (scripted a_page))
                       "test-table" "test-gsi") "acc-12345" 20 None], tt)) /\
    list_startKey (resume_at None s) = Ok (Some a_last_key).
Proof.
  assert (Hrt : json_round_trips
            (encode_cursor
               {| paginationCursor.PK := string_attribute a_last_key "PK";
                  paginationCursor.SK := string_attribute a_last_key "SK";
                  paginationCursor.AccountID :=
                    string_attribute a_last_key "accountId" |})).
  { split; [vm_compute; discriminate|vm_compute; reflexivity]. }
  destruct (List_cursor_resumes_at_last_key (scripted a_page) "test-table" "test-gsi"
              "acc-12345" None None tt tt a_page a_last_key []
              eq_refl eq_refl eq_refl eq_refl Hrt) as (s & Hl & Hnext).
  exists s. split; [exact Hl|]. exact (proj1 (Hnext None [] tt)).
Defined.

(** A cursor that is not base64. *)
Lemma List_rejects_undecodable_cursor_witness :
  List test_repository "acc-12345" (resume_at None "!") ∅
  = (Err (wrapError "failed to decode cursor: "
            (wrapError "failed to decode cursor: " (CorruptInputError 0))), ∅).
Proof.
  assert (Hne : "!" <> EmptyString) by discriminate.
  exact (proj1 (proj1 (List_rejects_undecodable_cursor test_repository "acc-12345"
                         None "!" ∅ Hne) (CorruptInputError 0) eq_refl)).
Defined.
(** A page that holds the item of [main_street]. *)
Lemma List_converts_every_item_witness :
  exists res,
    List (NewDynamoDBRepository (scripted a_full_page) "test-table" "test-gsi")
      "acc-12345" None tt = (Ok res, tt) /\
    ListResult.Locations res = [main_street].
Proof.
  apply (proj1 (List_converts_every_item
                  (NewDynamoDBRepository (scripted a_full_page) "test-table" "test-gsi")
                  "acc-12345" None None tt tt a_full_page eq_refl eq_refl)).
  constructor; [|constructor].
  exists (record_of main_street "loc-1").
  split; [exact main_street_read_back|reflexivity].
Defined.

(** A second location created in the sample store. *)
Lemma repository_keeps_records_under_their_key_witness :
  owned_by_key (Create (store_repository "test-table" "test-gsi") "loc-2"
                  elm_street a_store).2.
Proof.
  exact (proj1 (repository_keeps_records_under_their_key "test-table" "test-gsi"
                  a_store a_store_owned) "loc-2" elm_street).
Defined.

(** A location whose extendedAttributes map is allocated and empty,
    created in the empty store and read back with that map. *)
Lemma Create_then_Get_witness :
  Create (store_repository "test-table" "test-gsi") "loc-1"
    main_street_empty_attributes ∅
  = (Ok "loc-1",
     <[("loc-1", "acc-12345") := stored main_street_empty_attributes "loc-1"]> ∅) /\
  Get (store_repository "test-table" "test-gsi") "acc-12345" "loc-1"
    (<[("loc-1", "acc-12345") := stored main_street_empty_attributes "loc-1"]> ∅)
  = (Ok main_street_empty_attributes,
     <[("loc-1", "acc-12345") := stored main_street_empty_attributes "loc-1"]> ∅).
Proof.
  assert (Hwf : well_formed ∅) by apply map_Forall_empty.
  assert (Hv : Validate main_street_empty_attributes = None) by reflexivity.
  assert (Hr : toLocationRecord main_street_empty_attributes "loc-1"
               = Ok (record_of main_street_empty_attributes "loc-1")) by reflexivity.
  assert (Hm : MarshalMap (record_of main_street_empty_attributes "loc-1")
               = Ok (stored main_street_empty_attributes "loc-1")) by reflexivity.
  assert (Hu : attributevalue_UnmarshalMap (stored main_street_empty_attributes "loc-1")
               = Ok (record_of main_street_empty_attributes "loc-1"))
    by (vm_compute; reflexivity).
  destruct (Create_then_Get "test-table" "test-gsi" "loc-1"
              main_street_empty_attributes ∅
              (record_of main_street_empty_attributes "loc-1")
              (stored main_street_empty_attributes "loc-1")
              Hwf Hv Hr Hm Hu eq_refl) as (H1 & H2 & _).
  split; [exact H1|exact H2].
Defined.

(** The record of the sample store replaced by one whose
    extendedAttributes map is allocated and empty. *)
Lemma Update_then_Get_witness :
  Update (store_repository "test-table" "test-gsi") main_street_empty_attributes
    "loc-1" a_store
  = (None,
     <[("loc-1", "acc-12345") := stored main_street_empty_attributes "loc-1"]> a_store) /\
  Get (store_repository "test-table" "test-gsi") "acc-12345" "loc-1"
    (<[("loc-1", "acc-12345") := stored main_street_empty_attributes "loc-1"]> a_store)
  = (Ok main_street_empty_attributes,
     <[("loc-1", "acc-12345") := stored main_street_empty_attributes "loc-1"]> a_store).
Proof.
  assert (Hwf : well_formed a_store) by exact (owned_by_key_well_formed _ a_store_owned).
  assert (Hv : Validate main_street_empty_attributes = None) by reflexivity.
  assert (Hr : toLocationRecord main_street_empty_attributes "loc-1"
               = Ok (record_of main_street_empty_attributes "loc-1")) by reflexivity.
  assert (Hm : MarshalMap (record_of main_street_empty_attributes "loc-1")
               = Ok (stored main_street_empty_attributes "loc-1")) by reflexivity.
  assert (Hu : attributevalue_UnmarshalMap (stored main_street_empty_attributes "loc-1")
               = Ok (record_of main_street_empty_attributes "loc-1"))
    by (vm_compute; reflexivity).
  exact (Update_then_Get "test-table" "test-gsi" "loc-1" main_street_empty_attributes
           a_store (record_of main_street_empty_attributes "loc-1")
           (stored main_street_empty_attributes "loc-1")
           Hwf Hv Hr Hm Hu a_store_holds_main_street).
Defined.

(** The record of the sample store deleted. *)
Lemma Delete_then_Get_witness :
  Delete (store_repository "test-table" "test-gsi") "acc-12345" "loc-1" a_store
  = (None, delete ("loc-1", "acc-12345") a_store) /\
  Get (store_repository "test-table" "test-gsi") "acc-12345" "loc-1"
    (delete ("loc-1", "acc-12345") a_store)
  = (Err (errorString "location not found"), delete ("loc-1", "acc-12345") a_store).
Proof.
  assert (Hwf : well_formed a_store) by exact (owned_by_key_well_formed _ a_store_owned).
  destruct (Delete_then_Get "test-table" "test-gsi" "acc-12345" "loc-1" a_store
              Hwf a_store_holds_main_street) as (H1 & H2 & _).
  split; [exact H1|exact H2].
Defined.

(** A deleteLocation event against the test double. *)
Lemma deleteLocation_outcomes_witness :
  handler.Handle (repo := holding main_street) not_reached not_reached
    (appsync.deleteLocation (repo := holding main_street)) not_reached
    a_deleteLocation_event tt
  = (Ok (handler.ofBool true), tt).
Proof.
  assert (Hargs : Unmarshal appsync.decode_DeleteLocationArguments
                    (handler.AppSyncEvent.Arguments a_deleteLocation_event)
                    appsync.DeleteLocationArguments.zero
                  = Ok a_deleteLocation_arguments) by (vm_compute; reflexivity).
  exact (proj1 (proj2 (deleteLocation_outcomes (holding main_street)
                         not_reached not_reached not_reached
                         a_deleteLocation_event tt eq_refl))
           a_deleteLocation_arguments tt Hargs eq_refl).
Defined.

(** A deleteLocation event for the record of the sample store. *)
Lemma deleteLocation_on_store_witness :
  handler.Handle
    (repo := appsync.as_Repository (store_repository "test-table" "test-gsi") "loc-9")
    unused unused
    (appsync.deleteLocation
       (repo := appsync.as_Repository (store_repository "test-table" "test-gsi") "loc-9"))
    unused a_deleteLocation_event a_store
  = (Ok (handler.ofBool true), delete ("loc-1", "acc-12345") a_store).
Proof.
  assert (Hargs : Unmarshal appsync.decode_DeleteLocationArguments
                    (handler.AppSyncEvent.Arguments a_deleteLocation_event)
                    appsync.DeleteLocationArguments.zero
                  = Ok a_deleteLocation_arguments) by (vm_compute; reflexivity).
  apply (proj2 (deleteLocation_on_store "test-table" "test-gsi" "loc-9"
                  unused unused unused a_deleteLocation_event
                  a_deleteLocation_arguments a_store eq_refl Hargs a_store_owned)).
  vm_compute. discriminate.
Defined.

(** A getLocation event against the empty store. *)
Lemma getLocation_failures_witness :
  handler.Handle
    (repo := appsync.as_Repository (store_repository "test-table" "test-gsi") "loc-9")
    unused unused unused unused a_getLocation_event ∅
  = (Err (wrapError "failed to get location: " (errorString "location not found")), ∅).
Proof.
  assert (Hargs : Unmarshal handler.decode_GetLocationArguments
                    (handler.AppSyncEvent.Arguments a_getLocation_event)
                    handler.GetLocationArguments.zero = Ok a_getLocation_arguments)
    by (vm_compute; reflexivity).
  exact (proj1 (proj2 (getLocation_failures
                         (appsync.as_Repository
                            (store_repository "test-table" "test-gsi") "loc-9")
                         unused unused unused unused a_getLocation_event ∅ eq_refl))
           a_getLocation_arguments (errorString "location not found") ∅
           Hargs eq_refl).
Defined.

(** A getLocation event for the record of the sample store. *)
Lemma getLocation_on_store_witness :
  handler.Handle
    (repo := appsync.as_Repository (store_repository "test-table" "test-gsi") "loc-9")
    unused unused unused unused a_getLocation_event a_store
  = (Ok (handler.ofMap
           (<["__typename" := GoString "AddressLocation"]>
              (<["locationId" := GoString "loc-1"]> (Location_fields main_street)))),
     a_store).
Proof.
  assert (Hargs : Unmarshal handler.decode_GetLocationArguments
                    (handler.AppSyncEvent.Arguments a_getLocation_event)
                    handler.GetLocationArguments.zero = Ok a_getLocation_arguments)
    by (vm_compute; reflexivity).
  assert (Hn : numbers_round_trip main_street) by (split; exact I).
  assert (Hlib : forall doc,
            encode_Location main_street = Ok doc ->
            json_scan (json_render doc) = Document doc).
  { intros doc Hdoc. vm_compute in Hdoc. injection Hdoc as <-. vm_compute. reflexivity. }
  exact (proj1 (proj1 (getLocation_on_store "test-table" "test-gsi" "loc-9"
                         unused unused unused unused a_getLocation_event
                         a_getLocation_arguments a_store eq_refl Hargs)
                  (stored main_street "loc-1") (record_of main_street "loc-1")
                  main_street eq_refl main_street_read_back eq_refl Hn Hlib)).
Defined.

(** [main_street] with an empty attributes map, encoded and decoded. *)
Lemma round_trip_up_to_empty_attributes_witness :
  exists doc,
    encode_Location main_street_empty_attributes = Ok doc /\
    (json_scan (json_render doc) = Document doc ->
     UnmarshalLocation (json_render doc) = Ok main_street).
Proof.
  assert (Hv : Validate main_street_empty_attributes = None) by reflexivity.
  assert (Hn : numbers_round_trip main_street_empty_attributes).
  { split; [apply map_Forall_empty|exact I]. }
  destruct (round_trip_up_to_empty_attributes main_street_empty_attributes Hv Hn)
    as (doc & He & Hback & _).
  exists doc. split; [exact He|exact Hback].
Defined.

(** The reference SDK reads the accountId attribute into the record. *)
Lemma reference_reads_accountId : reads_accountId.
Proof.
  intros it record a Hu Ha.
  cbn [attributevalue_UnmarshalMap reference.unmarshaler] in Hu.
  unfold reference.UnmarshalMap in Hu.
  apply bind_Ok in Hu as (pk & _ & Hu).
  apply bind_Ok in Hu as (sk & _ & Hu).
  apply bind_Ok in Hu as (acc & Hacc & Hu).
  apply bind_Ok in Hu as (lt & _ & Hu).
  apply bind_Ok in Hu as (ext & _ & Hu).
  apply bind_Ok in Hu as (addr & _ & Hu).
  apply bind_Ok in Hu as (coords & _ & Hu).
  injection Hu as <-. cbn [locationRecord.AccountID].
  unfold reference.av_string in Hacc. rewrite Ha in Hacc. congruence.
Qed.

(** A listing for acc-12345 of a store that also holds a record of
    acc-67890. *)
Lemma List_stays_within_the_account_witness :
  List (store_repository "test-table" "test-gsi") "acc-12345" None a_shared_store
  = (Ok {| ListResult.Locations := [main_street]; ListResult.NextCursor := None |},
     a_shared_store) /\
  Forall (fun location => GetAccountID location = "acc-12345") [main_street].
Proof.
  assert (Hl : List (store_repository "test-table" "test-gsi") "acc-12345" None
                 a_shared_store
               = (Ok {| ListResult.Locations := [main_street];
                        ListResult.NextCursor := None |}, a_shared_store))
    by (vm_compute; reflexivity).
  split; [exact Hl|].
  exact (proj1 (List_stays_within_the_account "test-table" "test-gsi" "acc-12345"
                  None a_shared_store a_shared_store _ reference_reads_accountId Hl)).
Defined.

(** A deleteLocation event against a repository that refuses: the handler
    of appsync.go answers with a response, not with an error. *)
Lemma appsync_go_responses_witness :
  appsync_go.Handle (repo := refusing (errorString "location not found or access denied"))
    unused_go unused_go unused_go a_deleteLocation_event tt
  = (Ok (appsync_go.ofDeleteResponse
           {| appsync_go.DeleteResponse.Success := false;
              appsync_go.DeleteResponse.Message :=
                "Failed to delete location: location not found or access denied" |}),
     tt).
Proof.
  assert (Hargs : Unmarshal appsync.decode_DeleteLocationArguments
                    (handler.AppSyncEvent.Arguments a_deleteLocation_event)
                    appsync.DeleteLocationArguments.zero
                  = Ok a_deleteLocation_arguments) by (vm_compute; reflexivity).
  exact (proj1 (proj2 (proj1 (appsync_go_responses
                                (refusing (errorString
                                             "location not found or access denied"))
                                unused_go unused_go unused_go
                                a_deleteLocation_event tt)
                         eq_refl a_deleteLocation_arguments Hargs))
           (errorString "location not found or access denied") tt eq_refl).
Defined.

End MoreExamples.
